(** * cool_yolov8: the annotation pipeline of [core.py]

    A shallow embedding of [core.py] (shape extraction from canvas records,
    geometry rescaling, colour classification, the per-frame annotation
    pass, and the JSON configuration codec) together with the properties
    the specification states about them.

    Conventions of the embedding.
    - Python values that the code handles without a static type (canvas
      records, the contents of [Draw.lines] and [Draw.zones], JSON
      documents) are values of [pyval]; lists and tuples are kept apart.
    - Python [int]s are [Z]. Python [float]s and the elements of
      [float64] arrays are the binary floating-point numbers of 64 bits
      ([f64.t]); their sums, products and quotients are rounded to the
      nearest float, ties to even. The elements of [int64] arrays are the
      integers of 64 bits.
    - What the detector reports (boxes, confidences, areas) and the
      readings of the clock are finite numbers, carried as exact
      rationals ([Q]); so are the palette transform and its distances.
    - A Python call that can raise returns a [result]; the exception is
      carried by [Err].
    - Objects that are painted or triggered in place (the frame buffer,
      the line and polygon zones) are threaded through the functions that
      mutate them. *)

From Stdlib Require Import ZArith QArith Qround Lia Lqa.
From Stdlib Require Import Floats.SpecFloat.
From stdpp Require Import base option list strings pretty gmap.

Scheme All for list.
Scheme All for prod.

(** ** Exceptions and the error monad *)

Inductive exn :=
| KeyError
| IndexError
| TypeError
| ValueError
| ZeroDivisionError
| FileNotFoundError
| WrongTypeError
| OverflowError
| CvError.

Inductive result (A : Type) :=
| Ok (a : A)
| Err (e : exn).
Arguments Ok {A} a.
Arguments Err {A} e.

#[export] Instance result_ret : MRet result := @Ok.
#[export] Instance result_bind : MBind result :=
  fun A B f m => match m with Ok a => f a | Err e => Err e end.
#[export] Instance result_fmap : FMap result :=
  fun A B f m => match m with Ok a => Ok (f a) | Err e => Err e end.

Definition is_Ok {A} (m : result A) : Prop := exists a, m = Ok a.

(** [for x in xs: ...] collecting the results, stopping at the first
    exception. *)
Fixpoint for_each {A B} (body : A -> result B) (xs : list A) : result (list B) :=
  match xs with
  | [] => Ok []
  | x :: xs' => v ← body x; vs ← for_each body xs'; Ok (v :: vs)
  end.

(** [[body(i) for i in d if cond(i)]]: the condition is evaluated before
    the body, element by element. *)
Fixpoint comprehension {A B} (cond : A -> result bool) (body : A -> result B)
    (d : list A) : result (list B) :=
  match d with
  | [] => Ok []
  | i :: d' =>
      c ← cond i;
      if c : bool
      then v ← body i; vs ← comprehension cond body d'; Ok (v :: vs)
      else comprehension cond body d'
  end.

(** ** Floating-point numbers *)

Module f64.

Definition t : Type := spec_float.

Definition prec : Z := 53.
Definition emax : Z := 1024.

(** The integer [z] as it stands, before any rounding. *)
Definition raw (z : Z) : t :=
  match z with
  | Z0 => S754_zero false
  | Zpos p => S754_finite false p 0
  | Zneg p => S754_finite true p 0
  end.

Definition is_finite (x : t) : bool :=
  match x with
  | S754_zero _ | S754_finite _ _ _ => true
  | _ => false
  end.

(** The float nearest to the integer [z]: the conversion of an element
    of an [int64] array. *)
Definition of_int64 (z : Z) : t := binary_normalize prec emax z 0 false.

(** The least integer that rounds beyond the floats: half way from the
    greatest float, 2^1024 - 2^971, to 2^1024. *)
Definition overflow_threshold : Z := (2 ^ 1024 - 2 ^ 970)%Z.

(** [float(z)] for a Python [int], as an arithmetic operation with a
    float operand makes it: an integer that rounds beyond the floats
    raises. *)
Definition of_int (z : Z) : result t :=
  if (Z.abs z <? overflow_threshold)%Z then Ok (of_int64 z)
  else Err OverflowError.

Definition add : t -> t -> t := SFadd prec emax.
Definition mul : t -> t -> t := SFmul prec emax.

(** The float nearest to the quotient of two integers, the divisor not
    zero: [a / b]. *)
Definition quotient (a b : Z) : t := SFdiv prec emax (raw a) (raw b).

(** The float nearest to a rational: how a decimal literal is read. *)
Definition of_Q (q : Q) : t := quotient (Qnum q) (Zpos (Qden q)).

(** The integer part of a finite float, towards zero. *)
Definition trunc (x : t) : option Z :=
  match x with
  | S754_zero _ => Some 0%Z
  | S754_finite s m e =>
      Some (cond_Zopp s (if (0 <=? e)%Z
                         then Zpos m * 2 ^ e
                         else Zpos m / 2 ^ (- e)))%Z
  | _ => None
  end.

Definition int64_min : Z := (- 2 ^ 63)%Z.
Definition int64_max : Z := (2 ^ 63 - 1)%Z.

Definition in_int64 (z : Z) : bool :=
  ((int64_min <=? z) && (z <=? int64_max))%Z.

(** [x.astype(int)] for one element: the integer part when an integer
    of 64 bits holds it; otherwise, and for an infinity or a NaN, the
    least integer of 64 bits, which is what the conversion instruction
    of x86-64 gives. *)
Definition to_int64 (x : t) : Z :=
  match trunc x with
  | Some z => if in_int64 z then z else int64_min
  | None => int64_min
  end.

(** The exact value of a finite float. *)
Definition to_Q (x : t) : option Q :=
  match x with
  | S754_zero _ => Some 0%Q
  | S754_finite s m e => Some (inject_Z (cond_Zopp s (Zpos m)) * 2 ^ e)%Q
  | _ => None
  end.

End f64.

(** ** Python values *)

Inductive pyval :=
| PNone
| PBool (b : bool)
| PInt (n : Z)
| PFloat (x : f64.t)
| PStr (s : string)
| PList (l : list pyval)
| PTuple (l : list pyval)
| PDict (d : list (string * pyval)).

(** A Python number: [bool] is a subclass of [int]. *)
Inductive number :=
| NInt (n : Z)
| NFloat (x : f64.t).

Definition as_number (v : pyval) : option number :=
  match v with
  | PBool b => Some (NInt (if b then 1 else 0))
  | PInt n => Some (NInt n)
  | PFloat x => Some (NFloat x)
  | _ => None
  end.

(** The float operand that a number makes in an operation with a
    float. *)
Definition to_float (n : number) : result f64.t :=
  match n with
  | NInt z => f64.of_int z
  | NFloat x => Ok x
  end.

(** [a + b] *)
Definition py_add (a b : pyval) : result pyval :=
  match as_number a, as_number b with
  | Some (NInt m), Some (NInt n) => Ok (PInt (m + n))
  | Some m, Some n =>
      x ← to_float m; y ← to_float n; Ok (PFloat (f64.add x y))
  | _, _ =>
      match a, b with
      | PStr s, PStr t => Ok (PStr (s +:+ t))
      | PList l, PList l' => Ok (PList (l ++ l'))
      | PTuple l, PTuple l' => Ok (PTuple (l ++ l'))
      | _, _ => Err TypeError
      end
  end.

(** [v * scale] for a float [scale] *)
Definition py_mul_float (v : pyval) (scale : f64.t) : result pyval :=
  match as_number v with
  | Some n => x ← to_float n; Ok (PFloat (f64.mul x scale))
  | None => Err TypeError
  end.

(** [v == 'literal'] *)
Definition py_eq_str (v : pyval) (s : string) : bool :=
  match v with
  | PStr t => bool_decide (t = s)
  | _ => false
  end.

Fixpoint dict_get (d : list (string * pyval)) (k : string) : option pyval :=
  match d with
  | [] => None
  | (k', v) :: d' => if decide (k' = k) then Some v else dict_get d' k
  end.

(** [v['key']] *)
Definition py_getitem_key (v : pyval) (k : string) : result pyval :=
  match v with
  | PDict d => match dict_get d k with Some x => Ok x | None => Err KeyError end
  | _ => Err TypeError
  end.

Fixpoint string_chars (s : string) : list pyval :=
  match s with
  | EmptyString => []
  | String c s' => PStr (String c EmptyString) :: string_chars s'
  end.

(** [v[n]] for a literal index [n >= 0]; the dictionaries at hand have
    string keys only. *)
Definition py_getitem_idx (v : pyval) (n : nat) : result pyval :=
  match v with
  | PList l | PTuple l =>
      match l !! n with Some x => Ok x | None => Err IndexError end
  | PStr s =>
      match string_chars s !! n with Some x => Ok x | None => Err IndexError end
  | PDict _ => Err KeyError
  | _ => Err TypeError
  end.

Fixpoint string_init (s : string) : string :=
  match s with
  | EmptyString => EmptyString
  | String c EmptyString => EmptyString
  | String c s' => String c (string_init s')
  end.

(** [v[:-1]]; slicing a dictionary raises (a [TypeError] up to Python
    3.11). *)
Definition py_init (v : pyval) : result pyval :=
  match v with
  | PList l => Ok (PList (removelast l))
  | PTuple l => Ok (PTuple (removelast l))
  | PStr s => Ok (PStr (string_init s))
  | _ => Err TypeError
  end.

(** [for x in v] *)
Definition py_iter (v : pyval) : result (list pyval) :=
  match v with
  | PList l | PTuple l => Ok l
  | PStr s => Ok (string_chars s)
  | PDict d => Ok (map (fun kv => PStr (fst kv)) d)
  | _ => Err TypeError
  end.

(** ** The dataclasses *)

(** The value of a field annotated [float]: [dacite] lets an [int], and
    so a [bool], pass for a float, and stores it as it is. *)
Inductive real :=
| RFloat (x : f64.t)
| RInt (n : Z)
| RBool (b : bool).

Definition real_val (r : real) : pyval :=
  match r with
  | RFloat x => PFloat x
  | RInt n => PInt n
  | RBool b => PBool b
  end.

(** [r * 2] *)
Definition real_double (r : real) : real :=
  match r with
  | RFloat x => RFloat (f64.mul x (f64.of_int64 2))
  | RInt n => RInt (n * 2)
  | RBool b => RInt (if b then 2 else 0)
  end.

(** [Draw]: line and zone geometry, two untyped lists. *)
Module Draw.

Record t := mk {
  lines : list pyval;
  zones : list pyval
}.

Definition default : t := mk [] [].

(** [len(draw)] *)
Definition len (d : t) : nat := (length (lines d) + length (zones d))%nat.

(** [i['type'] == kind] *)
Definition type_is (kind : string) (i : pyval) : result bool :=
  t ← py_getitem_key i "type"; Ok (py_eq_str t kind).

(** [i[k1] + i[k2]] *)
Definition field_sum (i : pyval) (k1 k2 : string) : result pyval :=
  a ← py_getitem_key i k1; b ← py_getitem_key i k2; py_add a b.

(** The element of the [lines] comprehension (lines 136-139). *)
Definition canvas_line (i : pyval) : result pyval :=
  a ← field_sum i "left" "x1";
  b ← field_sum i "top" "y1";
  c ← field_sum i "left" "x2";
  d ← field_sum i "top" "y2";
  Ok (PTuple [PTuple [a; b]; PTuple [c; d]]).

(** The element of the [rect] comprehension (lines 148-153). *)
Definition canvas_rect (i : pyval) : result pyval :=
  l0 ← py_getitem_key i "left";
  t0 ← py_getitem_key i "top";
  r1 ← field_sum i "left" "width";
  t1 ← py_getitem_key i "top";
  r2 ← field_sum i "left" "width";
  b2 ← field_sum i "top" "height";
  l3 ← py_getitem_key i "left";
  b3 ← field_sum i "top" "height";
  Ok (PList [PList [l0; t0]; PList [r1; t1]; PList [r2; b2]; PList [l3; b3]]).

(** [[x[1], x[2]]] *)
Definition path_vertex (x : pyval) : result pyval :=
  a ← py_getitem_idx x 1; b ← py_getitem_idx x 2; Ok (PList [a; b]).

(** [[[x[1], x[2]] for x in k]] *)
Definition path_polygon (k : pyval) : result pyval :=
  xs ← py_iter k; vs ← for_each path_vertex xs; Ok (PList vs).

(** The polygon of one path record: its commands but the last. *)
Definition canvas_path (i : pyval) : result pyval :=
  j ← py_getitem_key i "path"; k ← py_init j; path_polygon k.

(** [Draw.from_canvas(d)] (lines 132-157): the line comprehension, then
    the three nested path comprehensions from the innermost outwards,
    then the rectangle comprehension. *)
Definition from_canvas (d : list pyval) : result t :=
  ls ← comprehension (type_is "line") canvas_line d;
  js ← comprehension (type_is "path") (fun i => py_getitem_key i "path") d;
  ks ← for_each py_init js;
  ps ← for_each path_polygon ks;
  rs ← comprehension (type_is "rect") canvas_rect d;
  Ok (mk ls (ps ++ rs)).

End Draw.

Module Display.

Record t := mk {
  fps : bool;
  predict_color : bool;
  box : bool;
  skip_label : bool;
  mask : bool;
  mask_opacity : real;
  area : bool
}.

Definition default : t :=
  mk true false true false true (RFloat (f64.of_Q (1 # 2))) true.

End Display.

Module Tweak.

Record t := mk {
  thickness : Z;
  text_scale : real;
  text_offset : Z;
  text_padding : Z;
  text_color : string
}.

Definition default : t := mk 1 (RFloat (f64.of_Q (1 # 2))) 1 2 "#000000".

End Tweak.

Module ModelInfo.

Record t := mk {
  path : string;
  classes : list Z;
  ver : string;
  task : string;
  conf : real;
  tracker : option string
}.

Definition default : t :=
  mk "yolov8n.pt" [] "v8" "detect" (RFloat (f64.of_Q (1 # 4))) None.

End ModelInfo.

(** ** JSON documents, [dataclasses.asdict] and [dacite.from_dict] *)

Inductive json :=
| JNull
| JBool (b : bool)
| JInt (n : Z)
| JFloat (x : f64.t)
| JStr (s : string)
| JArr (l : list json)
| JObj (d : list (string * json)).

(** What [json.dump] writes for a value: lists and tuples both become
    arrays. *)
Fixpoint json_dump (v : pyval) : json :=
  match v with
  | PNone => JNull
  | PBool b => JBool b
  | PInt n => JInt n
  | PFloat x => JFloat x
  | PStr s => JStr s
  | PList l => JArr (map json_dump l)
  | PTuple l => JArr (map json_dump l)
  | PDict d => JObj (map (fun kv => (fst kv, json_dump (snd kv))) d)
  end.

(** What [json.load] reads from a document: arrays become lists. *)
Fixpoint json_load (j : json) : pyval :=
  match j with
  | JNull => PNone
  | JBool b => PBool b
  | JInt n => PInt n
  | JFloat x => PFloat x
  | JStr s => PStr s
  | JArr l => PList (map json_load l)
  | JObj d => PDict (map (fun kv => (fst kv, json_load (snd kv))) d)
  end.

(** The file system, as far as the codec goes: the documents by path. *)
Abbreviation files := (gmap string json).

(** [name in data], the test [from_dict] makes before it reads a field. *)
Definition py_contains (data : pyval) (name : string) : result bool :=
  match data with
  | PDict d => Ok (bool_decide (is_Some (dict_get d name)))
  | PList l | PTuple l => Ok (existsb (fun v => py_eq_str v name) l)
  | PStr s => Ok (bool_decide (is_Some (String.index 0 name s)))
  | _ => Err TypeError
  end.

(** The value [from_dict] finds for a field, if the document has it. *)
Definition field_data (data : pyval) (name : string) : result (option pyval) :=
  c ← py_contains data name;
  if c : bool then v ← py_getitem_key data name; Ok (Some v) else Ok None.

(** The type checks of [dacite], by annotation. *)
Definition check_bool (v : pyval) : result bool :=
  match v with
  | PBool b => Ok b
  | _ => Err WrongTypeError
  end.

(** [int]: a [bool] passes as the integer it equals. *)
Definition check_int (v : pyval) : result Z :=
  match v with
  | PInt n => Ok n
  | PBool b => Ok (if b then 1 else 0)%Z
  | _ => Err WrongTypeError
  end.

(** [float]: an [int] or a [bool] passes too, and stays what it is. *)
Definition check_float (v : pyval) : result real :=
  match v with
  | PFloat x => Ok (RFloat x)
  | PInt n => Ok (RInt n)
  | PBool b => Ok (RBool b)
  | _ => Err WrongTypeError
  end.

Definition check_str (v : pyval) : result string :=
  match v with
  | PStr s => Ok s
  | _ => Err WrongTypeError
  end.

(** [str | None] *)
Definition check_opt_str (v : pyval) : result (option string) :=
  match v with
  | PNone => Ok None
  | PStr s => Ok (Some s)
  | _ => Err WrongTypeError
  end.

(** [list] *)
Definition check_list (v : pyval) : result (list pyval) :=
  match v with
  | PList l => Ok l
  | _ => Err WrongTypeError
  end.

(** [list[int]] *)
Definition check_list_int (v : pyval) : result (list Z) :=
  match v with
  | PList l => for_each check_int l
  | _ => Err WrongTypeError
  end.

(** A field of [from_dict]: the checked value of the document, or the
    default of the dataclass when the document lacks the field. *)
Definition field {A} (data : pyval) (name : string)
    (check : pyval -> result A) (default : A) : result A :=
  o ← field_data data name;
  match o with
  | Some v => check v
  | None => Ok default
  end.

Definition asdict_ModelInfo (i : ModelInfo.t) : pyval :=
  PDict [("path", PStr (ModelInfo.path i));
         ("classes", PList (map PInt (ModelInfo.classes i)));
         ("ver", PStr (ModelInfo.ver i));
         ("task", PStr (ModelInfo.task i));
         ("conf", real_val (ModelInfo.conf i));
         ("tracker", match ModelInfo.tracker i with
                     | Some s => PStr s
                     | None => PNone
                     end)].

Definition asdict_Draw (d : Draw.t) : pyval :=
  PDict [("lines", PList (Draw.lines d)); ("zones", PList (Draw.zones d))].

Definition asdict_Display (d : Display.t) : pyval :=
  PDict [("fps", PBool (Display.fps d));
         ("predict_color", PBool (Display.predict_color d));
         ("box", PBool (Display.box d));
         ("skip_label", PBool (Display.skip_label d));
         ("mask", PBool (Display.mask d));
         ("mask_opacity", real_val (Display.mask_opacity d));
         ("area", PBool (Display.area d))].

Definition asdict_Tweak (t : Tweak.t) : pyval :=
  PDict [("thickness", PInt (Tweak.thickness t));
         ("text_scale", real_val (Tweak.text_scale t));
         ("text_offset", PInt (Tweak.text_offset t));
         ("text_padding", PInt (Tweak.text_padding t));
         ("text_color", PStr (Tweak.text_color t))].

Definition from_dict_ModelInfo (data : pyval) : result ModelInfo.t :=
  let d := ModelInfo.default in
  path ← field data "path" check_str (ModelInfo.path d);
  classes ← field data "classes" check_list_int (ModelInfo.classes d);
  ver ← field data "ver" check_str (ModelInfo.ver d);
  task ← field data "task" check_str (ModelInfo.task d);
  conf ← field data "conf" check_float (ModelInfo.conf d);
  tracker ← field data "tracker" check_opt_str (ModelInfo.tracker d);
  Ok (ModelInfo.mk path classes ver task conf tracker).

Definition from_dict_Draw (data : pyval) : result Draw.t :=
  lines ← field data "lines" check_list [];
  zones ← field data "zones" check_list [];
  Ok (Draw.mk lines zones).

Definition from_dict_Display (data : pyval) : result Display.t :=
  let d := Display.default in
  fps ← field data "fps" check_bool (Display.fps d);
  predict_color ← field data "predict_color" check_bool (Display.predict_color d);
  box ← field data "box" check_bool (Display.box d);
  skip_label ← field data "skip_label" check_bool (Display.skip_label d);
  mask ← field data "mask" check_bool (Display.mask d);
  mask_opacity ← field data "mask_opacity" check_float (Display.mask_opacity d);
  area ← field data "area" check_bool (Display.area d);
  Ok (Display.mk fps predict_color box skip_label mask mask_opacity area).

Definition from_dict_Tweak (data : pyval) : result Tweak.t :=
  let d := Tweak.default in
  thickness ← field data "thickness" check_int (Tweak.thickness d);
  text_scale ← field data "text_scale" check_float (Tweak.text_scale d);
  text_offset ← field data "text_offset" check_int (Tweak.text_offset d);
  text_padding ← field data "text_padding" check_int (Tweak.text_padding d);
  text_color ← field data "text_color" check_str (Tweak.text_color d);
  Ok (Tweak.mk thickness text_scale text_offset text_padding text_color).

(** ** Frames and numeric arrays *)

(** An image is a [numpy] array of shape (height, width, 3), blue first. *)
Definition pixel : Type := Z * Z * Z.
Definition frame : Type := list (list pixel).

(** [f.shape[0]] and [f.shape[1]] (the width of an image without rows is
    taken as zero) *)
Definition frame_height (f : frame) : Z := Z.of_nat (length f).
Definition frame_width (f : frame) : Z :=
  match f with
  | [] => 0
  | row :: _ => Z.of_nat (length row)
  end.

(** The first and the third channel of every pixel swapped. *)
Definition swap_channels (f : frame) : frame :=
  map (map (fun p : pixel => let '(b, g, r) := p in (r, g, b))) f.

(** [cvt(f)] (lines 34-35) for an image of three channels:
    [cv2.cvtColor(f, cv2.COLOR_BGR2RGB)] swaps the first and the third
    channel, and raises on an image without pixels. *)
Definition cvt (f : frame) : result frame :=
  if decide (frame_height f = 0%Z \/ frame_width f = 0%Z)
  then Err CvError
  else Ok (swap_channels f).

(** The integer part of a rational, towards zero. *)
Definition trunc (q : Q) : Z := Z.quot (Qnum q) (Zpos (Qden q)).

Module np.

(** A two-dimensional array, by rows, with its element type: integers
    of 64 bits, floats, or another type (booleans; integers that 64 bits
    do not hold, which [numpy] keeps as unsigned or as objects). *)
Inductive ndarray :=
| Ints (rows : list (list Z))
| Floats (rows : list (list f64.t))
| Bools (rows : list (list bool))
| Objects (rows : list (list Z)).

(** The rows of a sequence of sequences of numbers. *)
Definition row_of (v : pyval) : result (list pyval) :=
  match v with
  | PList l | PTuple l =>
      if forallb (fun x => bool_decide (is_Some (as_number x))) l
      then Ok l
      else Err ValueError
  | _ => Err ValueError
  end.

Definition uniform {A} (rows : list (list A)) : bool :=
  match rows with
  | [] => true
  | r :: rs => forallb (fun r' => Nat.eqb (length r') (length r)) rs
  end.

Definition is_float (v : pyval) : bool :=
  match v with PFloat _ => true | _ => false end.

Definition is_bool (v : pyval) : bool :=
  match v with PBool _ => true | _ => false end.

Definition int_of (v : pyval) : Z :=
  match as_number v with
  | Some (NInt z) => z
  | _ => 0
  end.

Definition bool_of (v : pyval) : bool :=
  match v with PBool b => b | _ => false end.

(** The element of a [float64] array that a number makes; [None] for an
    integer beyond the floats. *)
Definition float_of (v : pyval) : option f64.t :=
  match as_number v with
  | Some (NFloat x) => Some x
  | Some (NInt z) =>
      match f64.of_int z with Ok x => Some x | Err _ => None end
  | None => None
  end.

(** The element type [numpy] finds for the numbers [cells], and the
    array of the rows: [float64] when there is no number at all or one
    of them is a float, [bool] when all are booleans, [int64] when all
    are integers that 64 bits hold. *)
Definition typed (rows : list (list pyval)) : ndarray :=
  let cells := concat rows in
  if existsb is_float cells || bool_decide (cells = [])
  then match mapM (mapM float_of) rows with
       | Some a => Floats a
       | None => Objects (map (map int_of) rows)
       end
  else if forallb is_bool cells
       then Bools (map (map bool_of) rows)
       else if forallb (fun v => f64.in_int64 (int_of v)) cells
            then Ints (map (map int_of) rows)
            else Objects (map (map int_of) rows).

(** [np.array(p)] for a polygon [p]: a sequence of equally long
    sequences of numbers. Anything else is taken to raise, here or in
    the zone built from it. *)
Definition array (p : pyval) : result ndarray :=
  match p with
  | PList l | PTuple l =>
      rows ← for_each row_of l;
      if uniform rows then Ok (typed rows) else Err ValueError
  | _ => Err ValueError
  end.

(** [a * scale] for an array of integers and a float: every element is
    converted to a float and multiplied. *)
Definition mul (a : list (list Z)) (scale : f64.t) : list (list f64.t) :=
  map (map (fun v => f64.mul (f64.of_int64 v) scale)) a.

(** [a.astype(int)] *)
Definition astype_int (a : list (list f64.t)) : list (list Z) :=
  map (map f64.to_int64) a.

(** The sum of two integers of 64 bits, which wraps around. *)
Definition wrap64 (z : Z) : Z := ((z + 2 ^ 63) `mod` 2 ^ 64 - 2 ^ 63)%Z.

(** [.astype(int)] for one element of a [float32] array that holds the
    finite number [q], and [.astype(np.int32)] likewise. *)
Definition int64_of (q : Q) : Z :=
  let z := trunc q in if f64.in_int64 z then z else f64.int64_min.

Definition int32_of (q : Q) : Z :=
  let z := trunc q in
  if ((- 2 ^ 31 <=? z) && (z <? 2 ^ 31))%Z then z else (- 2 ^ 31)%Z.

End np.

(** ** Colour classification *)

(** One row of [rgb2ycc] (lines 60-66). *)
Definition rgb2ycc (rgb : Z * Z * Z) : Q * Q * Q :=
  let '(r0, g0, b0) := rgb in
  let r := (inject_Z r0 / 255)%Q in
  let g := (inject_Z g0 / 255)%Q in
  let b := (inject_Z b0 / 255)%Q in
  let y := ((299 # 1000) * r + (587 # 1000) * g + (114 # 1000) * b)%Q in
  let cb := (128 - (168736 # 1000000) * r - (331364 # 1000000) * g
             + (5 # 10) * b)%Q in
  let cr := (128 + (5 # 10) * r - (418688 # 1000000) * g
             - (81312 # 1000000) * b)%Q in
  (Qred y, Qred cb, Qred cr).

(** [np.sum((c - x) ** 2)] for one palette row [c] *)
Definition sqdist (c x : Q * Q * Q) : Q :=
  let '(c0, c1, c2) := c in
  let '(x0, x1, x2) := x in
  Qred ((c0 - x0) ^ 2 + (c1 - x1) ^ 2 + (c2 - x2) ^ 2)%Q.

Definition Qltb (a b : Q) : bool := negb (Qle_bool b a).

(** The scan behind [np.argmin]: the index kept changes only when a
    strictly smaller value is met. *)
Fixpoint argmin_from (best_i : nat) (best : Q) (i : nat) (l : list Q) : nat :=
  match l with
  | [] => best_i
  | q :: l' =>
      if Qltb q best
      then argmin_from i q (S i) l'
      else argmin_from best_i best (S i) l'
  end.

(** [np.argmin(l)]; an empty sequence raises. *)
Definition argmin (l : list Q) : result nat :=
  match l with
  | [] => Err ValueError
  | q :: l' => Ok (argmin_from 0 q 1 l')
  end.

(** [closest(rgb, ycc_colors)] (lines 69-70) *)
Definition closest (rgb : Z * Z * Z) (ycc_colors : list (Q * Q * Q)) : result nat :=
  argmin (map (fun c => sqdist c (rgb2ycc rgb)) ycc_colors).

(** ** Objects of the [supervision] library *)

Module Color.
Record t := mk { r : Z; g : Z; b : Z }.
End Color.

Module Point.
Record t := mk { x : pyval; y : pyval }.
End Point.

(** [LineZone]: a directed segment and its running crossing counters,
    which start at zero. *)
Module LineZone.

Record t := mk {
  start : Point.t;
  end_ : Point.t;
  tracker_state : list (Z * bool);
  in_count : Z;
  out_count : Z
}.

Definition new (s e : Point.t) : t := mk s e [] 0 0.

End LineZone.

(** [PolygonZone]: an array of integer vertices, the resolution it lives
    in, and its running containment counter, which starts at zero. *)
Module PolygonZone.

Record t := mk {
  polygon : list (list Z);
  frame_resolution_wh : Z * Z;
  current_count : Z
}.

Definition new (p : list (list Z)) (wh : Z * Z) : t := mk p wh 0.

(** [PolygonZone(polygon=a, frame_resolution_wh=wh)]. The constructor
    fills the polygon into a mask of the resolution ([np.zeros], then
    [cv2.fillPoly]): that raises unless the array holds integers, has a
    vertex, and has rows of two coordinates, and unless no side of the
    resolution is negative. *)
Definition init (a : np.ndarray) (wh : Z * Z) : result t :=
  if ((0 <=? fst wh) && (0 <=? snd wh))%Z
  then
    match a with
    | np.Ints rows =>
        if bool_decide (rows <> [])
           && forallb (fun r => Nat.eqb (length r) 2) rows
        then Ok (new rows wh)
        else Err CvError
    | _ => Err CvError
    end
  else Err ValueError.

End PolygonZone.

Module LineZoneAnnotator.
Record t := mk {
  thickness : Z;
  text_color : Color.t;
  text_scale : real;
  text_offset : Z;
  text_padding : Z
}.
End LineZoneAnnotator.

Module BoxAnnotator.
Record t := mk {
  thickness : Z;
  text_color : Color.t;
  text_scale : real;
  text_padding : Z
}.
End BoxAnnotator.

(** [PolygonZoneAnnotator]. Its [zone] attribute is a reference to the
    zone object that [Annotator.zs] holds at the same index (lines 271
    and 407), so it is not duplicated here: the painter is handed that
    zone. [center] is the label anchor. *)
Module PolygonZoneAnnotator.
Record t := mk {
  thickness : Z;
  text_color : Color.t;
  text_scale : real;
  text_padding : Z;
  color : Color.t;
  center : Point.t
}.
End PolygonZoneAnnotator.

(** One row of a [Detections] object. *)
Module Detection.
Record t := mk {
  xyxy : Q * Q * Q * Q;
  confidence : option Q;
  class_id : option Z;
  tracker_id : option Z
}.
End Detection.

(** One [Results] object of the [ultralytics] models: [boxes] is absent
    or carries the optional track ids; [detections] is what
    [Detections.from_yolov8] reads from it; [plot] is the model's own
    rendering. *)
Module Results.
Record t := mk {
  boxes : option (option (list Z));
  detections : list Detection.t;
  plot : frame
}.
End Results.

(** A loaded detection model: the loader that made it ([RTDETR(path)],
    [YOLO(path)] or [yolov5.load(path)]), the weights it was made from,
    and the [classes] and [conf] attributes, which are set on a legacy
    model only (lines 191-193). What it detects is external. *)
Module Handle.

Inductive loader :=
| RTDETR
| YOLO
| yolov5.

Record t := mk {
  made_by : loader;
  weights : string;
  classes : option (list Z);
  conf : option real
}.

Definition load (l : loader) (path : string) : t := mk l path None None.

Definition configure (h : t) (classes : list Z) (conf : real) : t :=
  mk (made_by h) (weights h) (Some classes) (Some conf).

End Handle.

(** ** The external collaborators

    What the detection models report, the painters and triggers of
    [supervision], [cv2.kmeans], [cv2.cvtColor] on an array that is no
    image of three channels, number formatting, and the palette of the
    [color] module, which is not part of [core.py]. Painters take the
    frame buffer and give it back painted. *)
Class Externals := {
  handle_names : Handle.t -> list (Z * string);
  yolov5_detect : Handle.t -> frame -> list Detection.t;
  handle_predict : Handle.t -> frame -> list Z -> real -> option string
                   -> list Results.t;
  cvt_rows : list (Q * Q * Q) -> result (list (Q * Q * Q));
  kmeans_center : list (Q * Q * Q) -> result (Q * Q * Q);
  crop : frame -> Z * Z * Z * Z -> frame;
  draw_text : frame -> string -> Point.t -> Color.t -> real -> Z
              -> option Color.t -> frame;
  box_annotate : BoxAnnotator.t -> frame -> list Detection.t -> list string
                 -> bool -> frame;
  mask_annotate : frame -> list Detection.t -> real -> frame;
  line_annotate : LineZoneAnnotator.t -> frame -> LineZone.t -> frame;
  zone_annotate : PolygonZoneAnnotator.t -> PolygonZone.t -> frame -> frame;
  line_trigger : LineZone.t -> list Detection.t -> LineZone.t;
  zone_trigger : PolygonZone.t -> list Detection.t -> PolygonZone.t;
  get_polygon_center : list (list Z) -> Point.t;
  Color_from_hex : string -> result Color.t;
  palette_by_idx : nat -> Color.t;
  detection_area : Detection.t -> Q;
  format_conf : Q -> string;
  format_fps : Q -> string;
  format_int : Z -> string;
  colors : list string;
  colors_rgb : list (Z * Z * Z)
}.

(** [ycc_colors = rgb2ycc(colors_rgb)] (line 97) *)
Definition ycc_colors `{Externals} : list (Q * Q * Q) := map rgb2ycc colors_rgb.

(** [avg_rgb(f)] (lines 73-81): the pixels of the region one per row
    ([f.reshape(-1, 3)], blue first), as [float32]; [cvt] of that array,
    which has two dimensions and so is no image of three channels to
    [cv2.cvtColor]; the single k-means centre of the rows that come
    back; its three numbers as integers of 32 bits. *)
Definition avg_rgb `{Externals} (f : frame) : result (Z * Z * Z) :=
  let flat := map (fun p : pixel =>
                     let '(b, g, r) := p in (inject_Z b, inject_Z g, inject_Z r))
                  (concat f) in
  rows ← cvt_rows flat;
  c ← kmeans_center rows;
  let '(c0, c1, c2) := c in
  Ok (np.int32_of c0, np.int32_of c1, np.int32_of c2).

(** ** [Model] *)

Module Model.
Section WithExternals.
Context `{Externals}.

Record t := mk {
  classes : list Z;
  conf : real;
  tracker : option string;
  legacy : bool;
  model : Handle.t;
  names : list (Z * string);
  info : ModelInfo.t
}.

(** [Model.__init__] (lines 171-195) *)
Definition init (info : ModelInfo.t) : t :=
  let path := ModelInfo.path info in
  let ver := ModelInfo.ver info in
  let legacy := bool_decide (ver = "v5") in
  let '(m, ns) :=
    if bool_decide (ver = "rtdetr")
    then (Handle.load Handle.RTDETR path, [])
    else
      let m := if negb legacy
               then Handle.load Handle.YOLO path
               else Handle.load Handle.yolov5 path in
      (m, handle_names m) in
  let m :=
    if legacy
    then Handle.configure m (ModelInfo.classes info) (ModelInfo.conf info)
    else m in
  mk (ModelInfo.classes info) (ModelInfo.conf info) (ModelInfo.tracker info)
     legacy m ns info.

(** [Model.__call__] (lines 197-213): [predict], or [track] with the
    tracker's configuration file. *)
Definition call (self : t) (source : frame) : list Results.t :=
  match tracker self with
  | None => handle_predict (model self) source (classes self) (conf self) None
  | Some tr =>
      handle_predict (model self) source (classes self) (conf self)
                     (Some (tr +:+ ".yaml"))
  end.

Definition with_tracker_ids (det : list Detection.t) (ids : list Z)
    : list Detection.t :=
  zip_with (fun d i => Detection.mk (Detection.xyxy d) (Detection.confidence d)
                                    (Detection.class_id d) (Some i)) det ids.

(** [Model.det] (lines 215-226): the detections and the model's own
    preview image. *)
Definition det (self : t) (f : frame) : result (list Detection.t * frame) :=
  if legacy self
  then
    let d := yolov5_detect (model self) f in
    preview ← cvt f; Ok (d, preview)
  else
    match call self f with
    | [] => Err IndexError
    | res :: _ =>
        match Results.boxes res with
        | Some ids =>
            let d := Results.detections res in
            let d := match ids with
                     | Some ids => with_tracker_ids d ids
                     | None => d
                     end in
            preview ← cvt (Results.plot res); Ok (d, preview)
        | None => preview ← cvt (Results.plot res); Ok ([], preview)
        end
    end.

End WithExternals.
End Model.

(** ** [Annotator] *)

Module Annotator.
Section WithExternals.
Context `{Externals}.

Record t := mk {
  model : Model.t;
  reso : Z * Z;
  draw : Draw.t;
  display : Display.t;
  tweak : Tweak.t;
  ls : list LineZone.t;
  zs : list PolygonZone.t;
  text_color : Color.t;
  line : LineZoneAnnotator.t;
  box : BoxAnnotator.t;
  zones : list PolygonZoneAnnotator.t
}.

(** [LineZone(start=Point(i[0][0], i[0][1]), end=Point(i[1][0], i[1][1]))] *)
Definition line_zone (i : pyval) : result LineZone.t :=
  i0 ← py_getitem_idx i 0;
  a ← py_getitem_idx i0 0;
  b ← py_getitem_idx i0 1;
  i1 ← py_getitem_idx i 1;
  c ← py_getitem_idx i1 0;
  d ← py_getitem_idx i1 1;
  Ok (LineZone.new (Point.mk a b) (Point.mk c d)).

(** [PolygonZone(polygon=np.array(p), frame_resolution_wh=reso)] *)
Definition polygon_zone (reso : Z * Z) (p : pyval) : result PolygonZone.t :=
  a ← np.array p; PolygonZone.init a reso.

Definition zone_annotator (tw : Tweak.t) (tc : Color.t) (i : nat)
    (z : PolygonZone.t) : PolygonZoneAnnotator.t :=
  PolygonZoneAnnotator.mk (Tweak.thickness tw) tc (Tweak.text_scale tw)
    (Tweak.text_padding tw) (palette_by_idx i)
    (get_polygon_center (PolygonZone.polygon z)).

(** [Annotator.__init__] (lines 230-276) *)
Definition init (model : Model.t) (reso : Z * Z) (draw : Draw.t)
    (display : Display.t) (tweak : Tweak.t) : result t :=
  ls ← for_each line_zone (Draw.lines draw);
  zs ← for_each (polygon_zone reso) (Draw.zones draw);
  tc ← Color_from_hex (Tweak.text_color tweak);
  let line := LineZoneAnnotator.mk (Tweak.thickness tweak) tc
                (Tweak.text_scale tweak) (Tweak.text_offset tweak)
                (Tweak.text_padding tweak) in
  let box := BoxAnnotator.mk (Tweak.thickness tweak) tc
               (Tweak.text_scale tweak) (Tweak.text_padding tweak) in
  Ok (mk model reso draw display tweak ls zs tc line box
         (imap (zone_annotator tweak tc) zs)).

(** *** [Annotator.update] (lines 386-408) *)

(** The element of the [self.ls] comprehension of [update]. *)
Definition scaled_line_zone (scale : f64.t) (i : pyval) : result LineZone.t :=
  i0 ← py_getitem_idx i 0;
  a ← py_getitem_idx i0 0;
  a ← py_mul_float a scale;
  b ← py_getitem_idx i0 1;
  b ← py_mul_float b scale;
  i1 ← py_getitem_idx i 1;
  c ← py_getitem_idx i1 0;
  c ← py_mul_float c scale;
  d ← py_getitem_idx i1 1;
  d ← py_mul_float d scale;
  Ok (LineZone.new (Point.mk a b) (Point.mk c d)).

(** The element of the [self.zs] comprehension of [update]. *)
Definition scaled_polygon_zone (scale : f64.t) (wh : Z * Z) (z : PolygonZone.t)
    : result PolygonZone.t :=
  PolygonZone.init
    (np.Ints (np.astype_int (np.mul (PolygonZone.polygon z) scale))) wh.

(** [for i, z in enumerate(self.zs)]: annotator [i] is pointed at zone
    [i] and gets its centre; an index past the annotators raises. *)
Fixpoint retarget (i : nat) (zs : list PolygonZone.t)
    (zones : list PolygonZoneAnnotator.t) : result (list PolygonZoneAnnotator.t) :=
  match zs with
  | [] => Ok zones
  | z :: zs' =>
      match zones !! i with
      | None => Err IndexError
      | Some a =>
          let a' := PolygonZoneAnnotator.mk
                      (PolygonZoneAnnotator.thickness a)
                      (PolygonZoneAnnotator.text_color a)
                      (PolygonZoneAnnotator.text_scale a)
                      (PolygonZoneAnnotator.text_padding a)
                      (PolygonZoneAnnotator.color a)
                      (get_polygon_center (PolygonZone.polygon z)) in
          retarget (S i) zs' (<[i := a']> zones)
      end
  end.

(** [f.shape[0] / self.reso[1]]: true division of two integers, which
    gives the float nearest to the quotient. (The height of an array is
    below 2^63, so that float is never out of range.) *)
Definition scale_of (f : frame) (reso : Z * Z) : result f64.t :=
  if decide (snd reso = 0%Z)
  then Err ZeroDivisionError
  else Ok (f64.quotient (frame_height f) (snd reso)).

Definition update (self : t) (f : frame) : result t :=
  scale ← scale_of f (reso self);
  ls ← for_each (scaled_line_zone scale) (Draw.lines (draw self));
  origin_zs ← for_each (polygon_zone (reso self)) (Draw.zones (draw self));
  zs ← for_each (scaled_polygon_zone scale (frame_width f, frame_height f))
                origin_zs;
  zones ← retarget 0 zs (zones self);
  Ok (mk (model self) (reso self) (draw self) (display self) (tweak self)
         ls zs (text_color self) (line self) (box self) zones).

(** *** [Annotator.__call__] (lines 301-384) *)

(** One row of [det.xyxy.astype(int)] *)
Definition xyxy_int (d : Detection.t) : Z * Z * Z * Z :=
  let '(a, b, c, e) := Detection.xyxy d in
  (np.int64_of a, np.int64_of b, np.int64_of c, np.int64_of e).

Definition list_index {A} (l : list A) (i : nat) : result A :=
  match l !! i with
  | Some a => Ok a
  | None => Err IndexError
  end.

(** The body of the colour loop (lines 314-338) for the box [bb]: the
    crop is read from the frame buffer [f] and the label is painted
    into that same buffer ([draw_text]'s result is not rebound). *)
Definition color_step (tw : Tweak.t) (f : frame) (bb : Z * Z * Z * Z)
    : result frame :=
  let '(x1, y1, x2, y2) := bb in
  let x := (np.wrap64 (x1 + x2) `div` 2)%Z in
  let y := (np.wrap64 (y1 + y2) `div` 2)%Z in
  let cropped := crop f bb in
  rgb ← avg_rgb cropped;
  predict ← closest rgb ycc_colors;
  c ← list_index colors_rgb predict;
  let '(r, g, b) := c in
  text ← list_index colors predict;
  Ok (draw_text f text (Point.mk (PInt x) (PInt (np.wrap64 (y + 20))))
        (Color.mk (255 - r) (255 - g) (255 - b))
        (Tweak.text_scale tw) (Tweak.text_padding tw)
        (Some (Color.mk r g b))).

(** [for i in range(xyxy.shape[0])] *)
Fixpoint color_loop (tw : Tweak.t) (f : frame) (bbs : list (Z * Z * Z * Z))
    : result frame :=
  match bbs with
  | [] => Ok f
  | bb :: bbs' => f' ← color_step tw f bb; color_loop tw f' bbs'
  end.

Fixpoint names_get (names : list (Z * string)) (cl : Z) : option string :=
  match names with
  | [] => None
  | (k, v) :: names' => if decide (k = cl) then Some v else names_get names' cl
  end.

(** The box label (lines 344-345) of one detection. *)
Definition label (names : list (Z * string)) (d : Detection.t) : result string :=
  conf ← match Detection.confidence d with
         | Some c => Ok (format_conf c)
         | None => Err TypeError
         end;
  name ← match names with
         | [] =>
             Ok (match Detection.class_id d with
                 | Some cl => format_int cl
                 | None => "None"
                 end)
         | _ :: _ =>
             match Detection.class_id d with
             | Some cl =>
                 match names_get names cl with
                 | Some n => Ok n
                 | None => Err KeyError
                 end
             | None => Err KeyError
             end
         end;
  let track := match Detection.tracker_id d with
               | Some tid => if decide (tid = 0%Z) then "" else " " +:+ format_int tid
               | None => ""
               end in
  Ok (conf +:+ " " +:+ name +:+ track).

(** The area loop (lines 357-365). *)
Fixpoint area_loop (tw : Tweak.t) (tc : Color.t) (f : frame)
    (det : list Detection.t) : frame :=
  match det with
  | [] => f
  | d :: det' =>
      let '(a0, a1, a2, a3) := xyxy_int d in
      let f' := draw_text f (format_int (trunc (detection_area d)))
                  (Point.mk (PInt (np.wrap64 (a0 + a2) `div` 2))
                            (PInt (np.wrap64 (a1 + a3) `div` 2)))
                  tc (Tweak.text_scale tw) (Tweak.text_padding tw) None in
      area_loop tw tc f' det'
  end.

(** The line loop (lines 366-368): each zone is triggered, then
    painted. *)
Fixpoint line_loop (la : LineZoneAnnotator.t) (det : list Detection.t)
    (f : frame) (ls : list LineZone.t) : frame * list LineZone.t :=
  match ls with
  | [] => (f, [])
  | l :: ls' =>
      let l' := line_trigger l det in
      let f' := line_annotate la f l' in
      let '(f'', ls'') := line_loop la det f' ls' in
      (f'', l' :: ls'')
  end.

(** The zone loop (lines 370-372) over [zip(self.zs, self.zones)]. *)
Fixpoint zone_loop (det : list Detection.t) (f : frame)
    (zs : list PolygonZone.t) (zones : list PolygonZoneAnnotator.t)
    : frame * list PolygonZone.t :=
  match zs, zones with
  | z :: zs', a :: zones' =>
      let z' := zone_trigger z det in
      let f' := zone_annotate a z' f in
      let '(f'', zs'') := zone_loop det f' zs' zones' in
      (f'', z' :: zs'')
  | _, _ => (f, zs)
  end.

(** [self(f)], with the two readings of [time.time()]: [begin] on
    entry and [now] at the fps step. The result is the pipeline with
    its triggered zones, the annotated frame and the model's preview. *)
Definition call (self : t) (f : frame) (begin now : Q)
    : result (t * frame * frame) :=
  let dp := display self in
  let tw := tweak self in
  let names := Model.names (model self) in
  dr ← Model.det (model self) f;
  let '(det, res) := dr in
  let xyxy := map xyxy_int det in
  f ← (if Display.predict_color dp then color_loop tw f xyxy else Ok f);
  f ← (if Display.box dp
       then labels ← for_each (label names) det;
            Ok (box_annotate (box self) f det labels (Display.skip_label dp))
       else Ok f);
  let f := if Display.mask dp
           then mask_annotate f det (Display.mask_opacity dp)
           else f in
  let f := if Display.area dp then area_loop tw (text_color self) f det else f in
  let '(f, ls') := line_loop (line self) det f (ls self) in
  let '(f, zs') := zone_loop det f (zs self) (zones self) in
  f ← (if Display.fps dp
       then
         if Qeq_bool (now - begin) 0
         then Err ZeroDivisionError
         else Ok (draw_text f (format_fps (Qred (1 / (now - begin))))
                    (Point.mk (PInt 50) (PInt 20)) (text_color self)
                    (real_double (Tweak.text_scale tw)) (Tweak.text_padding tw)
                    None)
       else Ok f);
  Ok (mk (model self) (reso self) (draw self) (display self) (tweak self)
         ls' zs' (text_color self) (line self) (box self) (zones self),
      f, res).

(** *** The configuration codec (lines 278-299) *)

(** [self.__dict__()] *)
Definition dict (self : t) : pyval :=
  PDict [("model", asdict_ModelInfo (Model.info (model self)));
         ("draw", asdict_Draw (draw self));
         ("display", asdict_Display (display self));
         ("tweak", asdict_Tweak (tweak self))].

(** [self.dump(path)] *)
Definition dump (self : t) (path : string) (fs : files) : files :=
  <[path := json_dump (dict self)]> fs.

(** [Annotator.load(path, reso)] *)
Definition load (path : string) (reso : Z * Z) (fs : files) : result t :=
  d ← match fs !! path with
      | Some j => Ok (json_load j)
      | None => Err FileNotFoundError
      end;
  m ← py_getitem_key d "model";
  info ← from_dict_ModelInfo m;
  let model := Model.init info in
  dp ← py_getitem_key d "display";
  display ← from_dict_Display dp;
  tw ← py_getitem_key d "tweak";
  tweak ← from_dict_Tweak tw;
  dr ← py_getitem_key d "draw";
  draw ← from_dict_Draw dr;
  init model reso draw display tweak.

End WithExternals.
End Annotator.

(** ** A reference backend

    A small, executable stand-in for the external collaborators, used to
    run the pipeline on concrete frames.
    - The detector knows a few weights files by name. Two of them report
      fixed boxes whatever the frame; a third one reports one tracked
      box, which sits where the first pixel of the frame says.
    - A line trigger counts as the one of [supervision] does: a tracked
      box, all four corners on one side of the line, counts when that
      side is not the one it was last seen on. A polygon trigger counts
      the boxes whose lower edge has its middle in the polygon.
    - The line painter draws the segment in white and, over it, a disc
      of radius 5 at each end in the text colour; the count labels, which
      sit around the middle of the line, are left out. The other painters
      mark single pixels: a text label marks its anchor in the text colour
      and the pixel to the right of it in the background colour, a zone
      marks its vertices, a box its two corners.
    - Sides and centres are computed in exact arithmetic. *)

Module Raster.

Definition set_pixel (f : frame) (x y : Z) (p : pixel) : frame :=
  if ((0 <=? x)%Z && (0 <=? y)%Z)%bool
  then alter (fun row => <[Z.to_nat x := p]> row) (Z.to_nat y) f
  else f.

Definition bgr (c : Color.t) : pixel := (Color.b c, Color.g c, Color.r c).

(** [int(v)] for a coordinate *)
Definition coord (v : pyval) : option Z :=
  match as_number v with
  | Some (NInt z) => Some z
  | Some (NFloat x) => f64.trunc x
  | None => None
  end.

(** The value of a coordinate *)
Definition coord_Q (v : pyval) : option Q :=
  match as_number v with
  | Some (NInt z) => Some (inject_Z z)
  | Some (NFloat x) => f64.to_Q x
  | None => None
  end.

Definition mark (f : frame) (p : Point.t) (c : Color.t) : frame :=
  match coord (Point.x p), coord (Point.y p) with
  | Some x, Some y => set_pixel f x y (bgr c)
  | _, _ => f
  end.

Definition paint (f : frame) (pts : list (Z * Z)) (c : Color.t) : frame :=
  foldl (fun f p => set_pixel f (fst p) (snd p) (bgr c)) f pts.

Definition draw_text (f : frame) (text : string) (anchor : Point.t)
    (text_color : Color.t) (text_scale : real) (text_padding : Z)
    (background : option Color.t) : frame :=
  let f := match background, coord (Point.x anchor) with
           | Some bg, Some x => mark f (Point.mk (PInt (x + 1)) (Point.y anchor)) bg
           | _, _ => f
           end in
  mark f anchor text_color.

(** [image[y1:y2, x1:x2]] for indices within the image *)
Definition slice {A} (l : list A) (a b : Z) : list A :=
  take (Z.to_nat (b - a)) (drop (Z.to_nat a) l).

Definition crop (f : frame) (xyxy : Z * Z * Z * Z) : frame :=
  let '(x1, y1, x2, y2) := xyxy in
  map (fun row => slice row x1 x2) (slice f y1 y2).

(** The rows are left as they are; an array without rows raises. *)
Definition cvt_rows (rows : list (Q * Q * Q)) : result (list (Q * Q * Q)) :=
  match rows with
  | [] => Err CvError
  | _ => Ok rows
  end.

Definition Qsum (l : list Q) : Q := foldr Qplus 0%Q l.

(** The centre of a single cluster: the mean of the points. *)
Definition kmeans_center (pts : list (Q * Q * Q)) : result (Q * Q * Q) :=
  match pts with
  | [] => Err CvError
  | _ =>
      let n := inject_Z (Z.of_nat (length pts)) in
      Ok (Qred (Qsum (map (fun p => fst (fst p)) pts) / n),
          Qred (Qsum (map (fun p => snd (fst p)) pts) / n),
          Qred (Qsum (map snd pts) / n))
  end.

Definition white : Color.t := Color.mk 255 255 255.

(** The pixels of a segment, one per step along its longer side. *)
Definition segment (x1 y1 x2 y2 : Z) : list (Z * Z) :=
  let n := Z.max (Z.abs (x2 - x1)) (Z.abs (y2 - y1)) in
  if (n =? 0)%Z
  then [(x1, y1)]
  else map (fun k => (x1 + (2 * (x2 - x1) * k + n) `div` (2 * n),
                      y1 + (2 * (y2 - y1) * k + n) `div` (2 * n))%Z)
           (seqZ 0 (n + 1)).

(** The pixels of the disc of radius 5 around a point. *)
Definition disc (x y : Z) : list (Z * Z) :=
  omap (fun d : Z * Z =>
          let '(dx, dy) := d in
          if (dx * dx + dy * dy <=? 25)%Z then Some (x + dx, y + dy)%Z else None)
       (dx ← seqZ (-5) 11; dy ← seqZ (-5) 11; [(dx, dy)]).

Definition line_annotate (la : LineZoneAnnotator.t) (f : frame) (l : LineZone.t)
    : frame :=
  match coord (Point.x (LineZone.start l)), coord (Point.y (LineZone.start l)),
        coord (Point.x (LineZone.end_ l)), coord (Point.y (LineZone.end_ l)) with
  | Some x1, Some y1, Some x2, Some y2 =>
      let f := paint f (segment x1 y1 x2 y2) white in
      let f := paint f (disc x1 y1) (LineZoneAnnotator.text_color la) in
      paint f (disc x2 y2) (LineZoneAnnotator.text_color la)
  | _, _, _, _ => f
  end.

Definition vertex_point (row : list Z) : Point.t :=
  match row with
  | x :: y :: _ => Point.mk (PInt x) (PInt y)
  | _ => Point.mk PNone PNone
  end.

Definition zone_annotate (a : PolygonZoneAnnotator.t) (z : PolygonZone.t)
    (f : frame) : frame :=
  foldl (fun f row => mark f (vertex_point row) (PolygonZoneAnnotator.color a))
        f (PolygonZone.polygon z).

Definition box_annotate (b : BoxAnnotator.t) (f : frame) (det : list Detection.t)
    (labels : list string) (skip_label : bool) : frame :=
  foldl (fun f d =>
           let '(x1, y1, x2, y2) := Annotator.xyxy_int d in
           mark (mark f (Point.mk (PInt x1) (PInt y1)) white)
                (Point.mk (PInt x2) (PInt y2)) white)
        f det.

(** The side of the line that a point is on: [true] when the point is
    to the left of the direction of the line. *)
Definition side (l : LineZone.t) (x y : Q) : option bool :=
  match coord_Q (Point.x (LineZone.start l)), coord_Q (Point.y (LineZone.start l)),
        coord_Q (Point.x (LineZone.end_ l)), coord_Q (Point.y (LineZone.end_ l)) with
  | Some sx, Some sy, Some ex, Some ey =>
      Some (Qltb ((ex - sx) * (y - sy) - (ey - sy) * (x - sx)) 0)
  | _, _, _, _ => None
  end.

Fixpoint state_get (st : list (Z * bool)) (k : Z) : option bool :=
  match st with
  | [] => None
  | (k', v) :: st' => if decide (k' = k) then Some v else state_get st' k
  end.

Fixpoint state_set (st : list (Z * bool)) (k : Z) (v : bool) : list (Z * bool) :=
  match st with
  | [] => [(k, v)]
  | (k', v') :: st' =>
      if decide (k' = k) then (k, v) :: st' else (k', v') :: state_set st' k v
  end.

Definition line_step (l : LineZone.t) (d : Detection.t) : LineZone.t :=
  match Detection.tracker_id d with
  | None => l
  | Some tid =>
      let '(x1, y1, x2, y2) := Detection.xyxy d in
      match side l x1 y1, side l x1 y2, side l x2 y1, side l x2 y2 with
      | Some a, Some b, Some c, Some e =>
          if bool_decide (a = b /\ b = c /\ c = e)
          then
            match state_get (LineZone.tracker_state l) tid with
            | None =>
                LineZone.mk (LineZone.start l) (LineZone.end_ l)
                  (state_set (LineZone.tracker_state l) tid a)
                  (LineZone.in_count l) (LineZone.out_count l)
            | Some seen =>
                if bool_decide (seen = a)
                then l
                else
                  LineZone.mk (LineZone.start l) (LineZone.end_ l)
                    (state_set (LineZone.tracker_state l) tid a)
                    (if a then LineZone.in_count l + 1 else LineZone.in_count l)%Z
                    (if a then LineZone.out_count l else LineZone.out_count l + 1)%Z
            end
          else l
      | _, _, _, _ => l
      end
  end.

Definition line_trigger (l : LineZone.t) (det : list Detection.t) : LineZone.t :=
  foldl line_step l det.

(** The point [(x, y)] lies on the segment from [a] to [b]. *)
Definition on_segment (a b : Z * Z) (x y : Z) : bool :=
  let '(ax, ay) := a in
  let '(bx, by_) := b in
  (((bx - ax) * (y - ay) - (by_ - ay) * (x - ax) =? 0)
   && (Z.min ax bx <=? x) && (x <=? Z.max ax bx)
   && (Z.min ay by_ <=? y) && (y <=? Z.max ay by_))%Z.

(** The ray from [(x, y)] to the right crosses the segment. *)
Definition crosses (a b : Z * Z) (x y : Z) : bool :=
  let '(ax, ay) := a in
  let '(bx, by_) := b in
  (negb (Bool.eqb (y <? ay) (y <? by_))
   && (if ay <? by_
       then 0 <? (bx - ax) * (y - ay) - (by_ - ay) * (x - ax)
       else (bx - ax) * (y - ay) - (by_ - ay) * (x - ax) <? 0))%Z.

Definition vertex (row : list Z) : Z * Z :=
  match row with
  | x :: y :: _ => (x, y)
  | _ => (0, 0)%Z
  end.

(** The point lies in the polygon or on its border. *)
Definition inside (polygon : list (list Z)) (x y : Z) : bool :=
  match map vertex polygon with
  | [] => false
  | v :: vs =>
      let edges := zip (v :: vs) (vs ++ [v]) in
      existsb (fun e => on_segment (fst e) (snd e) x y) edges
      || Nat.odd (length (filter (fun e => crosses (fst e) (snd e) x y = true)
                                 edges))
  end.

Definition clip (lo hi : Q) (q : Q) : Q :=
  if Qle_bool q lo then lo else if Qle_bool hi q then hi else q.

(** The middle of the lower edge of the box, within the resolution,
    rounded up. *)
Definition anchor (wh : Z * Z) (d : Detection.t) : Z * Z :=
  let '(x1, y1, x2, y2) := Detection.xyxy d in
  let w := inject_Z (fst wh) in
  let h := inject_Z (snd wh) in
  (Qceiling ((clip 0 w x1 + clip 0 w x2) / 2), Qceiling (clip 0 h y2)).

Definition zone_trigger (z : PolygonZone.t) (det : list Detection.t)
    : PolygonZone.t :=
  PolygonZone.mk (PolygonZone.polygon z) (PolygonZone.frame_resolution_wh z)
    (Z.of_nat
       (length
          (filter (fun d =>
                     let '(x, y) := anchor (PolygonZone.frame_resolution_wh z) d in
                     inside (PolygonZone.polygon z) x y = true) det))).

(** The mean of the vertices, as integers. *)
Definition get_polygon_center (a : list (list Z)) : Point.t :=
  match a with
  | [] => Point.mk (PInt 0) (PInt 0)
  | _ =>
      let n := inject_Z (Z.of_nat (length a)) in
      let col k := Qsum (map (fun row => inject_Z (nth k row 0%Z)) a) in
      Point.mk (PInt (trunc (col 0%nat / n))) (PInt (trunc (col 1%nat / n)))
  end.

Definition hex_digit (c : Ascii.ascii) : option Z :=
  let n := Z.of_N (Ascii.N_of_ascii c) in
  if ((48 <=? n) && (n <=? 57))%Z%bool then Some (n - 48)%Z
  else if ((97 <=? n) && (n <=? 102))%Z%bool then Some (n - 87)%Z
  else if ((65 <=? n) && (n <=? 70))%Z%bool then Some (n - 55)%Z
  else None.

Definition hex_byte (a b : Ascii.ascii) : option Z :=
  match hex_digit a, hex_digit b with
  | Some h, Some l => Some (16 * h + l)%Z
  | _, _ => None
  end.

(** [#rrggbb] *)
Definition Color_from_hex (s : string) : result Color.t :=
  match s with
  | String c (String r1 (String r2 (String g1 (String g2 (String b1
      (String b2 EmptyString)))))) =>
      match hex_byte r1 r2, hex_byte g1 g2, hex_byte b1 b2 with
      | Some r, Some g, Some b =>
          if (Ascii.N_of_ascii c =? 35)%N
          then Ok (Color.mk r g b)
          else Err ValueError
      | _, _, _ => Err ValueError
      end
  | _ => Err ValueError
  end.

Definition palette_by_idx (i : nat) : Color.t :=
  match (i mod 3)%nat with
  | 0%nat => Color.mk 255 0 0
  | 1%nat => Color.mk 0 255 0
  | _ => Color.mk 0 0 255
  end.

Definition detection_area (d : Detection.t) : Q :=
  let '(x1, y1, x2, y2) := Detection.xyxy d in Qred ((x2 - x1) * (y2 - y1)).

(** The detector knows three weights files by name. One reports a
    single box, another two boxes, the second under the first, whatever
    the frame. The third follows one object: its box is two pixels wide
    and high and sits at the column and the row that the first two
    channels of the first pixel of the frame give. Any other model
    reports nothing. *)
Definition detections (h : Handle.t) (f : frame) : list Detection.t :=
  if decide (Handle.weights h = "one_box.pt")
  then [Detection.mk (0, 0, 2, 2)%Q (Some (9 # 10)) (Some 0%Z) None]
  else if decide (Handle.weights h = "two_boxes.pt")
  then [Detection.mk (0, 0, 2, 2)%Q (Some (9 # 10)) (Some 0%Z) None;
        Detection.mk (1, 21, 2, 23)%Q (Some (8 # 10)) (Some 0%Z) None]
  else if decide (Handle.weights h = "follow.pt")
  then match f with
       | ((x, y, _) :: _) :: _ =>
           [Detection.mk (inject_Z x, inject_Z y, inject_Z (x + 2),
                          inject_Z (y + 2))
              (Some (9 # 10)) (Some 0%Z) None]
       | _ => []
       end
  else [].

(** The track ids that the model reports with its boxes when it is
    run with a tracker: the third model tracks its object as number 1. *)
Definition track_ids (h : Handle.t) (f : frame) (tracker : option string)
    : option (list Z) :=
  match tracker with
  | Some _ =>
      if decide (Handle.weights h = "follow.pt")
      then Some (map (fun _ => 1%Z) (detections h f))
      else None
  | None => None
  end.

(** The integer nearest to a rational, ties to the even one. *)
Definition round_half_even (q : Q) : Z :=
  let fl := Qfloor q in
  match Qcompare (q - inject_Z fl) (1 # 2) with
  | Lt => fl
  | Gt => (fl + 1)%Z
  | Eq => if Z.even fl then fl else (fl + 1)%Z
  end.

Fixpoint digits (d : nat) (n : Z) : string :=
  match d with
  | O => ""
  | S d' => digits d' (n `div` 10) +:+ pretty (n `mod` 10)%Z
  end.

(** [f'{q:.df}']: the number with [d] decimals, [d] at least one. *)
Definition format_fixed (d : nat) (q : Q) : string :=
  let scale := (10 ^ Z.of_nat d)%Z in
  let n := round_half_even ((if Qltb q 0 then - q else q) * inject_Z scale) in
  (if Qltb q 0 then "-" else "")
  +:+ pretty (n `div` scale)%Z +:+ "." +:+ digits d (n `mod` scale).

End Raster.

#[export] Instance raster : Externals := {|
  handle_names := fun _ => [];
  yolov5_detect := Raster.detections;
  handle_predict :=
    fun h f _ _ tracker =>
      [Results.mk (Some (Raster.track_ids h f tracker)) (Raster.detections h f) f];
  cvt_rows := Raster.cvt_rows;
  kmeans_center := Raster.kmeans_center;
  crop := Raster.crop;
  draw_text := Raster.draw_text;
  box_annotate := Raster.box_annotate;
  mask_annotate := fun f _ _ => f;
  line_annotate := Raster.line_annotate;
  zone_annotate := Raster.zone_annotate;
  line_trigger := Raster.line_trigger;
  zone_trigger := Raster.zone_trigger;
  get_polygon_center := Raster.get_polygon_center;
  Color_from_hex := Raster.Color_from_hex;
  palette_by_idx := Raster.palette_by_idx;
  detection_area := Raster.detection_area;
  format_conf := Raster.format_fixed 2;
  format_fps := Raster.format_fixed 1;
  format_int := pretty;
  colors := ["black"; "white"];
  colors_rgb := [(0, 0, 0); (255, 255, 255)]%Z
|}.

(** * Definitions used by the statements *)

(** Equality of results is decidable. *)
#[export] Instance exn_eq_dec : EqDecision exn.
Proof. solve_decision. Defined.

#[export] Instance result_eq_dec {A} `{EqDecision A} : EqDecision (result A).
Proof. solve_decision. Defined.

(** ** Shape extraction *)

(** The records of one kind, in the order of the input. *)
Definition records_of (kind : string) (d : list pyval) : list pyval :=
  filter (fun i => Draw.type_is kind i = Ok true) d.

(** A record that carries a [type] which is none of the three kinds. *)
Definition unrecognized (r : pyval) : Prop :=
  exists t, py_getitem_key r "type" = Ok t
            /\ py_eq_str t "line" = false
            /\ py_eq_str t "path" = false
            /\ py_eq_str t "rect" = false.

(** The zone list the specification describes: one polygon per path or
    rectangle record, in the order of the records. *)
Definition is_zone_record (i : pyval) : result bool :=
  t ← py_getitem_key i "type"; Ok (py_eq_str t "path" || py_eq_str t "rect").

Definition canvas_zone (i : pyval) : result pyval :=
  t ← py_getitem_key i "type";
  if py_eq_str t "path" then Draw.canvas_path i else Draw.canvas_rect i.

Definition zones_in_record_order (d : list pyval) : result (list pyval) :=
  comprehension is_zone_record canvas_zone d.

(** Sample canvas records. *)
Definition line_record : pyval :=
  PDict [("type", PStr "line"); ("left", PInt 0); ("top", PInt 0);
         ("x1", PInt 0); ("y1", PInt 0); ("x2", PInt 100); ("y2", PInt 0)].

Definition rect_record : pyval :=
  PDict [("type", PStr "rect"); ("left", PInt 10); ("top", PInt 10);
         ("width", PInt 50); ("height", PInt 20)].

Definition path_record : pyval :=
  PDict [("type", PStr "path");
         ("path", PList [PList [PStr "M"; PInt 1; PInt 2];
                         PList [PStr "L"; PInt 3; PInt 4];
                         PList [PStr "L"; PInt 5; PInt 6];
                         PList [PStr "z"]])].

Definition circle_record : pyval :=
  PDict [("type", PStr "circle"); ("left", PInt 5); ("top", PInt 5);
         ("radius", PInt 3)].

Definition line_geometry : pyval :=
  PTuple [PTuple [PInt 0; PInt 0]; PTuple [PInt 100; PInt 0]].

Definition rect_polygon : pyval :=
  PList [PList [PInt 10; PInt 10]; PList [PInt 60; PInt 10];
         PList [PInt 60; PInt 30]; PList [PInt 10; PInt 30]].

Definition path_polygon : pyval :=
  PList [PList [PInt 1; PInt 2]; PList [PInt 3; PInt 4]; PList [PInt 5; PInt 6]].


(** ** Colour classification *)

(** The transform the specification writes down (its Cb coefficient of G
    is 0.331264). *)
Definition rgb2ycc_spec (rgb : Z * Z * Z) : Q * Q * Q :=
  let '(r0, g0, b0) := rgb in
  let r := (inject_Z r0 / 255)%Q in
  let g := (inject_Z g0 / 255)%Q in
  let b := (inject_Z b0 / 255)%Q in
  let y := ((299 # 1000) * r + (587 # 1000) * g + (114 # 1000) * b)%Q in
  let cb := (128 - (168736 # 1000000) * r - (331264 # 1000000) * g
             + (5 # 10) * b)%Q in
  let cr := (128 + (5 # 10) * r - (418688 # 1000000) * g
             - (81312 # 1000000) * b)%Q in
  (Qred y, Qred cb, Qred cr).

(** Classification against a palette, by the code's transform and by the
    specification's. *)
Definition classify (palette : list (Z * Z * Z)) (rgb : Z * Z * Z) : result nat :=
  closest rgb (map rgb2ycc palette).

Definition classify_spec (palette : list (Z * Z * Z)) (rgb : Z * Z * Z)
    : result nat :=
  argmin (map (fun c => sqdist c (rgb2ycc_spec rgb)) (map rgb2ycc_spec palette)).

(** [m] at index [i] is the first minimum of [l]. *)
Definition first_minimum (l : list Q) (i : nat) : Prop :=
  exists m, l !! i = Some m
            /\ (forall j q, l !! j = Some q -> (m <= q)%Q)
            /\ (forall j q, (j < i)%nat -> l !! j = Some q -> (m < q)%Q).

(** ** The pipeline *)

(** The trigger objects and the zone annotators match the geometry of
    the pipeline, one for one: what [__init__] establishes. *)
Definition consistent `{Externals} (self : Annotator.t) : Prop :=
  length (Annotator.ls self) = length (Draw.lines (Annotator.draw self))
  /\ length (Annotator.zs self) = length (Draw.zones (Annotator.draw self))
  /\ length (Annotator.zones self) = length (Annotator.zs self).

(** [v[k1][k2]], one coordinate of a line, as the float that a product
    with the scale makes of it. *)
Definition coordinate (v : pyval) (k1 k2 : nat) : result f64.t :=
  p ← py_getitem_idx v k1;
  c ← py_getitem_idx p k2;
  match as_number c with
  | Some n => to_float n
  | None => Err TypeError
  end.

(** A line is a pair of pairs of numbers; a zone is a polygon that
    [np.array] accepts. *)
Definition numeric_line (i : pyval) : Prop :=
  is_Ok (coordinate i 0 0) /\ is_Ok (coordinate i 0 1)
  /\ is_Ok (coordinate i 1 0) /\ is_Ok (coordinate i 1 1).

Definition numeric_draw (d : Draw.t) : Prop :=
  Forall numeric_line (Draw.lines d)
  /\ Forall (fun p => is_Ok (np.array p)) (Draw.zones d).

(** The vertices of a polygon of integers, read off the value: a
    sequence of sequences of integers that 64 bits hold, a boolean
    counting as 0 or 1. *)
Definition int_cell (v : pyval) : option Z :=
  match v with
  | PInt z => if f64.in_int64 z then Some z else None
  | PBool b => Some (if b then 1 else 0)%Z
  | _ => None
  end.

Definition int_row (v : pyval) : option (list Z) :=
  match v with
  | PList l | PTuple l => mapM int_cell l
  | _ => None
  end.

Definition vertices_of (p : pyval) : option (list (list Z)) :=
  match p with
  | PList l | PTuple l => mapM int_row l
  | _ => None
  end.

Definition is_int (v : pyval) : bool :=
  match v with PInt _ => true | _ => false end.

Definition cells_of (p : pyval) : list pyval :=
  match p with
  | PList l | PTuple l =>
      concat (map (fun r => match r with
                            | PList c | PTuple c => c
                            | _ => []
                            end) l)
  | _ => []
  end.

(** A polygon that a zone can be built from: integer vertices (not
    booleans throughout), at least one of them, two coordinates each. *)
Definition int_polygon (p : pyval) : Prop :=
  exists rows,
    vertices_of p = Some rows
    /\ rows <> []
    /\ Forall (fun r => length r = 2%nat) rows
    /\ existsb is_int (cells_of p) = true.

(** A DrawSet that can be rescaled: numeric lines, integer polygons. *)
Definition drawable (d : Draw.t) : Prop :=
  Forall numeric_line (Draw.lines d) /\ Forall int_polygon (Draw.zones d).

(** The line trigger that the constructor builds from the line [i]:
    between the four coordinates as they are, with nothing counted. *)
Definition line_at (i : pyval) (lz : LineZone.t) : Prop :=
  exists i0 i1 a b c d,
    py_getitem_idx i 0 = Ok i0 /\ py_getitem_idx i 1 = Ok i1
    /\ py_getitem_idx i0 0 = Ok a /\ py_getitem_idx i0 1 = Ok b
    /\ py_getitem_idx i1 0 = Ok c /\ py_getitem_idx i1 1 = Ok d
    /\ lz = LineZone.mk (Point.mk a b) (Point.mk c d) [] 0 0.

(** The polygon zone that the constructor builds from the polygon [p]:
    at its vertices, in the resolution [wh], with nothing counted. *)
Definition zone_at (wh : Z * Z) (p : pyval) (z : PolygonZone.t) : Prop :=
  exists rows, vertices_of p = Some rows /\ z = PolygonZone.mk rows wh 0.

(** A line trigger at the coordinates of [i] multiplied by [s], with
    nothing counted. *)
Definition line_scaled_by (s : f64.t) (i : pyval) (lz : LineZone.t) : Prop :=
  exists x1 y1 x2 y2,
    coordinate i 0 0 = Ok x1 /\ coordinate i 0 1 = Ok y1
    /\ coordinate i 1 0 = Ok x2 /\ coordinate i 1 1 = Ok y2
    /\ lz = LineZone.mk
              (Point.mk (PFloat (f64.mul x1 s)) (PFloat (f64.mul y1 s)))
              (Point.mk (PFloat (f64.mul x2 s)) (PFloat (f64.mul y2 s)))
              [] 0 0.

(** One vertex coordinate multiplied by [s]: the product of the floats,
    its fraction dropped. *)
Definition rescaled_coordinate (s : f64.t) (v : Z) : Z :=
  f64.to_int64 (f64.mul (f64.of_int64 v) s).

Definition rescaled (a : list (list Z)) (s : f64.t) : list (list Z) :=
  map (map (rescaled_coordinate s)) a.

(** A polygon zone at the vertices of the polygon [p] multiplied by [s]
    and truncated, in the resolution [wh], with nothing counted. *)
Definition zone_scaled_by (s : f64.t) (wh : Z * Z) (p : pyval)
    (z : PolygonZone.t) : Prop :=
  exists rows,
    vertices_of p = Some rows /\ z = PolygonZone.mk (rescaled rows s) wh 0.

(** Annotator [a] with its label anchor at the centre of zone [z]. *)
Definition recenter `{Externals} (z : PolygonZone.t) (a : PolygonZoneAnnotator.t)
    : PolygonZoneAnnotator.t :=
  PolygonZoneAnnotator.mk
    (PolygonZoneAnnotator.thickness a) (PolygonZoneAnnotator.text_color a)
    (PolygonZoneAnnotator.text_scale a) (PolygonZoneAnnotator.text_padding a)
    (PolygonZoneAnnotator.color a) (get_polygon_center (PolygonZone.polygon z)).

(** The DrawSet the specification has [update] leave behind: the line
    end points multiplied by [s], the zone vertices multiplied by [s] and
    truncated. *)
Definition rescale_line (s : f64.t) (i : pyval) : result pyval :=
  x1 ← coordinate i 0 0; y1 ← coordinate i 0 1;
  x2 ← coordinate i 1 0; y2 ← coordinate i 1 1;
  Ok (PTuple [PTuple [PFloat (f64.mul x1 s); PFloat (f64.mul y1 s)];
              PTuple [PFloat (f64.mul x2 s); PFloat (f64.mul y2 s)]]).

Definition rescale_zone (s : f64.t) (p : pyval) : result pyval :=
  match vertices_of p with
  | Some rows => Ok (PList (map (fun row => PList (map PInt row)) (rescaled rows s)))
  | None => Err TypeError
  end.

Definition rescale_draw (s : f64.t) (d : Draw.t) : result Draw.t :=
  ls ← for_each (rescale_line s) (Draw.lines d);
  zs ← for_each (rescale_zone s) (Draw.zones d);
  Ok (Draw.mk ls zs).

(** All five toggles of the display configuration are off. *)
Definition all_off (dp : Display.t) : Prop :=
  Display.fps dp = false /\ Display.predict_color dp = false
  /\ Display.box dp = false /\ Display.mask dp = false
  /\ Display.area dp = false.

(** The colour loop the specification describes: every box is cropped
    from the frame as it came in, [original]; the labels go to the
    working buffer. *)
Definition color_step_from `{Externals} (tw : Tweak.t) (original f : frame)
    (bb : Z * Z * Z * Z) : result frame :=
  let '(x1, y1, x2, y2) := bb in
  let x := (np.wrap64 (x1 + x2) `div` 2)%Z in
  let y := (np.wrap64 (y1 + y2) `div` 2)%Z in
  let cropped := crop original bb in
  rgb ← avg_rgb cropped;
  predict ← closest rgb ycc_colors;
  c ← Annotator.list_index colors_rgb predict;
  let '(r, g, b) := c in
  text ← Annotator.list_index colors predict;
  Ok (draw_text f text (Point.mk (PInt x) (PInt (np.wrap64 (y + 20))))
        (Color.mk (255 - r) (255 - g) (255 - b))
        (Tweak.text_scale tw) (Tweak.text_padding tw)
        (Some (Color.mk r g b))).

Fixpoint color_loop_original `{Externals} (tw : Tweak.t) (original f : frame)
    (bbs : list (Z * Z * Z * Z)) : result frame :=
  match bbs with
  | [] => Ok f
  | bb :: bbs' =>
      f' ← color_step_from tw original f bb;
      color_loop_original tw original f' bbs'
  end.

(** ** The codec *)

(** A value with its tuples turned into lists, as a JSON document gives
    it back. *)
Fixpoint listify (v : pyval) : pyval :=
  match v with
  | PList l => PList (map listify l)
  | PTuple l => PList (map listify l)
  | PDict d => PDict (map (fun kv => (fst kv, listify (snd kv))) d)
  | _ => v
  end.

Definition listify_draw (d : Draw.t) : Draw.t :=
  Draw.mk (map listify (Draw.lines d)) (map listify (Draw.zones d)).

(** No tuple anywhere in the value. *)
Fixpoint tuple_free (v : pyval) : bool :=
  match v with
  | PList l => forallb tuple_free l
  | PTuple _ => false
  | PDict d => forallb (fun kv => tuple_free (snd kv)) d
  | _ => true
  end.

Definition tuple_free_draw (d : Draw.t) : bool :=
  forallb tuple_free (Draw.lines d) && forallb tuple_free (Draw.zones d).

(** The configuration can be built into a pipeline. *)
Definition constructible `{Externals} (self : Annotator.t) : Prop :=
  is_Ok (Annotator.init (Annotator.model self) (Annotator.reso self)
           (Annotator.draw self) (Annotator.display self) (Annotator.tweak self)).

(** ** Sample pipelines on the reference backend *)

Definition blank (h w : nat) (p : pixel) : frame := replicate h (replicate w p).

(** The model of the weights file [path]. *)
Definition sample_model (path : string) : Model.t :=
  Model.init (ModelInfo.mk path [] "v8" "detect" (RFloat (f64.of_Q (1 # 4)))
                None).

Definition no_pipeline : Annotator.t :=
  Annotator.mk (sample_model "") (0, 0)%Z Draw.default Display.default
    Tweak.default [] [] (Color.mk 0 0 0)
    (LineZoneAnnotator.mk 0 (Color.mk 0 0 0) (RInt 0) 0 0)
    (BoxAnnotator.mk 0 (Color.mk 0 0 0) (RInt 0) 0) [].

(** The pipeline that [__init__] builds, on the reference backend. *)
Definition built (model : Model.t) (reso : Z * Z) (draw : Draw.t)
    (display : Display.t) (tweak : Tweak.t) : Annotator.t :=
  match Annotator.init model reso draw display tweak with
  | Ok self => self
  | Err _ => no_pipeline
  end.

Definition display_off : Display.t :=
  Display.mk false false false false false (RFloat (f64.of_Q 0)) false.

Definition sample_draw : Draw.t := Draw.mk [line_geometry] [rect_polygon].

Definition sample_detection : Detection.t :=
  Detection.mk (0, 0, 2, 2)%Q (Some (9 # 10)) (Some 0%Z) None.

(** Authored at 640x480: one line and one rectangle; every toggle off. *)
Definition sample_pipeline : Annotator.t :=
  Eval vm_compute in
    built (sample_model "one_box.pt") (640, 480)%Z sample_draw
          display_off Tweak.default.

(** A model that tracks. *)
Definition tracking_model : Model.t :=
  Model.init (ModelInfo.mk "follow.pt" [] "v8" "detect"
                (RFloat (f64.of_Q (1 # 4))) (Some "bytetrack")).

(** A line from left to right across row 10 of a frame that is 8 wide
    and 30 high. *)
Definition gate_line : pyval :=
  PTuple [PTuple [PInt 0; PInt 10]; PTuple [PInt 7; PInt 10]].

Definition gate_draw : Draw.t := Draw.mk [gate_line] [].

Definition gate_pipeline : Annotator.t :=
  Eval vm_compute in
    built tracking_model (8, 30)%Z gate_draw display_off Tweak.default.

(** Two frames: in the first the tracked object is above the line, in
    the second below it. *)
Definition frame_above : frame := blank 30 8 (5, 0, 0)%Z.
Definition frame_below : frame := blank 30 8 (5, 20, 0)%Z.

Definition after_call (self : Annotator.t) (f : frame) : Annotator.t :=
  match Annotator.call self f 0 1 with
  | Ok (self', _, _) => self'
  | Err _ => no_pipeline
  end.

(** The pipeline after the first frame: the object has been seen. *)
Definition seen_pipeline : Annotator.t :=
  Eval vm_compute in after_call gate_pipeline frame_above.

(** The pipeline after the second frame: its line has counted. *)
Definition counted_pipeline : Annotator.t :=
  Eval vm_compute in after_call seen_pipeline frame_below.

(** Authored at a height of 100: one line and one triangle. *)
Definition slanted_zone : pyval :=
  PList [PList [PInt 1; PInt 1]; PList [PInt 100; PInt 1];
         PList [PInt 100; PInt 3]].

Definition slanted_draw : Draw.t := Draw.mk [line_geometry] [slanted_zone].

Definition slanted_pipeline : Annotator.t :=
  Eval vm_compute in
    built (sample_model "one_box.pt") (640, 100)%Z slanted_draw
          display_off Tweak.default.

Definition frame_29 : frame := blank 29 1 (0, 0, 0)%Z.

Definition grey_2x2 : frame := blank 2 2 (126, 126, 126)%Z.

(** A pipeline without geometry, recorded at height zero. *)
Definition flat_pipeline : Annotator.t :=
  Eval vm_compute in
    built (sample_model "none.pt") (640, 0)%Z Draw.default display_off
          Tweak.default.

(** A pipeline without geometry. *)
Definition empty_pipeline : Annotator.t :=
  Eval vm_compute in
    built (sample_model "one_box.pt") (640, 480)%Z Draw.default
          display_off Tweak.default.

Definition frame_480 : frame := blank 480 1 (0, 0, 0)%Z.
Definition frame_960 : frame := blank 960 1 (0, 0, 0)%Z.

(** The sample pipeline after [update] on a frame of height 960. *)
Definition rescaled_pipeline : Annotator.t :=
  Eval vm_compute in
    match Annotator.update sample_pipeline frame_960 with
    | Ok self => self
    | Err _ => no_pipeline
    end.

Definition grey_frame : frame := blank 45 3 (126, 126, 126)%Z.

Definition display_color : Display.t :=
  Display.mk false true false false false (RFloat (f64.of_Q 0)) false.

(** A pipeline without geometry that only predicts colours. *)
Definition color_pipeline : Annotator.t :=
  Eval vm_compute in
    built (sample_model "two_boxes.pt") (3, 45)%Z Draw.default
          display_color Tweak.default.

Definition set_rows (f : frame) (rows : list (nat * list pixel)) : frame :=
  foldl (fun f r => <[fst r := snd r]> f) f rows.

(** * The remaining functions of [core.py] *)

(** ** [plur] and [Draw.__str__] *)

Fixpoint string_take (n : nat) (s : string) : string :=
  match n, s with
  | S n', String c s' => String c (string_take n' s')
  | _, _ => EmptyString
  end.

(** [s[:k]]: a negative [k] counts from the end. *)
Definition py_prefix (s : string) (k : Z) : string :=
  let len := Z.of_nat (String.length s) in
  let stop := if (k <? 0)%Z then Z.max 0 (len + k) else Z.min k len in
  string_take (Z.to_nat stop) s.

Definition newline : string := String (Ascii.ascii_of_nat 10) EmptyString.

(** [plur(n, s)] (lines 51-52); [n ^ 1] is the exclusive or. *)
Definition plur (n : Z) (s : string) : string :=
  if decide (n = 0%Z)
  then ""
  else newline +:+ "- " +:+ pretty n +:+ " " +:+ s
       +:+ py_prefix "s" (Z.lxor n 1).

(** [Draw.__str__] (lines 126-127) *)
Definition Draw_str (d : Draw.t) : string :=
  plur (Z.of_nat (length (Draw.lines d))) "line"
  +:+ plur (Z.of_nat (length (Draw.zones d))) "zone".

(** ** [rgb2hex] *)

Definition hex_char (n : N) : Ascii.ascii :=
  Ascii.ascii_of_N (if (n <? 10)%N then 48 + n else 87 + n)%N.

Fixpoint hex_go (fuel : nat) (n : N) (acc : string) : string :=
  match fuel with
  | O => acc
  | S fuel' =>
      let acc' := String (hex_char (n mod 16)) acc in
      if (n <? 16)%N then acc' else hex_go fuel' (n / 16) acc'
  end.

(** The lowercase hexadecimal digits of [n]; a number has no more of
    them than bits. *)
Definition hex (n : N) : string := hex_go (S (N.size_nat n)) n "".

Fixpoint zero_pad (width : nat) (s : string) : string :=
  if decide (String.length s < width)%nat
  then match width with
       | O => s
       | S w => String (Ascii.ascii_of_nat 48) (zero_pad w s)
       end
  else s.

(** [f'{z:02x}']: the sign, then the digits padded with zeros to the
    width of two that the sign shares. *)
Definition format_02x (z : Z) : string :=
  match z with
  | Zneg p => "-" +:+ zero_pad 1 (hex (Npos p))
  | _ => zero_pad 2 (hex (Z.to_N z))
  end.

(** [rgb2hex(rgb)] (lines 55-57) *)
Definition rgb2hex (rgb : Z * Z * Z) : string :=
  let '(r, g, b) := rgb in
  "#" +:+ format_02x r +:+ format_02x g +:+ format_02x b.

(** ** [maxcam] *)

(** [s.split(sep)] for a separator of one character *)
Fixpoint split_on (sep : Ascii.ascii) (s : string) : list string :=
  match s with
  | EmptyString => [EmptyString]
  | String c s' =>
      let pieces := split_on sep s' in
      if decide (c = sep)
      then EmptyString :: pieces
      else match pieces with
           | p :: ps => String c p :: ps
           | [] => [String c EmptyString]
           end
  end.

Definition letter_x : Ascii.ascii := Ascii.ascii_of_nat 120.

Fixpoint count_char (c : Ascii.ascii) (s : string) : nat :=
  match s with
  | EmptyString => O
  | String c' s' => (if decide (c' = c) then 1 else 0) + count_char c s'
  end.

Section Maxcam.

(** [int(s)], the parser of the language. *)
Variable int : string -> result Z.

(** [maxcam()] (lines 38-48) on the decoded output [out] of the probe
    command. *)
Definition maxcam (out : string) : result (Z * Z) :=
  let reso := split_on letter_x out in
  if decide (length reso = 2%nat)
  then
    sizes ← for_each int reso;
    match sizes with
    | [width; height] => Ok (width, height)
    | _ => Err ValueError
    end
  else Ok (640, 480)%Z.

End Maxcam.

(** ** Statements on shape extraction *)

(** A number as the canvas writes it: a float, or an integer that a
    float holds exactly. (An integer beyond the floats makes its sum with
    a float raise.) *)
Definition canvas_number (n : number) : Prop :=
  match n with
  | NInt z => (Z.abs z <= 2 ^ 53)%Z
  | NFloat _ => True
  end.

Definition has_number (i : pyval) (k : string) : Prop :=
  exists v n,
    py_getitem_key i k = Ok v /\ as_number v = Some n /\ canvas_number n.

(** A path command whose elements 1 and 2 are numbers. *)
Definition numeric_command (c : pyval) : Prop :=
  exists a b na nb,
    py_getitem_idx c 1 = Ok a /\ py_getitem_idx c 2 = Ok b
    /\ as_number a = Some na /\ as_number b = Some nb.

(** A record as the canvas gives it: a [type]; for a line the offset and
    the two end points, for a rectangle the offset and the size, for a
    path a list of commands, all but the last of them numeric. *)
Definition canvas_record (i : pyval) : Prop :=
  exists t,
    py_getitem_key i "type" = Ok t
    /\ (py_eq_str t "line" = true ->
        has_number i "left" /\ has_number i "top" /\ has_number i "x1"
        /\ has_number i "y1" /\ has_number i "x2" /\ has_number i "y2")
    /\ (py_eq_str t "rect" = true ->
        has_number i "left" /\ has_number i "top" /\ has_number i "width"
        /\ has_number i "height")
    /\ (py_eq_str t "path" = true ->
        exists cmds, py_getitem_key i "path" = Ok (PList cmds)
                     /\ Forall numeric_command (removelast cmds)).

(** The same with whole numbers where a zone comes of them: the offset
    and the size of a rectangle are integers, and a path has a vertex
    and integers in its commands but the last. *)
Definition has_int (i : pyval) (k : string) : Prop :=
  exists z, py_getitem_key i k = Ok (PInt z) /\ (Z.abs z <= 2 ^ 53)%Z.

Definition int_command (c : pyval) : Prop :=
  exists a b,
    py_getitem_idx c 1 = Ok (PInt a) /\ py_getitem_idx c 2 = Ok (PInt b)
    /\ (Z.abs a <= 2 ^ 53)%Z /\ (Z.abs b <= 2 ^ 53)%Z.

Definition whole_record (i : pyval) : Prop :=
  exists t,
    py_getitem_key i "type" = Ok t
    /\ (py_eq_str t "line" = true ->
        has_number i "left" /\ has_number i "top" /\ has_number i "x1"
        /\ has_number i "y1" /\ has_number i "x2" /\ has_number i "y2")
    /\ (py_eq_str t "rect" = true ->
        has_int i "left" /\ has_int i "top" /\ has_int i "width"
        /\ has_int i "height")
    /\ (py_eq_str t "path" = true ->
        exists cmds, py_getitem_key i "path" = Ok (PList cmds)
                     /\ (2 <= length cmds)%nat
                     /\ Forall int_command (removelast cmds)).


(** [int(s)] for a string of ASCII characters: blanks around the number
    are dropped, a sign may lead, and single underscores may separate
    the decimal digits; anything else raises. *)
Definition is_space (c : Ascii.ascii) : bool :=
  let n := Ascii.N_of_ascii c in
  ((n =? 32) || ((9 <=? n) && (n <=? 13)))%N.

Fixpoint lstrip (s : string) : string :=
  match s with
  | EmptyString => EmptyString
  | String c s' => if is_space c then lstrip s' else s
  end.

Fixpoint rstrip (s : string) : string :=
  match s with
  | EmptyString => EmptyString
  | String c s' =>
      match rstrip s' with
      | EmptyString => if is_space c then EmptyString else String c EmptyString
      | r => String c r
      end
  end.

Fixpoint digits (acc : Z) (after_digit : bool) (s : string) : result Z :=
  match s with
  | EmptyString => if after_digit then Ok acc else Err ValueError
  | String c s' =>
      let n := Z.of_N (Ascii.N_of_ascii c) in
      if ((48 <=? n) && (n <=? 57))%Z
      then digits (10 * acc + (n - 48)) true s'
      else if ((n =? 95)%Z && after_digit)%bool
           then digits acc false s'
           else Err ValueError
  end.

Definition py_int (s : string) : result Z :=
  match rstrip (lstrip s) with
  | EmptyString => Err ValueError
  | String c s' as t =>
      let n := Ascii.N_of_ascii c in
      if (n =? 45)%N then Z.opp <$> digits 0 false s'
      else if (n =? 43)%N then digits 0 false s'
      else digits 0 false t
  end.

(** ** Statements on the pipeline *)

(** The pipelines that the program can hold after building one from a
    configuration: the one [__init__] gives, and what [update] and
    [__call__] turn a pipeline into. *)
Inductive reachable `{Externals} (model : Model.t) (reso : Z * Z) (draw : Draw.t)
    (display : Display.t) (tweak : Tweak.t) : Annotator.t -> Prop :=
| reach_init self :
    Annotator.init model reso draw display tweak = Ok self ->
    reachable model reso draw display tweak self
| reach_update self f self' :
    reachable model reso draw display tweak self ->
    Annotator.update self f = Ok self' ->
    reachable model reso draw display tweak self'
| reach_call self f begin now self' f' res :
    reachable model reso draw display tweak self ->
    Annotator.call self f begin now = Ok (self', f', res) ->
    reachable model reso draw display tweak self'.

(** The annotators of a pipeline are those of its styling: the text
    colour is the parsed colour code, and zone annotator [i] has colour
    [i] of the palette. *)
Definition styled `{Externals} (self : Annotator.t) : Prop :=
  let tw := Annotator.tweak self in
  let tc := Annotator.text_color self in
  Color_from_hex (Tweak.text_color tw) = Ok tc
  /\ Annotator.line self
     = LineZoneAnnotator.mk (Tweak.thickness tw) tc (Tweak.text_scale tw)
         (Tweak.text_offset tw) (Tweak.text_padding tw)
  /\ Annotator.box self
     = BoxAnnotator.mk (Tweak.thickness tw) tc (Tweak.text_scale tw)
         (Tweak.text_padding tw)
  /\ forall i a, Annotator.zones self !! i = Some a ->
       PolygonZoneAnnotator.thickness a = Tweak.thickness tw
       /\ PolygonZoneAnnotator.text_color a = tc
       /\ PolygonZoneAnnotator.text_scale a = Tweak.text_scale tw
       /\ PolygonZoneAnnotator.text_padding a = Tweak.text_padding tw
       /\ PolygonZoneAnnotator.color a = palette_by_idx i.

(** A model of the legacy generation, for the reference backend. *)
Definition legacy_model (path : string) : Model.t :=
  Model.init (ModelInfo.mk path [] "v5" "detect" (RFloat (f64.of_Q (1 # 4)))
                None).

Definition legacy_pipeline : Annotator.t :=
  Eval vm_compute in
    built (legacy_model "one_box.pt") (640, 480)%Z sample_draw
          Display.default Tweak.default.

(** A pipeline without geometry that only shows the frame rate. *)
Definition display_fps : Display.t :=
  Display.mk true false false false false (RFloat (f64.of_Q 0)) false.

Definition fps_pipeline : Annotator.t :=
  Eval vm_compute in
    built (sample_model "one_box.pt") (640, 480)%Z Draw.default
          display_fps Tweak.default.

(** The four sections of a configuration document. *)
Definition sections : list string := ["model"; "display"; "tweak"; "draw"].

(** A configuration document whose four sections are empty, and the
    same without its [draw] section. *)
Definition empty_sections : json :=
  JObj [("model", JObj []); ("draw", JObj []); ("display", JObj []);
        ("tweak", JObj [])].

Definition no_draw_section : json :=
  JObj [("model", JObj []); ("display", JObj []); ("tweak", JObj [])].

(** A model of the transformer generation, for the reference backend. *)
Definition rtdetr_info : ModelInfo.t :=
  ModelInfo.mk "rtdetr-l.pt" [] "rtdetr" "detect" (RFloat (f64.of_Q (1 # 4)))
    None.

(** * Properties *)

(** ** The error monad and the comprehensions *)

Lemma bind_Ok_inv {A B} (m : result A) (k : A -> result B) (b : B) :
  m ≫= k = Ok b -> exists a, m = Ok a /\ k a = Ok b.
Proof. destruct m as [a|e]; simpl; [eauto | discriminate]. Qed.

Ltac inv_bind H :=
  let a := fresh "a" in
  let Ha := fresh "E" in
  apply bind_Ok_inv in H as (a & Ha & H).

Lemma for_each_Forall2 {A B} (body : A -> result B) xs vs :
  for_each body xs = Ok vs <-> Forall2 (fun x v => body x = Ok v) xs vs.
Proof.
  revert vs. induction xs as [|x xs IH]; intros vs; simpl.
  - split.
    + intros [= <-]. constructor.
    + intros Hf. inversion Hf. reflexivity.
  - split.
    + intros Hb. inv_bind Hb. inv_bind Hb. injection Hb as <-.
      constructor; [assumption | by apply IH].
    + intros Hf. inversion Hf as [|? v ? vs' Hx Hxs]; subst.
      rewrite Hx. simpl. apply IH in Hxs. rewrite Hxs. reflexivity.
Qed.

Lemma for_each_length {A B} (body : A -> result B) xs vs :
  for_each body xs = Ok vs -> length vs = length xs.
Proof.
  intros Hf. apply for_each_Forall2 in Hf.
  symmetry. eapply Forall2_length. exact Hf.
Qed.

Lemma for_each_total {A B} (body : A -> result B) xs :
  Forall (fun x => is_Ok (body x)) xs -> is_Ok (for_each body xs).
Proof.
  induction 1 as [|x xs [v Hv] _ [vs Hvs]]; simpl.
  - by exists [].
  - exists (v :: vs). rewrite Hv. simpl. rewrite Hvs. reflexivity.
Qed.

(** A record whose condition is false leaves a comprehension as it is,
    wherever it stands. *)
Lemma comprehension_skip {A B} (cond : A -> result bool) (body : A -> result B)
    d1 r d2 :
  cond r = Ok false ->
  comprehension cond body (d1 ++ r :: d2) = comprehension cond body (d1 ++ d2).
Proof.
  intros Hr. induction d1 as [|i d1 IH]; simpl.
  - rewrite Hr. reflexivity.
  - destruct (cond i) as [[|]|e]; simpl; [|assumption|reflexivity].
    rewrite IH. reflexivity.
Qed.

(** A comprehension that returns has run its body on the records that
    pass the condition, in the order of the input. *)
Lemma comprehension_filter {A B} (cond : A -> result bool) (body : A -> result B)
    d vs :
  comprehension cond body d = Ok vs ->
  Forall2 (fun i v => body i = Ok v) (filter (fun i => cond i = Ok true) d) vs.
Proof.
  revert vs. induction d as [|i d IH]; intros vs; simpl.
  - intros [= <-]. constructor.
  - intros Hc. inv_bind Hc. destruct a.
    + inv_bind Hc. inv_bind Hc. injection Hc as <-.
      rewrite filter_cons_True by assumption.
      constructor; [assumption | by apply IH].
    + rewrite filter_cons_False by congruence. by apply IH.
Qed.

Lemma Forall2_compose {A B C} (P : A -> B -> Prop) (Q : B -> C -> Prop) xs ys zs :
  Forall2 P xs ys -> Forall2 Q ys zs ->
  Forall2 (fun x z => exists y, P x y /\ Q y z) xs zs.
Proof.
  intros HP. revert zs. induction HP; intros zs HQ; inversion HQ; subst.
  - constructor.
  - constructor; eauto.
Qed.

(** ** Shape extraction *)

Example from_canvas_line :
  Draw.from_canvas [line_record] = Ok (Draw.mk [line_geometry] []).
Proof. reflexivity. Qed.

Example from_canvas_rect :
  Draw.from_canvas [rect_record] = Ok (Draw.mk [] [rect_polygon]).
Proof. reflexivity. Qed.

Example from_canvas_path :
  Draw.from_canvas [path_record] = Ok (Draw.mk [] [path_polygon]).
Proof. reflexivity. Qed.

Lemma staged_paths d js ks ps :
  comprehension (Draw.type_is "path") (fun i => py_getitem_key i "path") d = Ok js ->
  for_each py_init js = Ok ks ->
  for_each Draw.path_polygon ks = Ok ps ->
  Forall2 (fun r p => Draw.canvas_path r = Ok p) (records_of "path" d) ps.
Proof.
  intros Hjs Hks Hps.
  apply comprehension_filter in Hjs.
  apply for_each_Forall2 in Hks. apply for_each_Forall2 in Hps.
  pose proof (Forall2_compose _ _ _ _ _ Hjs
                (Forall2_compose _ _ _ _ _ Hks Hps)) as Hall.
  eapply Forall2_impl; [exact Hall|].
  intros r p (j & Hj & k & Hk & Hp). unfold Draw.canvas_path.
  rewrite Hj. simpl. rewrite Hk. simpl. exact Hp.
Qed.

(** C5, as the code has it: the lines follow the line records in the
    order of the input, one per record; the zones are the polygons of the
    path records in the order of the input, followed by the polygons of
    the rectangle records in the order of the input. *)
Theorem from_canvas_order (d : list pyval) (dr : Draw.t) :
  Draw.from_canvas d = Ok dr ->
  Forall2 (fun r g => Draw.canvas_line r = Ok g)
          (records_of "line" d) (Draw.lines dr)
  /\ exists ps rs,
       Draw.zones dr = ps ++ rs
       /\ Forall2 (fun r p => Draw.canvas_path r = Ok p) (records_of "path" d) ps
       /\ Forall2 (fun r p => Draw.canvas_rect r = Ok p) (records_of "rect" d) rs.
Proof.
  unfold Draw.from_canvas. intros H.
  inv_bind H. inv_bind H. inv_bind H. inv_bind H. inv_bind H.
  injection H as <-. simpl. split.
  - by apply comprehension_filter.
  - eexists _, _. split; [reflexivity|]. split.
    + eapply staged_paths; eassumption.
    + by apply comprehension_filter.
Qed.

Lemma from_canvas_order_witness :
  Draw.from_canvas [rect_record; line_record; path_record]
  = Ok (Draw.mk [line_geometry] [path_polygon; rect_polygon])
  /\ Forall2 (fun r g => Draw.canvas_line r = Ok g)
       (records_of "line" [rect_record; line_record; path_record])
       [line_geometry].
Proof.
  split; [reflexivity|].
  exact (proj1 (from_canvas_order [rect_record; line_record; path_record]
                  (Draw.mk [line_geometry] [path_polygon; rect_polygon])
                  eq_refl)).
Defined.

(** C5 as stated fails: a rectangle drawn before a path comes after it
    in [zones]. *)
Lemma from_canvas_zones_not_in_record_order :
  Draw.from_canvas [rect_record; path_record]
  = Ok (Draw.mk [] [path_polygon; rect_polygon])
  /\ zones_in_record_order [rect_record; path_record]
     = Ok [rect_polygon; path_polygon]
  /\ [path_polygon; rect_polygon] <> [rect_polygon; path_polygon].
Proof. repeat split; discriminate. Qed.

Lemma type_is_unrecognized r kind :
  unrecognized r -> kind = "line" \/ kind = "path" \/ kind = "rect" ->
  Draw.type_is kind r = Ok false.
Proof.
  intros (t & Ht & Hl & Hp & Hr) Hk. unfold Draw.type_is. rewrite Ht. simpl.
  destruct Hk as [-> | [-> | ->]]; congruence.
Qed.

(** C9, as the code has it: a record of an unrecognized kind is ignored.
    Wherever it stands in the input, the call behaves as if the record
    were absent: same geometry, and an exception only if the other
    records raise one. *)
Theorem from_canvas_ignores_unrecognized (d1 d2 : list pyval) (r : pyval) :
  unrecognized r ->
  Draw.from_canvas (d1 ++ r :: d2) = Draw.from_canvas (d1 ++ d2).
Proof.
  intros Hr. unfold Draw.from_canvas.
  rewrite !comprehension_skip by (apply type_is_unrecognized; auto).
  reflexivity.
Qed.

Lemma from_canvas_ignores_unrecognized_witness :
  unrecognized circle_record
  /\ Draw.from_canvas ([line_record] ++ circle_record :: [rect_record])
     = Draw.from_canvas ([line_record] ++ [rect_record]).
Proof.
  assert (Hc : unrecognized circle_record)
    by (exists (PStr "circle"); repeat split).
  split; [exact Hc|].
  exact (from_canvas_ignores_unrecognized [line_record] [rect_record]
           circle_record Hc).
Defined.

(** C9 as stated fails: a line record that lacks its fields, or a record
    without a [type], makes the call raise, although the other records
    are fine. *)
Lemma from_canvas_malformed_raises :
  Draw.from_canvas [rect_record; PDict [("type", PStr "line")]] = Err KeyError
  /\ Draw.from_canvas [rect_record; PDict [("left", PInt 1)]] = Err KeyError
  /\ Draw.from_canvas [rect_record] = Ok (Draw.mk [] [rect_polygon]).
Proof. repeat split. Qed.

(** ** Colour classification *)

Lemma Qltb_lt (a b : Q) : Qltb a b = true <-> (a < b)%Q.
Proof.
  unfold Qltb. rewrite negb_true_iff. split.
  - intros Hf. apply Qnot_le_lt. intros Hle.
    apply Qle_bool_iff in Hle. congruence.
  - intros Hlt. destruct (Qle_bool b a) eqn:Hb; [|reflexivity].
    apply Qle_bool_iff in Hb. lra.
Qed.

Lemma Qltb_ge (a b : Q) : Qltb a b = false <-> (b <= a)%Q.
Proof.
  unfold Qltb. rewrite negb_false_iff. apply Qle_bool_iff.
Qed.

Lemma argmin_from_first_minimum (l p : list Q) (bi : nat) (best : Q) :
  p !! bi = Some best ->
  (forall j q, p !! j = Some q -> (best <= q)%Q) ->
  (forall j q, (j < bi)%nat -> p !! j = Some q -> (best < q)%Q) ->
  first_minimum (p ++ l) (argmin_from bi best (length p) l).
Proof.
  revert p bi best. induction l as [|q l IH]; intros p bi best Hbi Hle Hlt; simpl.
  - rewrite app_nil_r. exists best. auto.
  - replace (p ++ q :: l) with ((p ++ [q]) ++ l) by (rewrite <- app_assoc; done).
    replace (S (length p)) with (length (p ++ [q]))
      by (rewrite length_app; simpl; lia).
    destruct (Qltb q best) eqn:Hq.
    + apply Qltb_lt in Hq. apply IH.
      * rewrite lookup_app_r by lia. by rewrite Nat.sub_diag.
      * intros j q' Hj. apply lookup_app_Some in Hj as [Hj | [_ Hj]].
        -- specialize (Hle _ _ Hj). lra.
        -- destruct (j - length p)%nat; simpl in Hj; [|by destruct n].
           injection Hj as <-. lra.
      * intros j q' Hjlt Hj. rewrite lookup_app_l in Hj by assumption.
        specialize (Hle _ _ Hj). lra.
    + apply Qltb_ge in Hq.
      assert (Hbi_lt : (bi < length p)%nat) by (eapply lookup_lt_Some; eauto).
      apply IH.
      * by rewrite lookup_app_l.
      * intros j q' Hj. apply lookup_app_Some in Hj as [Hj | [_ Hj]]; [eauto|].
        destruct (j - length p)%nat; simpl in Hj; [|by destruct n].
        injection Hj as <-. assumption.
      * intros j q' Hjlt Hj. rewrite lookup_app_l in Hj by lia. eauto.
Qed.

(** [np.argmin] returns the first index that holds the minimum. *)
Lemma argmin_first_minimum (l : list Q) (i : nat) :
  argmin l = Ok i -> first_minimum l i.
Proof.
  destruct l as [|q l]; simpl; [discriminate|]. intros [= <-].
  apply (argmin_from_first_minimum l [q] 0 q).
  - reflexivity.
  - intros [|j] q' Hj; simpl in Hj; [|by destruct j].
    injection Hj as <-. lra.
  - intros j q' Hj. lia.
Qed.

(** [closest] returns the first palette entry at the least squared
    distance from the sample, in the colour space of [rgb2ycc]. *)
Lemma closest_first_minimum (rgb : Z * Z * Z) (ycc : list (Q * Q * Q)) (i : nat) :
  closest rgb ycc = Ok i ->
  first_minimum (map (fun c => sqdist c (rgb2ycc rgb)) ycc) i.
Proof. apply argmin_first_minimum. Qed.

(** The Cb that [rgb2ycc] computes is the one of the specification less
    G/2550000: the code multiplies G by 0.331364. *)
Lemma rgb2ycc_cb_offset (r g b : Z) :
  (snd (fst (rgb2ycc (r, g, b)))
   == snd (fst (rgb2ycc_spec (r, g, b))) - inject_Z g / 2550000)%Q.
Proof.
  unfold rgb2ycc, rgb2ycc_spec. simpl. rewrite !Qred_correct. field.
Qed.

(** C6: on pure green the code computes Cb = 127.668636 where the
    transform of the specification gives 127.668736; and with the palette
    (127,126,131), (128,127,123) the sample (128,128,128) is classified
    as the second entry by the code and as the first by the transform of
    the specification. *)
Theorem rgb2ycc_green_cb :
  rgb2ycc (0, 255, 0)%Z = (587 # 1000, 31917159 # 250000, 1993458 # 15625)%Q
  /\ rgb2ycc_spec (0, 255, 0)%Z
     = (587 # 1000, 1994824 # 15625, 1993458 # 15625)%Q
  /\ classify [(127, 126, 131); (128, 127, 123)]%Z (128, 128, 128)%Z = Ok 1%nat
  /\ classify_spec [(127, 126, 131); (128, 127, 123)]%Z (128, 128, 128)%Z
     = Ok 0%nat.
Proof. repeat split; vm_compute; reflexivity. Qed.

(** ** Truncation *)

(** [trunc] does not depend on how the fraction is written. *)
Lemma trunc_Qred (q : Q) : trunc (Qred q) = trunc q.
Proof.
  destruct q as [n d]. unfold trunc, Qred.
  pose proof (Z.ggcd_correct_divisors n (Zpos d)) as Hdiv.
  pose proof (Z.ggcd_gcd n (Zpos d)) as Hgcd.
  destruct (Z.ggcd n (Zpos d)) as [g [n' d']] eqn:Hg. simpl in *.
  destruct Hdiv as [Hn Hd].
  assert (Hgpos : (0 < g)%Z).
  { pose proof (Z.gcd_nonneg n (Zpos d)) as Hnn. rewrite <- Hgcd in Hnn.
    destruct (decide (g = 0%Z)) as [->|]; lia. }
  assert (Hd'pos : (0 < d')%Z) by nia.
  rewrite Z2Pos.id by assumption.
  rewrite Hn, Hd. rewrite Z.quot_mul_cancel_l by lia. reflexivity.
Qed.

(** The fraction is dropped towards zero: 1.5 and 1.9 give 1, -1.5
    gives -1, where rounding would give 2 and flooring -2. *)
Example trunc_drops_fraction :
  trunc (3 # 2) = 1%Z /\ trunc (19 # 10) = 1%Z /\ trunc (- 3 # 2) = (-1)%Z
  /\ trunc (inject_Z 7) = 7%Z.
Proof. repeat split. Qed.

(** ** Floats and arrays *)

(** The product of a vertex coordinate and the scale is rounded before
    its fraction is dropped: 100 times the float nearest to 29/100 is a
    float below 29, and gives 28. A product that 64 bits do not hold
    gives the least integer of 64 bits. *)
Example rescaled_coordinate_rounds :
  rescaled_coordinate (f64.quotient 29 100) 100 = 28%Z
  /\ rescaled_coordinate (f64.quotient 3 2) 5 = 7%Z
  /\ rescaled_coordinate (f64.quotient 3 2) (-5) = (-7)%Z
  /\ rescaled_coordinate (f64.quotient 4 1) (2 ^ 62) = (- 2 ^ 63)%Z.
Proof. repeat split. Qed.

Lemma astype_int_mul (a : list (list Z)) (s : f64.t) :
  np.astype_int (np.mul a s) = rescaled a s.
Proof.
  unfold np.astype_int, np.mul, rescaled. rewrite map_map.
  apply map_ext. intros row. rewrite map_map. reflexivity.
Qed.

Lemma forallb_Forall_true {A} (f : A -> bool) (l : list A) :
  forallb f l = true <-> Forall (fun x => f x = true) l.
Proof.
  rewrite forallb_forall, Forall_forall.
  split; intros Hl x Hx; apply Hl; by apply list_elem_of_In.
Qed.

Lemma existsb_elem_of {A} (f : A -> bool) (l : list A) :
  existsb f l = true <-> exists x, x ∈ l /\ f x = true.
Proof.
  rewrite existsb_exists.
  split; intros (x & Hx & Hf); exists x; (split; [|exact Hf]);
    by apply list_elem_of_In.
Qed.

(** A cell of an array of integers. *)
Lemma int_cell_of (c : pyval) :
  is_Some (as_number c) -> np.is_float c = false ->
  f64.in_int64 (np.int_of c) = true ->
  int_cell c = Some (np.int_of c).
Proof.
  destruct c as [|b|z|x|s|l|l|d]; simpl; intros [m Hm] Hf Hr; try discriminate.
  - reflexivity.
  - unfold np.int_of in *. simpl in *. by rewrite Hr.
Qed.

Lemma int_cell_inv (c : pyval) (z : Z) :
  int_cell c = Some z ->
  is_Some (as_number c) /\ np.is_float c = false
  /\ f64.in_int64 (np.int_of c) = true /\ np.int_of c = z.
Proof.
  destruct c; simpl; try discriminate.
  - intros [= <-]. unfold np.int_of. simpl. split; [eauto|].
    by destruct b.
  - destruct (f64.in_int64 n) eqn:Hr; [|discriminate]. intros [= <-].
    unfold np.int_of. simpl. eauto.
Qed.

Lemma row_of_inv (v : pyval) (cells : list pyval) :
  np.row_of v = Ok cells ->
  (v = PList cells \/ v = PTuple cells)
  /\ Forall (fun c => is_Some (as_number c)) cells.
Proof.
  unfold np.row_of.
  destruct v; try discriminate;
    (destruct (forallb _ l) eqn:Hall; [|discriminate]; intros [= <-];
     split; [auto|];
     apply forallb_Forall_true in Hall; eapply Forall_impl; [exact Hall|];
     intros c Hc; by apply bool_decide_eq_true in Hc).
Qed.

Lemma typed_Ints (rows' : list (list pyval)) (rows : list (list Z)) :
  np.typed rows' = np.Ints rows ->
  Forall (Forall (fun c => np.is_float c = false
                           /\ f64.in_int64 (np.int_of c) = true)) rows'
  /\ rows = map (map np.int_of) rows'.
Proof.
  unfold np.typed.
  destruct (existsb np.is_float (concat rows') || bool_decide (concat rows' = []))
    eqn:Hf.
  { destruct (mapM _ rows'); discriminate. }
  destruct (forallb np.is_bool (concat rows')); [discriminate|].
  destruct (forallb _ (concat rows')) eqn:Hr; [|discriminate].
  intros [= <-]. split; [|reflexivity].
  apply orb_false_iff in Hf as [Hf _].
  apply Forall_concat.
  rewrite Forall_forall. intros c Hc. split.
  - destruct (np.is_float c) eqn:E; [|reflexivity].
    assert (Hex : existsb np.is_float (concat rows') = true)
      by (apply existsb_elem_of; eauto).
    congruence.
  - apply forallb_Forall_true in Hr. rewrite Forall_forall in Hr.
    exact (Hr c Hc).
Qed.

(** The array of integers that [np.array] makes of a polygon holds the
    vertices that are read off the polygon. *)
Lemma array_Ints_vertices (p : pyval) (rows : list (list Z)) :
  np.array p = Ok (np.Ints rows) -> vertices_of p = Some rows.
Proof.
  assert (Hgen : forall l, (rows' ← for_each np.row_of l;
                            if np.uniform rows' then Ok (np.typed rows')
                            else Err ValueError) = Ok (np.Ints rows) ->
                           mapM int_row l = Some rows).
  { intros l Ha. inv_bind Ha. rename a into rows', E into Hrows.
    destruct (np.uniform rows'); [|discriminate]. injection Ha as Ht.
    apply typed_Ints in Ht as [Hcells ->].
    apply for_each_Forall2 in Hrows. apply mapM_Some.
    apply Forall2_fmap_r.
    revert Hcells. induction Hrows as [|v cells l rows' Hv _ IH];
      intros Hcells; [constructor|].
    apply Forall_cons in Hcells as [Hc Hcs].
    constructor; [|by apply IH].
    apply row_of_inv in Hv as [Hv Hnum].
    assert (Hrow : mapM int_cell cells = Some (map np.int_of cells)).
    { apply mapM_Some. apply Forall2_fmap_r. apply Forall_Forall2_diag.
      rewrite Forall_forall in Hc, Hnum. apply Forall_forall. intros c Hin.
      destruct (Hc c Hin). apply int_cell_of; auto. }
    destruct Hv as [-> | ->]; exact Hrow. }
  destruct p; try discriminate; apply Hgen.
Qed.

Lemma typed_of_ints (rows' : list (list pyval)) (rows : list (list Z)) :
  Forall2 (fun cells r => mapM int_cell cells = Some r) rows' rows ->
  existsb is_int (concat rows') = true ->
  np.typed rows' = np.Ints rows.
Proof.
  intros Hrows Hint.
  assert (Hcells : Forall (fun c => np.is_float c = false
                                    /\ f64.in_int64 (np.int_of c) = true)
                          (concat rows')).
  { apply Forall_concat. clear Hint.
    induction Hrows as [|cells r rows' rows Hr _ IH]; constructor; [|exact IH].
    apply mapM_Some in Hr. clear -Hr.
    induction Hr as [|c z cells r Hc _ IH]; constructor; [|exact IH].
    apply int_cell_inv in Hc. tauto. }
  assert (Hmap : map (map np.int_of) rows' = rows).
  { clear Hint Hcells.
    induction Hrows as [|cells r rows' rows Hr _ IH]; [reflexivity|].
    simpl. f_equal; [|exact IH].
    apply mapM_Some in Hr. clear -Hr.
    induction Hr as [|c z cells r Hc _ IH]; [reflexivity|].
    simpl. f_equal; [|exact IH]. apply int_cell_inv in Hc. tauto. }
  apply existsb_elem_of in Hint as (c0 & Hin0 & Hc0).
  unfold np.typed.
  assert (Hf : existsb np.is_float (concat rows') = false).
  { apply not_true_is_false. intros Hex.
    apply existsb_elem_of in Hex as (c & Hin & Hc).
    rewrite Forall_forall in Hcells.
    destruct (Hcells c Hin). congruence. }
  assert (Hne : bool_decide (concat rows' = []) = false).
  { apply bool_decide_eq_false. intros E. rewrite E in Hin0.
    by apply elem_of_nil in Hin0. }
  rewrite Hf, Hne. simpl.
  assert (Hb : forallb np.is_bool (concat rows') = false).
  { apply not_true_is_false. intros Hall.
    apply forallb_Forall_true in Hall. rewrite Forall_forall in Hall.
    specialize (Hall c0 Hin0). destruct c0; discriminate. }
  rewrite Hb.
  assert (Hr : forallb (fun v => f64.in_int64 (np.int_of v)) (concat rows') = true).
  { apply forallb_Forall_true. eapply Forall_impl; [exact Hcells|].
    intros c Hc. simpl in Hc. exact (proj2 Hc). }
  rewrite Hr. by rewrite Hmap.
Qed.

Lemma int_row_inv (v : pyval) (r : list Z) :
  int_row v = Some r ->
  exists cells, (v = PList cells \/ v = PTuple cells)
                /\ mapM int_cell cells = Some r
                /\ np.row_of v = Ok cells.
Proof.
  assert (Hnum : forall cells, mapM int_cell cells = Some r ->
            forallb (fun x => bool_decide (is_Some (as_number x))) cells = true).
  { intros cells Hr. apply forallb_Forall_true. apply mapM_Some in Hr.
    clear -Hr. induction Hr as [|c z cells r0 Hc _ IH]; constructor; [|exact IH].
    apply int_cell_inv in Hc. apply bool_decide_eq_true. tauto. }
  destruct v; try discriminate; simpl; intros Hr; exists l;
    (split; [auto|]; split; [exact Hr|]); by rewrite (Hnum l Hr).
Qed.

Lemma uniform_of_lengths {A} (rows : list (list A)) (n : nat) :
  Forall (fun r => length r = n) rows -> np.uniform rows = true.
Proof.
  destruct 1 as [|r rows Hr Hrows]; [reflexivity|]. simpl.
  apply forallb_Forall_true. eapply Forall_impl; [exact Hrows|].
  intros r' Hr'. apply Nat.eqb_eq. congruence.
Qed.

(** A polygon of integers, two to a row, makes an array of integers. *)
Lemma int_polygon_array (p : pyval) (rows : list (list Z)) :
  vertices_of p = Some rows ->
  Forall (fun r => length r = 2%nat) rows ->
  existsb is_int (cells_of p) = true ->
  np.array p = Ok (np.Ints rows).
Proof.
  assert (Hgen : forall l,
            mapM int_row l = Some rows ->
            Forall (fun r => length r = 2%nat) rows ->
            existsb is_int
              (concat (map (fun r => match r with
                                     | PList c | PTuple c => c
                                     | _ => []
                                     end) l)) = true ->
            (rows' ← for_each np.row_of l;
             if np.uniform rows' then Ok (np.typed rows') else Err ValueError)
            = Ok (np.Ints rows)).
  { intros l Hv Hlen Hint. apply mapM_Some in Hv.
    assert (Hrows : exists rows',
               for_each np.row_of l = Ok rows'
               /\ Forall2 (fun cells r => mapM int_cell cells = Some r) rows' rows
               /\ rows' = map (fun r => match r with
                                        | PList c | PTuple c => c
                                        | _ => []
                                        end) l).
    { clear Hlen Hint.
      induction Hv as [|v r l rows Hr _ (rows' & Hfe & Hf2 & Hmap)].
      - exists []. repeat split. constructor.
      - apply int_row_inv in Hr as (cells & Hv & Hcells & Hrow).
        exists (cells :: rows'). simpl. rewrite Hrow. simpl. rewrite Hfe. simpl.
        split; [reflexivity|]. split; [by constructor|].
        rewrite Hmap. by destruct Hv as [-> | ->]. }
    destruct Hrows as (rows' & Hfe & Hf2 & Hmap).
    rewrite Hfe. simpl.
    assert (Hu : np.uniform rows' = true).
    { apply (uniform_of_lengths rows' 2). clear -Hf2 Hlen.
      induction Hf2 as [|cells r rows' rows Hr _ IH]; [constructor|].
      apply Forall_cons in Hlen as [Hl Hls]. constructor; [|by apply IH].
      apply length_mapM in Hr. lia. }
    rewrite Hu. f_equal. apply typed_of_ints; [exact Hf2|]. by rewrite Hmap. }
  destruct p; try discriminate; simpl; apply Hgen.
Qed.

(** ** Rescaling *)

Section Rescaling.
Context `{Externals}.

Lemma py_mul_float_Ok (v : pyval) (s : f64.t) (v' : pyval) :
  py_mul_float v s = Ok v' <->
  exists n x, as_number v = Some n /\ to_float n = Ok x
              /\ v' = PFloat (f64.mul x s).
Proof.
  unfold py_mul_float. destruct (as_number v) as [n|]; split.
  - intros Hm. inv_bind Hm. injection Hm as <-. eauto.
  - intros (n' & x & [= <-] & -> & ->). reflexivity.
  - discriminate.
  - intros (n' & x & [=] & _).
Qed.

Lemma coordinate_Ok (i : pyval) (k1 k2 : nat) (x : f64.t) :
  coordinate i k1 k2 = Ok x <->
  exists p c n, py_getitem_idx i k1 = Ok p /\ py_getitem_idx p k2 = Ok c
                /\ as_number c = Some n /\ to_float n = Ok x.
Proof.
  unfold coordinate. split.
  - intros Hc. inv_bind Hc. inv_bind Hc.
    destruct (as_number a0) as [n|] eqn:Hn; [|discriminate]. eauto 10.
  - intros (p & c & n & -> & Hc & Hn & Hx). simpl. rewrite Hc. simpl.
    by rewrite Hn.
Qed.

(** A line trigger that [update] builds sits at the coordinates of the
    line multiplied by the scale. *)
Lemma scaled_line_zone_inv (s : f64.t) (i : pyval) (lz : LineZone.t) :
  Annotator.scaled_line_zone s i = Ok lz -> line_scaled_by s i lz.
Proof.
  unfold Annotator.scaled_line_zone. intros Hz.
  inv_bind Hz. rename a into i0, E into Hi0.
  inv_bind Hz. rename a into a0, E into Ha0.
  inv_bind Hz. apply py_mul_float_Ok in E as (na & xa & Hna & Hxa & ->).
  inv_bind Hz. rename a into b0, E into Hb0.
  inv_bind Hz. apply py_mul_float_Ok in E as (nb & xb & Hnb & Hxb & ->).
  inv_bind Hz. rename a into i1, E into Hi1.
  inv_bind Hz. rename a into c0, E into Hc0.
  inv_bind Hz. apply py_mul_float_Ok in E as (nc & xc & Hnc & Hxc & ->).
  inv_bind Hz. rename a into d0, E into Hd0.
  inv_bind Hz. apply py_mul_float_Ok in E as (nd & xd & Hnd & Hxd & ->).
  injection Hz as <-.
  exists xa, xb, xc, xd.
  repeat split; try (apply coordinate_Ok; eauto 10).
Qed.

Lemma scaled_line_zone_total (s : f64.t) (i : pyval) :
  numeric_line i -> is_Ok (Annotator.scaled_line_zone s i).
Proof.
  intros ([x1 H1] & [y1 H2] & [x2 H3] & [y2 H4]).
  apply coordinate_Ok in H1 as (i0 & a & na & Hi0 & Ha & Hna & Hxa).
  apply coordinate_Ok in H2 as (i0' & b & nb & Hi0' & Hb & Hnb & Hxb).
  apply coordinate_Ok in H3 as (i1 & c & nc & Hi1 & Hc & Hnc & Hxc).
  apply coordinate_Ok in H4 as (i1' & d & nd & Hi1' & Hd & Hnd & Hxd).
  rewrite Hi0 in Hi0'. injection Hi0' as <-.
  rewrite Hi1 in Hi1'. injection Hi1' as <-.
  unfold Annotator.scaled_line_zone, py_mul_float.
  rewrite Hi0. simpl. rewrite Ha. simpl. rewrite Hna, Hxa. simpl.
  rewrite Hb. simpl. rewrite Hnb, Hxb. simpl.
  rewrite Hi1. simpl. rewrite Hc. simpl. rewrite Hnc, Hxc. simpl.
  rewrite Hd. simpl. rewrite Hnd, Hxd. simpl. eexists. reflexivity.
Qed.

(** The loop over [enumerate(self.zs)] in closed form: the annotators at
    the indices of the zones get their centres, the others are left as
    they are; a zone without an annotator raises. *)
Lemma retarget_closed (zs : list PolygonZone.t)
    (pre post : list PolygonZoneAnnotator.t) :
  Annotator.retarget (length pre) zs (pre ++ post)
  = if decide (length zs <= length post)%nat
    then Ok (pre ++ zip_with recenter zs post ++ drop (length zs) post)
    else Err IndexError.
Proof.
  revert pre post. induction zs as [|z zs IH]; intros pre post; simpl.
  - rewrite drop_0. reflexivity.
  - rewrite lookup_app_r by lia. rewrite Nat.sub_diag.
    destruct post as [|a post]; simpl.
    + first [reflexivity | case_decide; [lia | reflexivity]].
    + rewrite insert_app_r_alt by lia. rewrite Nat.sub_diag. simpl.
      replace (pre ++ _ :: post) with ((pre ++ [recenter z a]) ++ post)
        by (rewrite <- app_assoc; reflexivity).
      replace (S (length pre)) with (length (pre ++ [recenter z a]))
        by (rewrite length_app; simpl; lia).
      rewrite IH. rewrite <- app_assoc. simpl.
      repeat case_decide; try lia; reflexivity.
Qed.

Lemma retarget_0 (zs : list PolygonZone.t) (zones : list PolygonZoneAnnotator.t) :
  Annotator.retarget 0 zs zones
  = if decide (length zs <= length zones)%nat
    then Ok (zip_with recenter zs zones ++ drop (length zs) zones)
    else Err IndexError.
Proof. apply (retarget_closed zs [] zones). Qed.

(** *** The zone constructor *)

Lemma PolygonZone_init_inv (a : np.ndarray) (wh : Z * Z) (z : PolygonZone.t) :
  PolygonZone.init a wh = Ok z ->
  exists rows, a = np.Ints rows /\ z = PolygonZone.new rows wh
               /\ rows <> [] /\ Forall (fun r => length r = 2%nat) rows
               /\ (0 <= fst wh)%Z /\ (0 <= snd wh)%Z.
Proof.
  unfold PolygonZone.init.
  destruct ((0 <=? fst wh)%Z && (0 <=? snd wh)%Z) eqn:Hwh; [|discriminate].
  apply andb_true_iff in Hwh as [Hw Hh].
  destruct a as [rows| | |]; try discriminate.
  destruct (bool_decide (rows <> []) && forallb _ rows) eqn:Hok; [|discriminate].
  apply andb_true_iff in Hok as [Hne Hlen]. intros [= <-].
  exists rows. repeat split; try lia.
  - by apply bool_decide_eq_true in Hne.
  - apply forallb_Forall_true in Hlen. eapply Forall_impl; [exact Hlen|].
    intros r Hr. by apply Nat.eqb_eq.
Qed.

Lemma PolygonZone_init_Ok (rows : list (list Z)) (wh : Z * Z) :
  rows <> [] -> Forall (fun r => length r = 2%nat) rows ->
  (0 <= fst wh)%Z -> (0 <= snd wh)%Z ->
  PolygonZone.init (np.Ints rows) wh = Ok (PolygonZone.new rows wh).
Proof.
  intros Hne Hlen Hw Hh. unfold PolygonZone.init.
  replace ((0 <=? fst wh)%Z && (0 <=? snd wh)%Z) with true
    by (symmetry; apply andb_true_iff; split; lia).
  replace (bool_decide (rows <> []) && forallb _ rows) with true; [reflexivity|].
  symmetry. apply andb_true_iff. split; [by apply bool_decide_eq_true|].
  apply forallb_Forall_true. eapply Forall_impl; [exact Hlen|].
  intros r Hr. by apply Nat.eqb_eq.
Qed.

(** A zone that the constructor builds sits at the vertices of its
    polygon. *)
Lemma polygon_zone_inv (reso : Z * Z) (p : pyval) (z : PolygonZone.t) :
  Annotator.polygon_zone reso p = Ok z ->
  zone_at reso p z
  /\ PolygonZone.polygon z <> []
  /\ Forall (fun r => length r = 2%nat) (PolygonZone.polygon z).
Proof.
  unfold Annotator.polygon_zone. intros Hz. inv_bind Hz.
  apply PolygonZone_init_inv in Hz as (rows & -> & -> & Hne & Hlen & _).
  apply array_Ints_vertices in E. split; [|by split].
  exists rows. auto.
Qed.

Lemma polygon_zone_total (reso : Z * Z) (p : pyval) :
  int_polygon p -> (0 <= fst reso)%Z -> (0 <= snd reso)%Z ->
  exists rows, vertices_of p = Some rows
               /\ rows <> [] /\ Forall (fun r => length r = 2%nat) rows
               /\ Annotator.polygon_zone reso p = Ok (PolygonZone.new rows reso).
Proof.
  intros (rows & Hv & Hne & Hlen & Hint) Hw Hh.
  exists rows. split; [exact Hv|]. split; [exact Hne|]. split; [exact Hlen|].
  unfold Annotator.polygon_zone.
  rewrite (int_polygon_array p rows Hv Hlen Hint). simpl.
  by apply PolygonZone_init_Ok.
Qed.

Lemma rescaled_shape (rows : list (list Z)) (s : f64.t) :
  rows <> [] -> Forall (fun r => length r = 2%nat) rows ->
  rescaled rows s <> []
  /\ Forall (fun r => length r = 2%nat) (rescaled rows s).
Proof.
  intros Hne Hlen. unfold rescaled. split.
  - destruct rows; [contradiction | discriminate].
  - apply Forall_fmap. eapply Forall_impl; [exact Hlen|].
    intros r Hr. simpl. by rewrite length_map.
Qed.

Lemma scaled_polygon_zone_inv (s : f64.t) (wh : Z * Z) (z z' : PolygonZone.t) :
  Annotator.scaled_polygon_zone s wh z = Ok z' ->
  z' = PolygonZone.new (rescaled (PolygonZone.polygon z) s) wh.
Proof.
  unfold Annotator.scaled_polygon_zone. rewrite astype_int_mul. intros Hz.
  apply PolygonZone_init_inv in Hz as (rows & [= <-] & -> & _). reflexivity.
Qed.

Lemma scaled_polygon_zone_Ok (s : f64.t) (wh : Z * Z) (z : PolygonZone.t) :
  PolygonZone.polygon z <> [] ->
  Forall (fun r => length r = 2%nat) (PolygonZone.polygon z) ->
  (0 <= fst wh)%Z -> (0 <= snd wh)%Z ->
  Annotator.scaled_polygon_zone s wh z
  = Ok (PolygonZone.new (rescaled (PolygonZone.polygon z) s) wh).
Proof.
  intros Hne Hlen Hw Hh. unfold Annotator.scaled_polygon_zone.
  rewrite astype_int_mul.
  destruct (rescaled_shape _ s Hne Hlen). by apply PolygonZone_init_Ok.
Qed.

Lemma frame_shape_nonneg (f : frame) :
  (0 <= frame_width f)%Z /\ (0 <= frame_height f)%Z.
Proof. unfold frame_width, frame_height. destruct f; simpl; lia. Qed.

(** What a call of [update] that returns has done. *)
Lemma update_inv (self self' : Annotator.t) (f : frame) :
  Annotator.update self f = Ok self' ->
  exists s origin,
    Annotator.scale_of f (Annotator.reso self) = Ok s
    /\ for_each (Annotator.scaled_line_zone s) (Draw.lines (Annotator.draw self))
       = Ok (Annotator.ls self')
    /\ for_each (Annotator.polygon_zone (Annotator.reso self))
                (Draw.zones (Annotator.draw self)) = Ok origin
    /\ for_each (Annotator.scaled_polygon_zone s (frame_width f, frame_height f))
                origin = Ok (Annotator.zs self')
    /\ (length (Annotator.zs self') <= length (Annotator.zones self))%nat
    /\ Annotator.zones self'
       = zip_with recenter (Annotator.zs self') (Annotator.zones self)
         ++ drop (length (Annotator.zs self')) (Annotator.zones self)
    /\ Annotator.draw self' = Annotator.draw self
    /\ Annotator.reso self' = Annotator.reso self
    /\ Annotator.model self' = Annotator.model self
    /\ Annotator.display self' = Annotator.display self
    /\ Annotator.tweak self' = Annotator.tweak self
    /\ Annotator.text_color self' = Annotator.text_color self
    /\ Annotator.line self' = Annotator.line self
    /\ Annotator.box self' = Annotator.box self.
Proof.
  unfold Annotator.update. intros Hu.
  inv_bind Hu. rename a into s, E into Hs.
  inv_bind Hu. rename a into ls', E into Hls.
  inv_bind Hu. rename a into origin, E into Hor.
  inv_bind Hu. rename a into zs', E into Hzs.
  inv_bind Hu. rename a into zones', E into Hz.
  injection Hu as <-. simpl.
  rewrite retarget_0 in Hz. destruct (decide _) as [Hlen|]; [|discriminate].
  injection Hz as <-.
  exists s, origin. repeat split; assumption.
Qed.

Lemma scale_of_Ok (f : frame) (reso : Z * Z) :
  snd reso <> 0%Z ->
  Annotator.scale_of f reso = Ok (f64.quotient (frame_height f) (snd reso)).
Proof. intros Hh. unfold Annotator.scale_of. by destruct (decide _). Qed.

Lemma scale_of_inv (f : frame) (reso : Z * Z) (s : f64.t) :
  Annotator.scale_of f reso = Ok s ->
  snd reso <> 0%Z /\ s = f64.quotient (frame_height f) (snd reso).
Proof.
  unfold Annotator.scale_of. case_decide; [discriminate|]. by intros [= <-].
Qed.

(** The zones of [update], from the polygons of the DrawSet. *)
Lemma scaled_zones_inv (s : f64.t) (reso wh : Z * Z) (polygons : list pyval)
    (origin zs : list PolygonZone.t) :
  for_each (Annotator.polygon_zone reso) polygons = Ok origin ->
  for_each (Annotator.scaled_polygon_zone s wh) origin = Ok zs ->
  Forall2 (zone_scaled_by s wh) polygons zs.
Proof.
  intros Hor Hzs. apply for_each_Forall2 in Hor. apply for_each_Forall2 in Hzs.
  revert zs Hzs. induction Hor as [|p z polygons origin Hp _ IH];
    intros zs Hzs; inversion Hzs as [|? z' ? zs' Hz Hzs']; subst;
    constructor; [|by apply IH].
  apply polygon_zone_inv in Hp as [(rows & Hv & ->) _].
  apply scaled_polygon_zone_inv in Hz. exists rows. auto.
Qed.

Lemma scaled_zones_total (s : f64.t) (reso wh : Z * Z) (polygons : list pyval) :
  Forall int_polygon polygons ->
  (0 <= fst reso)%Z -> (0 <= snd reso)%Z ->
  (0 <= fst wh)%Z -> (0 <= snd wh)%Z ->
  exists origin zs,
    for_each (Annotator.polygon_zone reso) polygons = Ok origin
    /\ for_each (Annotator.scaled_polygon_zone s wh) origin = Ok zs.
Proof.
  intros Hp Hw0 Hh0 Hw Hh.
  induction Hp as [|p polygons Hp _ (origin & zs & Hor & Hzs)].
  - exists [], []. auto.
  - destruct (polygon_zone_total reso p Hp Hw0 Hh0)
      as (rows & Hv & Hne & Hlen & Hz).
    exists (PolygonZone.new rows reso :: origin),
           (PolygonZone.new (rescaled rows s) wh :: zs).
    simpl. rewrite Hz. simpl. rewrite Hor. simpl. split; [reflexivity|].
    rewrite (scaled_polygon_zone_Ok s wh (PolygonZone.new rows reso))
      by assumption.
    simpl. rewrite Hzs. reflexivity.
Qed.

(** [update] returns whenever the recorded resolution has no negative
    side and a height that is not zero, the lines are numeric, the zones
    are polygons of integers, and every zone has its annotator. *)
Lemma update_total (self : Annotator.t) (f : frame) :
  (length (Draw.zones (Annotator.draw self)) <= length (Annotator.zones self))%nat ->
  drawable (Annotator.draw self) ->
  (0 <= fst (Annotator.reso self))%Z -> (0 < snd (Annotator.reso self))%Z ->
  is_Ok (Annotator.update self f).
Proof.
  intros Hzones [Hlines Hpolys] Hw Hh. unfold Annotator.update.
  rewrite scale_of_Ok by lia. simpl.
  destruct (for_each_total (Annotator.scaled_line_zone
              (f64.quotient (frame_height f) (snd (Annotator.reso self))))
              (Draw.lines (Annotator.draw self))) as [ls' Hls].
  { eapply Forall_impl; [exact Hlines|]. intros i. apply scaled_line_zone_total. }
  rewrite Hls. simpl.
  destruct (frame_shape_nonneg f) as [Hw1 Hh1].
  destruct (scaled_zones_total
              (f64.quotient (frame_height f) (snd (Annotator.reso self)))
              (Annotator.reso self) (frame_width f, frame_height f)
              (Draw.zones (Annotator.draw self)) Hpolys Hw ltac:(lia) Hw1 Hh1)
    as (origin & zs & Hor & Hzs).
  rewrite Hor. simpl. rewrite Hzs. simpl.
  rewrite retarget_0. apply for_each_length in Hor. apply for_each_length in Hzs.
  destruct (decide _) as [|Hn]; simpl.
  - eexists. reflexivity.
  - exfalso. apply Hn. lia.
Qed.

End Rescaling.

Section Update.
Context `{Externals}.

Lemma zip_with_recenter_twice (zs zs' : list PolygonZone.t)
    (zones : list PolygonZoneAnnotator.t) :
  (length zs <= length zs')%nat ->
  zip_with recenter zs (zip_with recenter zs' zones) = zip_with recenter zs zones.
Proof.
  revert zs' zones. induction zs as [|z zs IH]; intros zs' zones Hlen;
    [reflexivity|].
  destruct zs' as [|z' zs']; simpl in Hlen; [lia|].
  destruct zones as [|a zones]; simpl; [reflexivity|].
  rewrite IH by lia. reflexivity.
Qed.

(** *** The invariant of the pipeline *)

Lemma init_consistent (model : Model.t) (reso : Z * Z) (draw : Draw.t)
    (display : Display.t) (tweak : Tweak.t) (self : Annotator.t) :
  Annotator.init model reso draw display tweak = Ok self -> consistent self.
Proof.
  unfold Annotator.init. intros Hi.
  inv_bind Hi. rename a into ls, E into Hls.
  inv_bind Hi. rename a into zs, E into Hzs.
  inv_bind Hi. injection Hi as <-. unfold consistent. simpl.
  apply for_each_length in Hls. apply for_each_length in Hzs.
  rewrite length_imap. auto.
Qed.

Lemma update_consistent (self self' : Annotator.t) (f : frame) :
  consistent self -> Annotator.update self f = Ok self' -> consistent self'.
Proof.
  intros (Hc1 & Hc2 & Hc3) Hu.
  destruct (update_inv _ _ _ Hu)
    as (s & origin & _ & Hls & Hor & Hzs & Hlen & Hzones & Hd & _).
  apply for_each_length in Hls. apply for_each_length in Hor.
  apply for_each_length in Hzs.
  unfold consistent. rewrite Hd. repeat split; [assumption| lia |].
  rewrite Hzones, length_app, length_zip_with, length_drop. lia.
Qed.

(** The line trigger that [__init__] builds. *)
Lemma line_zone_inv (i : pyval) (lz : LineZone.t) :
  Annotator.line_zone i = Ok lz -> line_at i lz.
Proof.
  unfold Annotator.line_zone. intros Hz.
  inv_bind Hz. rename a into i0, E into Hi0.
  inv_bind Hz. rename a into a0, E into Ha.
  inv_bind Hz. rename a into b0, E into Hb.
  inv_bind Hz. rename a into i1, E into Hi1.
  inv_bind Hz. rename a into c0, E into Hc.
  inv_bind Hz. rename a into d0, E into Hd.
  injection Hz as <-. exists i0, i1, a0, b0, c0, d0. repeat split; assumption.
Qed.

(** C2: [update] rescales by the one factor s = h1 / h0, the float
    nearest to that quotient. Whenever it returns, every line trigger
    sits at the end points of its line multiplied by s; every polygon
    zone (the zones of the DrawSet being polygons of integers) sits at
    the vertices of its polygon multiplied by s with the fraction dropped
    (a product that 64 bits do not hold gives the least integer of 64
    bits), in the resolution of the frame; and every zone annotator has
    its label anchor at the centre of the rescaled zone. And it does
    return, for every frame that has pixels, on a pipeline whose lines
    are numeric and whose zones are polygons of integers, recorded at a
    resolution with positive sides. *)
Theorem update_rescales (self : Annotator.t) (f : frame) :
  consistent self ->
  let s := f64.quotient (frame_height f) (snd (Annotator.reso self)) in
  (forall self',
      Annotator.update self f = Ok self' ->
      Forall2 (line_scaled_by s)
              (Draw.lines (Annotator.draw self)) (Annotator.ls self')
      /\ (Forall int_polygon (Draw.zones (Annotator.draw self)) ->
          Forall2 (zone_scaled_by s (frame_width f, frame_height f))
                  (Draw.zones (Annotator.draw self)) (Annotator.zs self'))
      /\ Forall2 (fun z a => PolygonZoneAnnotator.center a
                             = get_polygon_center (PolygonZone.polygon z))
                 (Annotator.zs self') (Annotator.zones self'))
  /\ (drawable (Annotator.draw self) ->
      (0 < fst (Annotator.reso self))%Z -> (0 < snd (Annotator.reso self))%Z ->
      (0 < frame_width f)%Z -> (0 < frame_height f)%Z ->
      is_Ok (Annotator.update self f)).
Proof.
  intros Hc s. split.
  - intros self' Hu.
    destruct (update_inv _ _ _ Hu)
      as (s' & origin & Hs & Hls & Hor & Hzs & Hlen & Hzones & _).
    apply scale_of_inv in Hs as [_ ->]. fold s in Hls, Hzs.
    split; [|split].
    + apply for_each_Forall2 in Hls.
      eapply Forall2_impl; [exact Hls|]. intros i lz. apply scaled_line_zone_inv.
    + intros _. eapply scaled_zones_inv; eassumption.
    + destruct Hc as (_ & Hc2 & Hc3).
      assert (Hl : length (Annotator.zs self') = length (Annotator.zones self)).
      { apply for_each_length in Hor. apply for_each_length in Hzs. lia. }
      rewrite Hzones. rewrite drop_ge by lia. rewrite app_nil_r.
      clear -Hl. revert Hl. generalize (Annotator.zones self).
      induction (Annotator.zs self') as [|z zs IH]; intros [|a zones] Hl;
        simpl in *; try discriminate; constructor; [reflexivity|].
      apply IH. lia.
  - intros Hn Hw Hh _ _.
    apply update_total; [|assumption | lia | assumption].
    destruct Hc as (_ & Hc2 & Hc3). lia.
Qed.

(** A later [update] does what it would have done on the pipeline
    before: the triggers are derived from the authored geometry each
    time. *)
Lemma update_update (self self' : Annotator.t) (f g : frame) :
  Annotator.update self f = Ok self' ->
  Annotator.update self' g = Annotator.update self g.
Proof.
  intros Hu.
  destruct (update_inv _ _ _ Hu)
    as (s & origin & Hs & Hls & Hor & Hzs & Hlen & Hzones
        & Hd & Hr & Hm & Hdp & Htw & Htc & Hln & Hbx).
  unfold Annotator.update.
  rewrite Hd, Hr, Hm, Hdp, Htw, Htc, Hln, Hbx.
  destruct (Annotator.scale_of g (Annotator.reso self)) as [sg|]; [|reflexivity].
  simpl.
  destruct (for_each (Annotator.scaled_line_zone sg) _) as [lsg|]; [|reflexivity].
  simpl. rewrite Hor. simpl.
  destruct (for_each (Annotator.scaled_polygon_zone sg _) origin)
    as [zsg|] eqn:Hzsg; [|reflexivity].
  simpl.
  assert (Hlg : length zsg = length (Annotator.zs self')).
  { apply for_each_length in Hzsg. apply for_each_length in Hzs. lia. }
  rewrite !retarget_0.
  assert (Hlz : length (Annotator.zones self') = length (Annotator.zones self)).
  { rewrite Hzones, length_app, length_zip_with, length_drop. lia. }
  rewrite Hlz. case_decide; [|reflexivity]. simpl.
  do 2 f_equal. rewrite Hzones.
  rewrite zip_with_app_r.
  assert (Hzl : length (zip_with recenter (Annotator.zs self')
                          (Annotator.zones self)) = length zsg)
    by (rewrite length_zip_with; lia).
  rewrite take_ge by lia. rewrite (drop_ge zsg) by lia. simpl.
  rewrite app_nil_r. rewrite zip_with_recenter_twice by lia.
  f_equal. rewrite drop_app_length'; [|lia]. by rewrite Hlg.
Qed.

(** C3, as the code has it: the geometry that is kept in the coordinate
    space of the current resolution is that of the trigger objects. After
    construction they sit at the authored geometry, in the recorded
    resolution. After every [update] that returns they sit at the
    authored geometry rescaled by the height of the frame over the
    recorded height, in the resolution of the frame, whatever updates
    came before. (The zones of the DrawSet are taken to be polygons of
    integers.) The DrawSet and the recorded resolution stay as
    authored. *)
Theorem trigger_geometry_follows_frame :
  (forall model reso draw display tweak self,
      Annotator.init model reso draw display tweak = Ok self ->
      Annotator.draw self = draw
      /\ Annotator.reso self = reso
      /\ Forall2 line_at (Draw.lines draw) (Annotator.ls self)
      /\ (Forall int_polygon (Draw.zones draw) ->
          Forall2 (zone_at reso) (Draw.zones draw) (Annotator.zs self)))
  /\ (forall self f self',
        Annotator.update self f = Ok self' ->
        let s := f64.quotient (frame_height f) (snd (Annotator.reso self)) in
        Annotator.draw self' = Annotator.draw self
        /\ Annotator.reso self' = Annotator.reso self
        /\ Forall2 (line_scaled_by s)
                   (Draw.lines (Annotator.draw self)) (Annotator.ls self')
        /\ (Forall int_polygon (Draw.zones (Annotator.draw self)) ->
            Forall2 (zone_scaled_by s (frame_width f, frame_height f))
                    (Draw.zones (Annotator.draw self)) (Annotator.zs self'))
        /\ forall g, Annotator.update self' g = Annotator.update self g).
Proof.
  split.
  - intros model reso draw display tweak self Hi. unfold Annotator.init in Hi.
    inv_bind Hi. rename a into ls, E into Hls.
    inv_bind Hi. rename a into zs, E into Hzs.
    inv_bind Hi. injection Hi as <-. simpl.
    split; [reflexivity|]. split; [reflexivity|]. split.
    + apply for_each_Forall2 in Hls. eapply Forall2_impl; [exact Hls|].
      intros i lz. apply line_zone_inv.
    + intros _. apply for_each_Forall2 in Hzs. eapply Forall2_impl; [exact Hzs|].
      intros p z Hz. by apply polygon_zone_inv in Hz as [Hz _].
  - intros self f self' Hu s.
    destruct (update_inv _ _ _ Hu)
      as (s' & origin & Hs & Hls & Hor & Hzs & _ & _ & Hd & Hr & _).
    apply scale_of_inv in Hs as [_ ->]. fold s in Hls, Hzs.
    split; [assumption|]. split; [assumption|]. split; [|split].
    + apply for_each_Forall2 in Hls.
      eapply Forall2_impl; [exact Hls|]. intros i lz. apply scaled_line_zone_inv.
    + intros _. eapply scaled_zones_inv; eassumption.
    + intros g. by apply (update_update self self' f g).
Qed.

(** C4, as the code has it: on a pipeline without geometry whose
    recorded height is not zero, [update] returns and leaves the pipeline
    as it was. *)
Theorem update_empty_draw_noop (self : Annotator.t) (f : frame) :
  consistent self ->
  Draw.lines (Annotator.draw self) = [] ->
  Draw.zones (Annotator.draw self) = [] ->
  snd (Annotator.reso self) <> 0%Z ->
  Annotator.update self f = Ok self.
Proof.
  intros (Hls & Hzs & Hzones) Hl Hz Hh. unfold Annotator.update.
  rewrite scale_of_Ok by assumption. rewrite Hl, Hz. simpl.
  rewrite Hl in Hls. rewrite Hz in Hzs. rewrite Hzs in Hzones.
  destruct self as [m r d dp tw ls zs tc ln bx zones]. simpl in *.
  destruct ls; [|discriminate]. destruct zs; [|discriminate].
  destruct zones; [|discriminate]. reflexivity.
Qed.

(** C10: [update] builds the line triggers anew from the authored line
    geometry. Whenever it returns, every line trigger it leaves is a new
    one at the end points of its line multiplied by the scale (the
    authored end points themselves, as floats, when the frame has the
    recorded height), with both crossing counters at zero and no crossing
    state, whatever the triggers before had counted. And it does return,
    for every frame that has pixels, on a pipeline whose lines are
    numeric and whose zones are polygons of integers, recorded at a
    resolution with positive sides. *)
Theorem update_resets_line_counters (self : Annotator.t) (f : frame) :
  consistent self ->
  let s := f64.quotient (frame_height f) (snd (Annotator.reso self)) in
  (forall self',
      Annotator.update self f = Ok self' ->
      Forall2 (line_scaled_by s)
              (Draw.lines (Annotator.draw self)) (Annotator.ls self')
      /\ Forall (fun l => LineZone.in_count l = 0%Z /\ LineZone.out_count l = 0%Z
                          /\ LineZone.tracker_state l = [])
                (Annotator.ls self'))
  /\ (drawable (Annotator.draw self) ->
      (0 < fst (Annotator.reso self))%Z -> (0 < snd (Annotator.reso self))%Z ->
      (0 < frame_width f)%Z -> (0 < frame_height f)%Z ->
      is_Ok (Annotator.update self f)).
Proof.
  intros Hc s. split.
  - intros self' Hu.
    destruct (update_inv _ _ _ Hu) as (s' & origin & Hs & Hls & _).
    apply scale_of_inv in Hs as [_ ->]. fold s in Hls.
    apply for_each_Forall2 in Hls.
    assert (Hscaled : Forall2 (line_scaled_by s)
                        (Draw.lines (Annotator.draw self)) (Annotator.ls self')).
    { eapply Forall2_impl; [exact Hls|]. intros i lz. apply scaled_line_zone_inv. }
    split; [exact Hscaled|].
    clear -Hscaled.
    induction Hscaled as [|i lz lines ls' Hi _ IH]; constructor; [|exact IH].
    destruct Hi as (? & ? & ? & ? & _ & _ & _ & _ & ->). repeat split.
  - intros Hn Hw Hh _ _.
    apply update_total; [|assumption | lia | assumption].
    destruct Hc as (_ & Hc2 & Hc3). lia.
Qed.

End Update.

(** ** The sample pipelines *)

(** The sample pipelines are what [__init__] builds on the reference
    backend from the geometry that [Draw.from_canvas] extracts. *)
Example sample_pipelines_built :
  Draw.from_canvas [line_record; rect_record] = Ok sample_draw
  /\ Annotator.init (sample_model "one_box.pt") (640, 480)%Z sample_draw
       display_off Tweak.default = Ok sample_pipeline
  /\ Annotator.init (sample_model "one_box.pt") (640, 480)%Z Draw.default
       display_off Tweak.default = Ok empty_pipeline
  /\ Annotator.init (sample_model "two_boxes.pt") (3, 45)%Z Draw.default
       display_color Tweak.default = Ok color_pipeline
  /\ Annotator.init tracking_model (8, 30)%Z gate_draw display_off
       Tweak.default = Ok gate_pipeline
  /\ Annotator.init (sample_model "one_box.pt") (640, 100)%Z slanted_draw
       display_off Tweak.default = Ok slanted_pipeline.
Proof. repeat split; vm_compute; reflexivity. Qed.

(** The tracked object is seen above the line in the first frame and
    below it in the second, which the line counts as one crossing out. *)
Example counted_pipeline_counts :
  (fst <$> (fst <$> Annotator.call gate_pipeline frame_above 0 1))
  = Ok seen_pipeline
  /\ (fst <$> (fst <$> Annotator.call seen_pipeline frame_below 0 1))
     = Ok counted_pipeline
  /\ map LineZone.out_count (Annotator.ls seen_pipeline) = [0%Z]
  /\ map LineZone.out_count (Annotator.ls counted_pipeline) = [1%Z].
Proof. repeat split; vm_compute; reflexivity. Qed.

Example update_doubles_the_line :
  Annotator.ls <$> Annotator.update sample_pipeline frame_960
  = Ok [LineZone.new (Point.mk (PFloat (f64.of_Q 0)) (PFloat (f64.of_Q 0)))
                     (Point.mk (PFloat (f64.of_Q 200)) (PFloat (f64.of_Q 0)))].
Proof. vm_compute. reflexivity. Qed.

Lemma sample_line_numeric : numeric_line line_geometry.
Proof. repeat split; eexists; reflexivity. Qed.

Lemma slanted_draw_drawable : drawable slanted_draw.
Proof.
  split; repeat constructor; try (eexists; reflexivity).
  eexists. repeat split; try reflexivity; try discriminate.
  repeat constructor.
Qed.

Lemma update_rescales_witness :
  consistent slanted_pipeline
  /\ drawable slanted_draw
  /\ frame_height frame_29 = 29%Z
  /\ snd (Annotator.reso slanted_pipeline) = 100%Z
  /\ exists self',
       Annotator.update slanted_pipeline frame_29 = Ok self'
       /\ Forall2 (line_scaled_by (f64.quotient 29 100)) [line_geometry]
                  (Annotator.ls self')
       /\ Forall2 (zone_scaled_by (f64.quotient 29 100) (1, 29)%Z) [slanted_zone]
                  (Annotator.zs self')
       /\ Forall2 (fun z a => PolygonZoneAnnotator.center a
                              = get_polygon_center (PolygonZone.polygon z))
                  (Annotator.zs self') (Annotator.zones self')
       /\ slanted_zone = PList [PList [PInt 1; PInt 1]; PList [PInt 100; PInt 1];
                                PList [PInt 100; PInt 3]]
       /\ map PolygonZone.polygon (Annotator.zs self')
          = [[[0; 0]; [28; 0]; [28; 0]]]%Z.
Proof.
  assert (Hc : consistent slanted_pipeline) by (repeat split).
  split; [exact Hc|]. split; [exact slanted_draw_drawable|].
  split; [vm_compute; reflexivity|]. split; [reflexivity|].
  destruct (update_rescales slanted_pipeline frame_29 Hc) as [Hres Hret].
  destruct Hret as [self' Hu].
  { exact slanted_draw_drawable. }
  { simpl. lia. }
  { simpl. lia. }
  { vm_compute. reflexivity. }
  { vm_compute. reflexivity. }
  destruct (Hres self' Hu) as (Hl & Hz & Ha).
  exists self'. split; [exact Hu|]. split; [exact Hl|].
  split; [exact (Hz (proj2 slanted_draw_drawable))|].
  split; [exact Ha|]. split; [reflexivity|].
  vm_compute in Hu. injection Hu as <-. reflexivity.
Defined.

Lemma trigger_geometry_follows_frame_witness :
  (Annotator.init (sample_model "one_box.pt") (640, 100)%Z slanted_draw
     display_off Tweak.default = Ok slanted_pipeline
   /\ Forall2 line_at [line_geometry] (Annotator.ls slanted_pipeline)
   /\ Forall2 (zone_at (640, 100)%Z) [slanted_zone] (Annotator.zs slanted_pipeline)
   /\ Annotator.ls slanted_pipeline
      = [LineZone.mk (Point.mk (PInt 0) (PInt 0)) (Point.mk (PInt 100) (PInt 0))
           [] 0 0]
   /\ Annotator.zs slanted_pipeline
      = [PolygonZone.mk [[1; 1]; [100; 1]; [100; 3]]%Z (640, 100)%Z 0])
  /\ exists self',
       Annotator.update slanted_pipeline frame_29 = Ok self'
       /\ Annotator.draw self' = slanted_draw
       /\ Annotator.reso self' = (640, 100)%Z
       /\ Forall2 (line_scaled_by (f64.quotient 29 100)) [line_geometry]
                  (Annotator.ls self')
       /\ Forall2 (zone_scaled_by (f64.quotient 29 100) (1, 29)%Z) [slanted_zone]
                  (Annotator.zs self')
       /\ (forall g, Annotator.update self' g
                     = Annotator.update slanted_pipeline g)
       /\ Annotator.zs self'
          = [PolygonZone.mk [[0; 0]; [28; 0]; [28; 0]]%Z (1, 29)%Z 0].
Proof.
  assert (Hi : Annotator.init (sample_model "one_box.pt") (640, 100)%Z
                 slanted_draw display_off Tweak.default = Ok slanted_pipeline)
    by (vm_compute; reflexivity).
  split.
  { split; [exact Hi|].
    destruct (proj1 trigger_geometry_follows_frame _ _ _ _ _ slanted_pipeline Hi)
      as (_ & _ & Hl & Hz).
    split; [exact Hl|]. split; [exact (Hz (proj2 slanted_draw_drawable))|].
    split; reflexivity. }
  destruct (Annotator.update slanted_pipeline frame_29) as [self'|e] eqn:Hu;
    [|vm_compute in Hu; discriminate Hu].
  destruct (proj2 trigger_geometry_follows_frame slanted_pipeline frame_29 self' Hu)
    as (Hd & Hr & Hl & Hz & Hg).
  exists self'. split; [reflexivity|]. split; [exact Hd|]. split; [exact Hr|].
  split; [exact Hl|]. split; [exact (Hz (proj2 slanted_draw_drawable))|].
  split; [exact Hg|].
  vm_compute in Hu. injection Hu as <-. reflexivity.
Defined.

(** C3 as stated fails: after [update] on a frame twice as high as the
    recorded resolution, the DrawSet still holds the authored line
    ((0,0),(100,0)) and the authored rectangle, not the rescaled
    geometry the line trigger now has. *)
Lemma update_leaves_draw_unscaled :
  Annotator.update sample_pipeline frame_960 = Ok rescaled_pipeline
  /\ Annotator.draw rescaled_pipeline = Draw.mk [line_geometry] [rect_polygon]
  /\ Annotator.ls rescaled_pipeline
     = [LineZone.new (Point.mk (PFloat (f64.of_Q 0)) (PFloat (f64.of_Q 0)))
                     (Point.mk (PFloat (f64.of_Q 200)) (PFloat (f64.of_Q 0)))]
  /\ rescale_draw (f64.of_Q 2) sample_draw
     = Ok (Draw.mk
             [PTuple [PTuple [PFloat (f64.of_Q 0); PFloat (f64.of_Q 0)];
                      PTuple [PFloat (f64.of_Q 200); PFloat (f64.of_Q 0)]]]
             [PList [PList [PInt 20; PInt 20]; PList [PInt 120; PInt 20];
                     PList [PInt 120; PInt 60]; PList [PInt 20; PInt 60]]])
  /\ Ok (Annotator.draw rescaled_pipeline) <> rescale_draw (f64.of_Q 2) sample_draw.
Proof.
  split; [vm_compute; reflexivity|].
  split; [reflexivity|]. split; [vm_compute; reflexivity|].
  split; [vm_compute; reflexivity|].
  vm_compute. discriminate.
Qed.

Lemma update_empty_draw_noop_witness :
  consistent empty_pipeline
  /\ Annotator.update empty_pipeline frame_960 = Ok empty_pipeline.
Proof.
  assert (Hc : consistent empty_pipeline) by (repeat split).
  split; [exact Hc|].
  refine (update_empty_draw_noop empty_pipeline frame_960 Hc eq_refl eq_refl _).
  simpl. lia.
Defined.

(** C4 as stated fails: a pipeline recorded at height zero, with no
    geometry at all, makes [update] raise. *)
Lemma update_zero_height_raises :
  Annotator.init (sample_model "none.pt") (640, 0)%Z Draw.default display_off
                 Tweak.default = Ok flat_pipeline
  /\ Draw.len (Annotator.draw flat_pipeline) = 0%nat
  /\ Annotator.update flat_pipeline frame_480 = Err ZeroDivisionError.
Proof. repeat split. Qed.

Lemma gate_draw_drawable : drawable gate_draw.
Proof. split; repeat constructor; eexists; reflexivity. Qed.

Lemma update_resets_line_counters_witness :
  map LineZone.out_count (Annotator.ls counted_pipeline) = [1%Z]
  /\ map LineZone.tracker_state (Annotator.ls counted_pipeline) = [[(1%Z, false)]]
  /\ frame_height frame_above = snd (Annotator.reso counted_pipeline)
  /\ exists self',
       Annotator.update counted_pipeline frame_above = Ok self'
       /\ Forall2 (line_scaled_by (f64.quotient 30 30)) [gate_line]
                  (Annotator.ls self')
       /\ Forall (fun l => LineZone.in_count l = 0%Z
                           /\ LineZone.out_count l = 0%Z
                           /\ LineZone.tracker_state l = [])
                 (Annotator.ls self')
       /\ gate_line = PTuple [PTuple [PInt 0; PInt 10]; PTuple [PInt 7; PInt 10]]
       /\ Annotator.ls self'
          = [LineZone.mk
               (Point.mk (PFloat (f64.of_Q 0)) (PFloat (f64.of_Q 10)))
               (Point.mk (PFloat (f64.of_Q 7)) (PFloat (f64.of_Q 10)))
               [] 0 0].
Proof.
  assert (Hc : consistent counted_pipeline) by (repeat split).
  split; [reflexivity|]. split; [reflexivity|].
  split; [vm_compute; reflexivity|].
  destruct (update_resets_line_counters counted_pipeline frame_above Hc)
    as [Hres Hret].
  destruct Hret as [self' Hu].
  { exact gate_draw_drawable. }
  { simpl. lia. }
  { simpl. lia. }
  { vm_compute. reflexivity. }
  { vm_compute. reflexivity. }
  destruct (Hres self' Hu) as (Hl & Hz).
  exists self'. split; [exact Hu|]. split; [exact Hl|]. split; [exact Hz|].
  split; [reflexivity|].
  vm_compute in Hu. injection Hu as <-. vm_compute. reflexivity.
Defined.

(** ** The annotation pass *)

Section Call.
Context `{Externals}.

Lemma line_loop_length (la : LineZoneAnnotator.t) (det : list Detection.t)
    (f : frame) (ls : list LineZone.t) :
  length (snd (Annotator.line_loop la det f ls)) = length ls.
Proof.
  revert f. induction ls as [|l ls IH]; intros f; simpl; [reflexivity|].
  specialize (IH (line_annotate la f (line_trigger l det))).
  destruct (Annotator.line_loop la det _ ls). simpl in *. by rewrite IH.
Qed.

Lemma zone_loop_length (det : list Detection.t) (f : frame)
    (zs : list PolygonZone.t) (zones : list PolygonZoneAnnotator.t) :
  length (snd (Annotator.zone_loop det f zs zones)) = length zs.
Proof.
  revert f zones. induction zs as [|z zs IH]; intros f zones; simpl.
  - by destruct zones.
  - destruct zones as [|a zones]; [reflexivity|].
    specialize (IH (zone_annotate a (zone_trigger z det) f) zones).
    destruct (Annotator.zone_loop det _ zs zones). simpl in *. by rewrite IH.
Qed.

(** The annotation pass keeps the invariant of the pipeline. *)
Lemma call_consistent (self self' : Annotator.t) (f f' res : frame)
    (begin now : Q) :
  consistent self ->
  Annotator.call self f begin now = Ok (self', f', res) -> consistent self'.
Proof.
  intros (Hc1 & Hc2 & Hc3). unfold Annotator.call. intros Hcall.
  inv_bind Hcall. destruct a as [det res0].
  inv_bind Hcall. inv_bind Hcall.
  pose proof (line_loop_length (Annotator.line self) det
                (if Display.area (Annotator.display self)
                 then Annotator.area_loop (Annotator.tweak self)
                        (Annotator.text_color self)
                        (if Display.mask (Annotator.display self)
                         then mask_annotate a0 det
                                (Display.mask_opacity (Annotator.display self))
                         else a0) det
                 else if Display.mask (Annotator.display self)
                      then mask_annotate a0 det
                             (Display.mask_opacity (Annotator.display self))
                      else a0)
                (Annotator.ls self)) as Hll.
  destruct (Annotator.line_loop _ det _ (Annotator.ls self)) as [f1 ls'].
  pose proof (zone_loop_length det f1 (Annotator.zs self)
                (Annotator.zones self)) as Hzl.
  destruct (Annotator.zone_loop det f1 _ _) as [f2 zs'].
  inv_bind Hcall. injection Hcall as <- _ _. unfold consistent. simpl in *.
  repeat split; congruence.
Qed.

(** C1, as the code has it: with every toggle off and no line and no
    zone in the pipeline, the pass returns the frame it was given (and
    the model's preview next to it); the pipeline is left as it was. *)
Theorem call_all_off_no_geometry (self : Annotator.t) (f : frame)
    (begin now : Q) (det : list Detection.t) (res : frame) :
  all_off (Annotator.display self) ->
  consistent self ->
  Draw.lines (Annotator.draw self) = [] ->
  Draw.zones (Annotator.draw self) = [] ->
  Model.det (Annotator.model self) f = Ok (det, res) ->
  Annotator.call self f begin now = Ok (self, f, res).
Proof.
  intros (Hfps & Hcol & Hbox & Hmask & Harea) (Hls & Hzs & _) Hl Hz Hdet.
  unfold Annotator.call. rewrite Hdet. simpl.
  rewrite Hfps, Hcol, Hbox, Hmask, Harea. simpl.
  rewrite Hl in Hls. rewrite Hz in Hzs.
  destruct self as [m r d dp tw ls zs tc ln bx zones]. simpl in *.
  destruct ls; [|discriminate]. destruct zs; [|discriminate]. reflexivity.
Qed.

(** With every toggle off, the returned frame is the frame that came in
    with the lines and then the zones of the pipeline painted on it. *)
Lemma call_all_off (self : Annotator.t) (f : frame) (begin now : Q)
    (det : list Detection.t) (res : frame) :
  all_off (Annotator.display self) ->
  Model.det (Annotator.model self) f = Ok (det, res) ->
  exists self',
    Annotator.call self f begin now
    = Ok (self',
          fst (Annotator.zone_loop det
                 (fst (Annotator.line_loop (Annotator.line self) det f
                         (Annotator.ls self)))
                 (Annotator.zs self) (Annotator.zones self)),
          res).
Proof.
  intros (Hfps & Hcol & Hbox & Hmask & Harea) Hdet.
  unfold Annotator.call. rewrite Hdet. simpl.
  rewrite Hfps, Hcol, Hbox, Hmask, Harea. simpl.
  destruct (Annotator.line_loop _ det f _) as [f1 ls']. simpl.
  destruct (Annotator.zone_loop det f1 _ _) as [f2 zs']. simpl.
  eexists. reflexivity.
Qed.

(** The colour loop reads its first crop from the frame as it came in:
    for a single detection it is the loop of the specification. *)
Lemma color_loop_single (tw : Tweak.t) (f : frame) (bb : Z * Z * Z * Z) :
  Annotator.color_loop tw f [bb] = color_loop_original tw f f [bb].
Proof. reflexivity. Qed.

(** Every later crop is read from the buffer that holds the labels
    painted so far. *)
Lemma color_loop_cons (tw : Tweak.t) (f : frame) (bb : Z * Z * Z * Z)
    (bbs : list (Z * Z * Z * Z)) :
  Annotator.color_loop tw f (bb :: bbs)
  = f' ← color_step_from tw f f bb; Annotator.color_loop tw f' bbs.
Proof. reflexivity. Qed.

End Call.

Lemma call_all_off_no_geometry_witness :
  all_off (Annotator.display empty_pipeline)
  /\ Annotator.call empty_pipeline (blank 2 2 (1, 2, 3)%Z) 0 1
     = Ok (empty_pipeline, blank 2 2 (1, 2, 3)%Z, blank 2 2 (3, 2, 1)%Z).
Proof.
  assert (Ho : all_off (Annotator.display empty_pipeline)) by (repeat split).
  assert (Hc : consistent empty_pipeline) by (repeat split).
  split; [exact Ho|].
  exact (call_all_off_no_geometry empty_pipeline (blank 2 2 (1, 2, 3)%Z) 0 1
           [sample_detection] (blank 2 2 (3, 2, 1)%Z) Ho Hc eq_refl eq_refl eq_refl).
Defined.

(** C1 as stated fails: with every toggle off, a pipeline that holds a
    line still paints it. The line of the sample pipeline starts at
    (0,0): its end disc, of radius 5 and in the text colour (black),
    covers a grey frame of two by two pixels, which comes back black. *)
Lemma call_all_off_paints_lines :
  all_off (Annotator.display sample_pipeline)
  /\ Annotator.call sample_pipeline grey_2x2 0 1
     = Ok (sample_pipeline, blank 2 2 (0, 0, 0)%Z, grey_2x2)
  /\ grey_2x2 = blank 2 2 (126, 126, 126)%Z
  /\ blank 2 2 (0, 0, 0)%Z <> grey_2x2.
Proof.
  split; [repeat split|]. split; [vm_compute; reflexivity|].
  split; [reflexivity|]. discriminate.
Qed.

(** C7: on a grey frame with two detections, the label of the first
    (painted at its centre, twenty rows down) falls into the box of the
    second. The loop crops the second box from the painted buffer and
    classifies it as the second palette entry, white; cropped from the
    frame as it came in it is the first, black, and the returned frames
    differ in the label of the second detection. *)
Theorem color_loop_crops_painted_frame :
  let grey := (126, 126, 126)%Z in
  let white := (255, 255, 255)%Z in
  let black := (0, 0, 0)%Z in
  let f1 := set_rows grey_frame [(21%nat, [grey; white; black])] in
  Annotator.color_step Tweak.default grey_frame (0, 0, 2, 2)%Z = Ok f1
  /\ crop f1 (1, 21, 2, 23)%Z = [[white]; [grey]]
  /\ crop grey_frame (1, 21, 2, 23)%Z = [[grey]; [grey]]
  /\ (rgb ← avg_rgb (crop f1 (1, 21, 2, 23)%Z); closest rgb ycc_colors)
     = Ok 1%nat
  /\ (rgb ← avg_rgb (crop grey_frame (1, 21, 2, 23)%Z); closest rgb ycc_colors)
     = Ok 0%nat
  /\ Annotator.call color_pipeline grey_frame 0 1
     = Ok (color_pipeline,
           set_rows grey_frame [(21%nat, [grey; white; black]);
                                (42%nat, [grey; black; white])],
           grey_frame)
  /\ color_loop_original Tweak.default grey_frame grey_frame
       [(0, 0, 2, 2); (1, 21, 2, 23)]%Z
     = Ok (set_rows grey_frame [(21%nat, [grey; white; black]);
                                (42%nat, [grey; white; black])]).
Proof. repeat split; vm_compute; reflexivity. Qed.

(** ** The configuration codec *)

(** Writing a value to a JSON document and reading it back gives the
    value with its tuples turned into lists. *)
Lemma json_roundtrip (v : pyval) : json_load (json_dump v) = listify v.
Proof.
  induction v as [| | | | |l IH|l IH|d IH]; simpl; try reflexivity.
  - f_equal. rewrite map_map. induction IH; simpl; [reflexivity|]. congruence.
  - f_equal. rewrite map_map. induction IH; simpl; [reflexivity|]. congruence.
  - f_equal. rewrite map_map.
    induction IH as [|kv Hkv d' _ IHd]; simpl; [reflexivity|].
    destruct Hkv as [k u v Hv]. simpl. rewrite Hv. f_equal. exact IHd.
Qed.

Lemma listify_tuple_free (v : pyval) : tuple_free v = true -> listify v = v.
Proof.
  induction v as [| | | | |l IH|l IH|d IH]; simpl; try reflexivity;
    try discriminate.
  - intros Hl. f_equal. induction IH as [|v Hv l' _ IHl]; simpl in *;
      [reflexivity|].
    apply andb_true_iff in Hl as [Hv' Hl']. rewrite Hv, IHl by assumption.
    reflexivity.
  - intros Hd. f_equal. induction IH as [|kv Hkv d' _ IHd]; simpl in *;
      [reflexivity|].
    apply andb_true_iff in Hd as [Hv' Hd']. destruct Hkv as [k u v Hv].
    simpl in *. rewrite Hv, IHd by assumption. reflexivity.
Qed.

Lemma map_listify_tuple_free (l : list pyval) :
  forallb tuple_free l = true -> map listify l = l.
Proof.
  induction l as [|v l IH]; simpl; [reflexivity|]. intros Hl.
  apply andb_true_iff in Hl as [Hv Hl].
  rewrite listify_tuple_free, IH by assumption. reflexivity.
Qed.

Lemma listify_draw_tuple_free (d : Draw.t) :
  tuple_free_draw d = true -> listify_draw d = d.
Proof.
  destruct d as [ls zs]. unfold tuple_free_draw, listify_draw. simpl.
  intros Hd. apply andb_true_iff in Hd as [Hl Hz].
  rewrite !map_listify_tuple_free by assumption. reflexivity.
Qed.

Lemma map_listify_ints (l : list Z) : map listify (map PInt l) = map PInt l.
Proof. rewrite map_map. reflexivity. Qed.

Lemma check_ints (l : list Z) : for_each check_int (map PInt l) = Ok l.
Proof.
  induction l as [|n l IH]; simpl; [reflexivity|]. rewrite IH. reflexivity.
Qed.

(** Each dataclass comes back from its document as it went in. *)
Lemma from_dict_asdict_ModelInfo (i : ModelInfo.t) :
  from_dict_ModelInfo (listify (asdict_ModelInfo i)) = Ok i.
Proof.
  destruct i as [p cl v t c tr]. unfold asdict_ModelInfo. simpl.
  rewrite map_listify_ints.
  unfold from_dict_ModelInfo, field, field_data. simpl.
  rewrite check_ints. simpl. destruct c, tr; reflexivity.
Qed.

Lemma from_dict_asdict_Display (d : Display.t) :
  from_dict_Display (listify (asdict_Display d)) = Ok d.
Proof. destruct d as [? ? ? ? ? [| |] ?]; reflexivity. Qed.

Lemma from_dict_asdict_Tweak (t : Tweak.t) :
  from_dict_Tweak (listify (asdict_Tweak t)) = Ok t.
Proof. destruct t as [? [| |] ? ? ?]; reflexivity. Qed.

Lemma from_dict_asdict_Draw (d : Draw.t) :
  from_dict_Draw (listify (asdict_Draw d)) = Ok (listify_draw d).
Proof. destruct d. reflexivity. Qed.

(** Indexing and [np.array] do not tell a tuple from a list. *)
Lemma string_chars_listify (s : string) (n : nat) (c : pyval) :
  string_chars s !! n = Some c -> listify c = c.
Proof.
  revert n. induction s as [|a s IH]; intros [|n]; simpl; try discriminate.
  - by intros [= <-].
  - apply IH.
Qed.

Lemma getitem_idx_listify (v : pyval) (n : nat) :
  py_getitem_idx (listify v) n = listify <$> py_getitem_idx v n.
Proof.
  destruct v; simpl; try reflexivity.
  - destruct (string_chars s !! n) eqn:Hn; simpl; [|reflexivity].
    by rewrite (string_chars_listify _ _ _ Hn).
  - rewrite list_lookup_fmap. destruct (l !! n); reflexivity.
  - rewrite list_lookup_fmap. destruct (l !! n); reflexivity.
Qed.

Lemma as_number_listify (v : pyval) : as_number (listify v) = as_number v.
Proof. destruct v; reflexivity. Qed.

Lemma listify_number (v : pyval) : is_Some (as_number v) -> listify v = v.
Proof. destruct v; simpl; intros [m Hm]; try discriminate; reflexivity. Qed.

Lemma for_each_listify {A} (body : pyval -> result A) (l : list pyval) :
  (forall v, body (listify v) = body v) ->
  for_each body (map listify l) = for_each body l.
Proof.
  intros Hb. induction l as [|x l IH]; simpl; [reflexivity|].
  by rewrite Hb, IH.
Qed.

Lemma row_of_listify (v : pyval) : np.row_of (listify v) = np.row_of v.
Proof.
  assert (Hcells : forall l,
            (if forallb (fun x => bool_decide (is_Some (as_number x)))
                        (map listify l)
             then Ok (map listify l) else Err ValueError)
            = (if forallb (fun x => bool_decide (is_Some (as_number x))) l
               then Ok l else Err ValueError)).
  { induction l as [|c l IH]; [reflexivity|]. simpl.
    rewrite as_number_listify.
    destruct (bool_decide (is_Some (as_number c))) eqn:Hc; [|reflexivity].
    simpl. apply bool_decide_eq_true in Hc. rewrite (listify_number c Hc).
    destruct (forallb _ (map listify l)), (forallb _ l); congruence. }
  destruct v; simpl; try reflexivity; apply Hcells.
Qed.

Lemma array_listify (p : pyval) : np.array (listify p) = np.array p.
Proof.
  destruct p; simpl; try reflexivity;
    by rewrite (for_each_listify _ _ row_of_listify).
Qed.

Section Codec.
Context `{Externals}.

Lemma line_zone_listify (i : pyval) :
  is_Ok (Annotator.line_zone i) -> is_Ok (Annotator.line_zone (listify i)).
Proof.
  intros [lz Hz]. unfold Annotator.line_zone in *.
  inv_bind Hz. rename a into i0, E into Hi0.
  inv_bind Hz. rename a into a0, E into Ha0.
  inv_bind Hz. rename a into b0, E into Hb0.
  inv_bind Hz. rename a into i1, E into Hi1.
  inv_bind Hz. rename a into c0, E into Hc0.
  inv_bind Hz. rename a into d0, E into Hd0.
  rewrite (getitem_idx_listify i 0), Hi0. simpl.
  rewrite (getitem_idx_listify i0 0), Ha0. simpl.
  rewrite (getitem_idx_listify i0 1), Hb0. simpl.
  rewrite (getitem_idx_listify i 1), Hi1. simpl.
  rewrite (getitem_idx_listify i1 0), Hc0. simpl.
  rewrite (getitem_idx_listify i1 1), Hd0. simpl. eexists. reflexivity.
Qed.

(** A configuration that can be built can still be built after its
    tuples have become lists, at any resolution and with any model. *)
Lemma init_listify (m m' : Model.t) (r r' : Z * Z) (d : Draw.t)
    (dp : Display.t) (tw : Tweak.t) :
  Draw.zones d = [] \/ (0 < fst r' /\ 0 < snd r')%Z ->
  is_Ok (Annotator.init m r d dp tw) ->
  exists self', Annotator.init m' r' (listify_draw d) dp tw = Ok self'
                /\ Annotator.model self' = m' /\ Annotator.reso self' = r'
                /\ Annotator.draw self' = listify_draw d
                /\ Annotator.display self' = dp /\ Annotator.tweak self' = tw.
Proof.
  intros Hr' [self Hi]. unfold Annotator.init in *.
  inv_bind Hi. rename a into ls, E into Hls.
  inv_bind Hi. rename a into zs, E into Hzs.
  inv_bind Hi. rename a into tc, E into Htc.
  destruct (for_each_total Annotator.line_zone (map listify (Draw.lines d)))
    as [ls' Hls'].
  { apply for_each_Forall2 in Hls. apply Forall_fmap.
    eapply Forall2_Forall_l; [exact Hls|]. apply Forall_forall.
    intros lz _ i Hlz. apply line_zone_listify. by exists lz. }
  destruct (for_each_total (Annotator.polygon_zone r')
              (map listify (Draw.zones d))) as [zs' Hzs'].
  { destruct Hr' as [-> | [Hw' Hh']]; [constructor|].
    apply for_each_Forall2 in Hzs. apply Forall_fmap.
    eapply Forall2_Forall_l; [exact Hzs|]. apply Forall_forall.
    intros z _ p Hz. simpl. unfold Annotator.polygon_zone in *.
    rewrite array_listify. inv_bind Hz. rewrite E. simpl.
    apply PolygonZone_init_inv in Hz as (rows & -> & _ & Hne & Hlen & _).
    rewrite (PolygonZone_init_Ok rows r' Hne Hlen) by lia.
    eexists. reflexivity. }
  unfold listify_draw. cbn [Draw.lines Draw.zones].
  rewrite Hls'. cbn [mbind result_bind]. rewrite Hzs'. cbn [mbind result_bind].
  rewrite Htc. cbn [mbind result_bind].
  eexists. repeat split.
Qed.

Lemma getitem_document (a b c d : pyval) :
  let doc := PDict [("model", a); ("draw", b); ("display", c); ("tweak", d)] in
  py_getitem_key doc "model" = Ok a /\ py_getitem_key doc "draw" = Ok b
  /\ py_getitem_key doc "display" = Ok c /\ py_getitem_key doc "tweak" = Ok d.
Proof. repeat split. Qed.

Lemma listify_dict (self : Annotator.t) :
  listify (Annotator.dict self)
  = PDict [("model", listify (asdict_ModelInfo (Model.info (Annotator.model self))));
           ("draw", listify (asdict_Draw (Annotator.draw self)));
           ("display", listify (asdict_Display (Annotator.display self)));
           ("tweak", listify (asdict_Tweak (Annotator.tweak self)))].
Proof. reflexivity. Qed.

(** [load] after [dump] builds the pipeline anew from the dumped
    configuration, its tuples turned into lists. *)
Lemma load_dump_init (self : Annotator.t) (path : string) (reso : Z * Z)
    (fs : files) :
  Annotator.load path reso (Annotator.dump self path fs)
  = Annotator.init (Model.init (Model.info (Annotator.model self))) reso
      (listify_draw (Annotator.draw self)) (Annotator.display self)
      (Annotator.tweak self).
Proof.
  unfold Annotator.load, Annotator.dump.
  rewrite lookup_insert_eq. rewrite json_roundtrip.
  rewrite listify_dict. cbn [mbind result_bind].
  destruct (getitem_document
              (listify (asdict_ModelInfo (Model.info (Annotator.model self))))
              (listify (asdict_Draw (Annotator.draw self)))
              (listify (asdict_Display (Annotator.display self)))
              (listify (asdict_Tweak (Annotator.tweak self))))
    as (-> & -> & -> & ->).
  cbn [mbind result_bind].
  rewrite from_dict_asdict_ModelInfo. cbn [mbind result_bind].
  rewrite from_dict_asdict_Display. cbn [mbind result_bind].
  rewrite from_dict_asdict_Tweak. cbn [mbind result_bind].
  rewrite from_dict_asdict_Draw. cbn [mbind result_bind].
  reflexivity.
Qed.

Lemma Model_init_info (i : ModelInfo.t) : Model.info (Model.init i) = i.
Proof.
  destruct i as [p cl v t c tr]. unfold Model.init. simpl.
  destruct (bool_decide (v = "rtdetr")); reflexivity.
Qed.

Lemma init_fields (model : Model.t) (reso : Z * Z) (draw : Draw.t)
    (display : Display.t) (tweak : Tweak.t) (self : Annotator.t) :
  Annotator.init model reso draw display tweak = Ok self ->
  Annotator.model self = model /\ Annotator.reso self = reso
  /\ Annotator.draw self = draw /\ Annotator.display self = display
  /\ Annotator.tweak self = tweak.
Proof.
  unfold Annotator.init. intros Hi.
  inv_bind Hi. inv_bind Hi. inv_bind Hi. injection Hi as <-. simpl. auto.
Qed.

(** C8, as the code has it: whenever [load] after [dump] returns, the
    loaded pipeline has the model information, the display configuration
    and the render configuration that were dumped, exactly; its DrawSet
    is the dumped one with its tuples turned into lists, and exactly the
    dumped one when that holds no tuple. The model is built anew from the
    model information. And [load] does return when the dumped pipeline
    could be built and the resolution given to [load] has positive sides
    (whatever the resolution when the DrawSet holds no zone: a zone
    cannot be built at a negative resolution,
    [load_negative_resolution_raises]). *)
Theorem load_dump_roundtrip (self : Annotator.t) (path : string)
    (reso : Z * Z) (fs : files) :
  (forall self',
      Annotator.load path reso (Annotator.dump self path fs) = Ok self' ->
      Annotator.model self' = Model.init (Model.info (Annotator.model self))
      /\ Model.info (Annotator.model self') = Model.info (Annotator.model self)
      /\ Annotator.display self' = Annotator.display self
      /\ Annotator.tweak self' = Annotator.tweak self
      /\ Annotator.draw self' = listify_draw (Annotator.draw self)
      /\ (tuple_free_draw (Annotator.draw self) = true ->
          Annotator.draw self' = Annotator.draw self))
  /\ (constructible self ->
      Draw.zones (Annotator.draw self) = [] \/ (0 < fst reso /\ 0 < snd reso)%Z ->
      is_Ok (Annotator.load path reso (Annotator.dump self path fs))).
Proof.
  rewrite load_dump_init. split.
  - intros self' Hi. apply init_fields in Hi as (Hm & _ & Hd & Hdp & Htw).
    split; [exact Hm|]. split; [rewrite Hm; apply Model_init_info|].
    split; [exact Hdp|]. split; [exact Htw|]. split; [exact Hd|].
    intros Htf. rewrite Hd. by apply listify_draw_tuple_free.
  - intros Hc Hr0.
    destruct (init_listify (Annotator.model self)
                (Model.init (Model.info (Annotator.model self)))
                (Annotator.reso self) reso (Annotator.draw self)
                (Annotator.display self) (Annotator.tweak self) Hr0 Hc)
      as (self' & Hi & _).
    by exists self'.
Qed.

End Codec.

Lemma load_dump_roundtrip_witness :
  constructible sample_pipeline
  /\ exists self',
       Annotator.load "config.json" (1280, 960)%Z
         (Annotator.dump sample_pipeline "config.json" ∅) = Ok self'
       /\ Annotator.model self'
          = Model.init (Model.info (Annotator.model sample_pipeline))
       /\ Model.info (Annotator.model self')
          = Model.info (Annotator.model sample_pipeline)
       /\ Annotator.display self' = Annotator.display sample_pipeline
       /\ Annotator.tweak self' = Annotator.tweak sample_pipeline
       /\ Annotator.draw self' = listify_draw (Annotator.draw sample_pipeline)
       /\ (tuple_free_draw (Annotator.draw sample_pipeline) = true ->
           Annotator.draw self' = Annotator.draw sample_pipeline).
Proof.
  assert (Hc : constructible sample_pipeline)
    by (eexists; vm_compute; reflexivity).
  split; [exact Hc|].
  destruct (load_dump_roundtrip sample_pipeline "config.json" (1280, 960)%Z ∅)
    as [Hfields Hret].
  destruct Hret as [self' Hl]; [exact Hc | right; simpl; lia |].
  exists self'. split; [exact Hl|]. exact (Hfields self' Hl).
Defined.

(** C8 as stated fails: the line that [Draw.from_canvas] gives is a
    tuple of tuples, and it comes back from the document as a list of
    lists, which is not equal to it. *)
Lemma load_dump_turns_tuples_into_lists :
  Draw.from_canvas [line_record; rect_record] = Ok (Annotator.draw sample_pipeline)
  /\ exists self',
       Annotator.load "config.json" (640, 480)%Z
         (Annotator.dump sample_pipeline "config.json" ∅) = Ok self'
       /\ Draw.lines (Annotator.draw sample_pipeline)
          = [PTuple [PTuple [PInt 0; PInt 0]; PTuple [PInt 100; PInt 0]]]
       /\ Draw.lines (Annotator.draw self')
          = [PList [PList [PInt 0; PInt 0]; PList [PInt 100; PInt 0]]]
       /\ Annotator.draw self' <> Annotator.draw sample_pipeline.
Proof.
  split; [reflexivity|].
  eexists. split; [rewrite load_dump_init; vm_compute; reflexivity|].
  split; [reflexivity|]. split; [reflexivity|]. discriminate.
Qed.

(** At a resolution with a negative side the zone of the dumped
    configuration cannot be built anew, and [load] raises. *)
Example load_negative_resolution_raises :
  Annotator.load "config.json" (640, -480)%Z
    (Annotator.dump sample_pipeline "config.json" ∅) = Err ValueError.
Proof. rewrite load_dump_init. vm_compute. reflexivity. Qed.

(** * Further properties of the code *)

(** ** Shape extraction *)

Lemma for_each_app {A B} (body : A -> result B) xs ys :
  for_each body (xs ++ ys)
  = vs ← for_each body xs; ws ← for_each body ys; Ok (vs ++ ws).
Proof.
  induction xs as [|x xs IH]; simpl.
  - destruct (for_each body ys); reflexivity.
  - destruct (body x) as [v|]; simpl; [|reflexivity]. rewrite IH.
    destruct (for_each body xs); simpl; [|reflexivity].
    destruct (for_each body ys); reflexivity.
Qed.

Lemma comprehension_app {A B} (cond : A -> result bool) (body : A -> result B)
    d1 d2 :
  comprehension cond body (d1 ++ d2)
  = vs ← comprehension cond body d1; ws ← comprehension cond body d2;
    Ok (vs ++ ws).
Proof.
  induction d1 as [|i d1 IH]; simpl.
  - destruct (comprehension cond body d2); reflexivity.
  - destruct (cond i) as [[|]|]; simpl; [|exact IH|reflexivity].
    destruct (body i) as [v|]; simpl; [|reflexivity]. rewrite IH.
    destruct (comprehension cond body d1); simpl; [|reflexivity].
    destruct (comprehension cond body d2); reflexivity.
Qed.

(** What a call of [Draw.from_canvas] that returns has computed: the
    lines, the path polygons and the rectangle polygons, each kind in the
    order of its records. *)
Lemma from_canvas_inv (d : list pyval) (dr : Draw.t) :
  Draw.from_canvas d = Ok dr ->
  exists ps rs,
    Forall2 (fun r g => Draw.canvas_line r = Ok g)
            (records_of "line" d) (Draw.lines dr)
    /\ Forall2 (fun r p => Draw.canvas_path r = Ok p) (records_of "path" d) ps
    /\ Forall2 (fun r p => Draw.canvas_rect r = Ok p) (records_of "rect" d) rs
    /\ Draw.zones dr = ps ++ rs.
Proof.
  unfold Draw.from_canvas. intros H.
  inv_bind H. inv_bind H. inv_bind H. inv_bind H. inv_bind H.
  injection H as <-. simpl. eexists _, _. split; [|split; [|split]].
  - by apply comprehension_filter.
  - eapply staged_paths; eassumption.
  - by apply comprehension_filter.
  - reflexivity.
Qed.

(** A record is of one kind at most. *)
Lemma type_is_exclusive (i : pyval) (k1 k2 : string) :
  Draw.type_is k1 i = Ok true -> Draw.type_is k2 i = Ok true -> k1 = k2.
Proof.
  unfold Draw.type_is. destruct (py_getitem_key i "type") as [t|]; simpl;
    [|discriminate].
  destruct t; simpl; try discriminate.
  intros [= H1] [= H2]. apply bool_decide_eq_true in H1, H2. congruence.
Qed.

Lemma records_of_kinds (d : list pyval) :
  (length (records_of "line" d) + length (records_of "path" d)
   + length (records_of "rect" d) <= length d)%nat.
Proof.
  unfold records_of. induction d as [|i d IH]; [reflexivity|].
  rewrite !filter_cons.
  destruct (decide (Draw.type_is "line" i = Ok true)) as [Hl|_];
    destruct (decide (Draw.type_is "path" i = Ok true)) as [Hp|_];
    destruct (decide (Draw.type_is "rect" i = Ok true)) as [Hr|_];
    simpl; try lia.
  - discriminate (type_is_exclusive i _ _ Hl Hp).
  - discriminate (type_is_exclusive i _ _ Hl Hp).
  - discriminate (type_is_exclusive i _ _ Hl Hr).
  - discriminate (type_is_exclusive i _ _ Hp Hr).
Qed.

(** X1: when [Draw.from_canvas] returns, the length of the DrawSet is the
    number of line, path and rectangle records of the input, and so at
    most the number of records. *)
Theorem from_canvas_len (d : list pyval) (dr : Draw.t) :
  Draw.from_canvas d = Ok dr ->
  Draw.len dr
  = (length (records_of "line" d) + length (records_of "path" d)
     + length (records_of "rect" d))%nat
  /\ (Draw.len dr <= length d)%nat.
Proof.
  intros H. destruct (from_canvas_inv d dr H) as (ps & rs & Hl & Hp & Hr & Hz).
  apply Forall2_length in Hl, Hp, Hr. unfold Draw.len. rewrite Hz, length_app.
  pose proof (records_of_kinds d). split; lia.
Qed.

Lemma from_canvas_len_witness :
  Draw.from_canvas [rect_record; circle_record; line_record; path_record]
  = Ok (Draw.mk [line_geometry] [path_polygon; rect_polygon])
  /\ Draw.len (Draw.mk [line_geometry] [path_polygon; rect_polygon]) = 3%nat
  /\ (Draw.len (Draw.mk [line_geometry] [path_polygon; rect_polygon]) <= 4)%nat.
Proof.
  split; [reflexivity|].
  exact (from_canvas_len
           [rect_record; circle_record; line_record; path_record]
           (Draw.mk [line_geometry] [path_polygon; rect_polygon])
           eq_refl).
Defined.

Lemma length_removelast {A} (l : list A) :
  length (removelast l) = (length l - 1)%nat.
Proof.
  induction l as [|x [|y l] IH]; simpl in *; try reflexivity. rewrite IH. lia.
Qed.

(** X2: a path record with N commands gives a polygon of N-1 vertices
    (none for an empty path): the last command is dropped unread, and
    vertex k holds the elements 1 and 2 of command k. *)
Theorem canvas_path_vertices (i p : pyval) (cmds : list pyval) :
  py_getitem_key i "path" = Ok (PList cmds) ->
  Draw.canvas_path i = Ok p ->
  exists vs,
    p = PList vs
    /\ length vs = (length cmds - 1)%nat
    /\ Forall2 (fun c v => exists a b,
                  py_getitem_idx c 1 = Ok a /\ py_getitem_idx c 2 = Ok b
                  /\ v = PList [a; b])
               (removelast cmds) vs.
Proof.
  intros Hpath. unfold Draw.canvas_path. rewrite Hpath. simpl.
  unfold Draw.path_polygon. simpl. intros Hp. inv_bind Hp.
  injection Hp as <-. exists a. split; [reflexivity|].
  apply for_each_Forall2 in E. split.
  - apply Forall2_length in E. rewrite <- E. apply length_removelast.
  - eapply Forall2_impl; [exact E|]. intros c v Hv.
    unfold Draw.path_vertex in Hv. inv_bind Hv. inv_bind Hv.
    injection Hv as <-. eauto.
Qed.

Lemma canvas_path_vertices_witness :
  Draw.canvas_path path_record = Ok path_polygon
  /\ exists vs,
       path_polygon = PList vs
       /\ length vs = 3%nat
       /\ Forall2 (fun c v => exists a b,
                     py_getitem_idx c 1 = Ok a /\ py_getitem_idx c 2 = Ok b
                     /\ v = PList [a; b])
                  [PList [PStr "M"; PInt 1; PInt 2];
                   PList [PStr "L"; PInt 3; PInt 4];
                   PList [PStr "L"; PInt 5; PInt 6]] vs.
Proof.
  split; [reflexivity|].
  exact (canvas_path_vertices path_record path_polygon
           [PList [PStr "M"; PInt 1; PInt 2]; PList [PStr "L"; PInt 3; PInt 4];
            PList [PStr "L"; PInt 5; PInt 6]; PList [PStr "z"]]
           eq_refl eq_refl).
Defined.

(** *** Records with numeric fields *)

(** The integers up to 2^54 are within the floats. *)
Example overflow_threshold_rounds :
  f64.is_finite (f64.of_int64 (f64.overflow_threshold - 1)) = true
  /\ f64.is_finite (f64.of_int64 f64.overflow_threshold) = false
  /\ f64.is_finite (f64.of_int64 (1 - f64.overflow_threshold)) = true
  /\ f64.is_finite (f64.of_int64 (- f64.overflow_threshold)) = false.
Proof. repeat split; vm_compute; reflexivity. Qed.

Lemma of_int_Ok (z : Z) :
  (Z.abs z <= 2 ^ 54)%Z -> f64.of_int z = Ok (f64.of_int64 z).
Proof.
  intros Hz. unfold f64.of_int.
  assert (Hlt : (2 ^ 54 < f64.overflow_threshold)%Z) by (vm_compute; reflexivity).
  destruct (Z.ltb_spec (Z.abs z) f64.overflow_threshold); [reflexivity | lia].
Qed.

Lemma to_float_canvas_number (n : number) :
  canvas_number n -> is_Ok (to_float n).
Proof.
  destruct n as [z|x]; simpl; intros Hn; [|by eexists].
  rewrite of_int_Ok; [by eexists|]. lia.
Qed.

(** The sum of two numbers of the canvas is a number that a float
    holds. *)
Lemma py_add_numbers (a b : pyval) (na nb : number) :
  as_number a = Some na -> as_number b = Some nb ->
  canvas_number na -> canvas_number nb ->
  exists v n, py_add a b = Ok v /\ as_number v = Some n /\ is_Ok (to_float n).
Proof.
  intros Ha Hb Hna Hnb. unfold py_add. rewrite Ha, Hb.
  destruct na as [m|x], nb as [n|y]; simpl in *.
  - eexists _, _. split; [reflexivity|]. split; [reflexivity|].
    simpl. rewrite of_int_Ok; [by eexists|]. lia.
  - rewrite of_int_Ok by lia. simpl.
    eexists _, _. split; [reflexivity|]. split; [reflexivity|]. by eexists.
  - rewrite of_int_Ok by lia. simpl.
    eexists _, _. split; [reflexivity|]. split; [reflexivity|]. by eexists.
  - eexists _, _. split; [reflexivity|]. split; [reflexivity|]. by eexists.
Qed.

Lemma field_sum_numbers (i : pyval) (k1 k2 : string) :
  has_number i k1 -> has_number i k2 ->
  exists v n, Draw.field_sum i k1 k2 = Ok v /\ as_number v = Some n
              /\ is_Ok (to_float n).
Proof.
  intros (a & na & Ha & Hna & Hca) (b & nb & Hb & Hnb & Hcb).
  unfold Draw.field_sum.
  rewrite Ha. simpl. rewrite Hb. simpl. by eapply py_add_numbers.
Qed.

Lemma numeric_line_of_pairs (a b c d : pyval) (na nb nc nd : number) :
  as_number a = Some na -> as_number b = Some nb ->
  as_number c = Some nc -> as_number d = Some nd ->
  is_Ok (to_float na) -> is_Ok (to_float nb) ->
  is_Ok (to_float nc) -> is_Ok (to_float nd) ->
  numeric_line (PTuple [PTuple [a; b]; PTuple [c; d]]).
Proof.
  intros Ha Hb Hc Hd Hfa Hfb Hfc Hfd. unfold numeric_line, coordinate. simpl.
  rewrite Ha, Hb, Hc, Hd. repeat split; assumption.
Qed.

Lemma canvas_line_numeric (i : pyval) :
  has_number i "left" -> has_number i "top" -> has_number i "x1" ->
  has_number i "y1" -> has_number i "x2" -> has_number i "y2" ->
  exists g, Draw.canvas_line i = Ok g /\ numeric_line g.
Proof.
  intros Hl Ht Hx1 Hy1 Hx2 Hy2. unfold Draw.canvas_line.
  destruct (field_sum_numbers i "left" "x1" Hl Hx1) as (a & na & -> & Ha & Hfa).
  destruct (field_sum_numbers i "top" "y1" Ht Hy1) as (b & nb & -> & Hb & Hfb).
  destruct (field_sum_numbers i "left" "x2" Hl Hx2) as (c & nc & -> & Hc & Hfc).
  destruct (field_sum_numbers i "top" "y2" Ht Hy2) as (d & nd & -> & Hd & Hfd).
  simpl. eexists. split; [reflexivity|].
  by apply (numeric_line_of_pairs a b c d na nb nc nd).
Qed.

(** A list of pairs of numbers is an array of two columns. *)
Lemma array_of_pairs (vs : list pyval) :
  Forall (fun v => exists a b na nb,
            v = PList [a; b] /\ as_number a = Some na /\ as_number b = Some nb)
         vs ->
  is_Ok (np.array (PList vs)).
Proof.
  intros Hvs. unfold np.array.
  assert (Hrows : exists rows, for_each np.row_of vs = Ok rows
                               /\ Forall (fun r => length r = 2%nat) rows).
  { induction Hvs as [|v vs (a & b & na & nb & -> & Ha & Hb) _ (rows & Hr & Hl)].
    - exists []. split; [reflexivity | constructor].
    - simpl. rewrite Ha, Hb. simpl. rewrite Hr. simpl.
      eexists. split; [reflexivity|]. constructor; [reflexivity | assumption]. }
  destruct Hrows as (rows & -> & Hl). simpl.
  rewrite (uniform_of_lengths rows 2 Hl). eexists. reflexivity.
Qed.

Lemma canvas_rect_numeric (i : pyval) :
  has_number i "left" -> has_number i "top" -> has_number i "width" ->
  has_number i "height" ->
  exists p, Draw.canvas_rect i = Ok p /\ is_Ok (np.array p).
Proof.
  intros Hl Ht Hw Hh. unfold Draw.canvas_rect.
  destruct (field_sum_numbers i "left" "width" Hl Hw) as (r & nr & Hr & Hnr & _).
  destruct (field_sum_numbers i "top" "height" Ht Hh) as (b & nb & Hb & Hnb & _).
  destruct Hl as (l & nl & Hl & Hnl & _). destruct Ht as (t & nt & Ht & Hnt & _).
  rewrite Hl. simpl. rewrite Ht. simpl. rewrite Hr. simpl. rewrite Hb. simpl.
  eexists. split; [reflexivity|].
  apply array_of_pairs. repeat constructor; eauto 10.
Qed.

Lemma path_vertices_numeric (cs : list pyval) :
  Forall numeric_command cs ->
  exists vs,
    for_each Draw.path_vertex cs = Ok vs
    /\ Forall (fun v => exists a b na nb,
                 v = PList [a; b] /\ as_number a = Some na
                 /\ as_number b = Some nb) vs.
Proof.
  induction 1 as [|c cs (a & b & na & nb & Ha & Hb & Hna & Hnb) _
                    (vs & Hvs & Hall)].
  - exists []. split; [reflexivity | constructor].
  - assert (Hc : Draw.path_vertex c = Ok (PList [a; b]))
      by (unfold Draw.path_vertex; rewrite Ha; simpl; rewrite Hb; reflexivity).
    cbn [for_each]. rewrite Hc. cbn [mbind result_bind].
    rewrite Hvs. cbn [mbind result_bind]. eexists. split; [reflexivity|].
    constructor; eauto 10.
Qed.

Lemma canvas_path_numeric (i : pyval) (cmds : list pyval) :
  py_getitem_key i "path" = Ok (PList cmds) ->
  Forall numeric_command (removelast cmds) ->
  exists p, Draw.canvas_path i = Ok p /\ is_Ok (np.array p).
Proof.
  intros Hpath Hcmds. unfold Draw.canvas_path. rewrite Hpath. simpl.
  unfold Draw.path_polygon. simpl.
  destruct (path_vertices_numeric _ Hcmds) as (vs & -> & Hall). simpl.
  eexists. split; [reflexivity|]. by apply array_of_pairs.
Qed.

Lemma for_each_total_with {A B} (body : A -> result B) (Q : B -> Prop) xs :
  Forall (fun x => exists v, body x = Ok v /\ Q v) xs ->
  exists vs, for_each body xs = Ok vs /\ Forall Q vs.
Proof.
  induction 1 as [|x xs (v & Hv & HQ) _ (vs & Hvs & HQs)]; simpl.
  - exists []. split; [reflexivity | constructor].
  - rewrite Hv. simpl. rewrite Hvs. simpl. eexists. split; [reflexivity|].
    by constructor.
Qed.

Lemma comprehension_total_with {A B} (cond : A -> result bool)
    (body : A -> result B) (Q : B -> Prop) d :
  Forall (fun i => exists c, cond i = Ok c
                             /\ (c = true -> exists v, body i = Ok v /\ Q v)) d ->
  exists vs, comprehension cond body d = Ok vs /\ Forall Q vs.
Proof.
  induction 1 as [|i d (c & Hc & Hb) _ (vs & Hvs & HQs)]; simpl.
  - exists []. split; [reflexivity | constructor].
  - rewrite Hc. simpl. destruct c.
    + destruct (Hb eq_refl) as (v & Hv & HQ). rewrite Hv. simpl.
      rewrite Hvs. simpl. eexists. split; [reflexivity|]. by constructor.
    + eauto.
Qed.

(** Record by record: the comprehensions of [Draw.from_canvas] go
    through on numeric records and give numeric geometry. *)
Lemma from_canvas_numeric (d : list pyval) :
  Forall canvas_record d ->
  exists dr, Draw.from_canvas d = Ok dr /\ numeric_draw dr.
Proof.
  intros Hd. unfold Draw.from_canvas.
  destruct (comprehension_total_with (Draw.type_is "line") Draw.canvas_line
              numeric_line d) as (ls & -> & Hls).
  { eapply Forall_impl; [exact Hd|]. intros i (t & Ht & Hline & _ & _).
    exists (py_eq_str t "line"). unfold Draw.type_is. rewrite Ht. simpl.
    split; [reflexivity|]. intros Hl.
    destruct (Hline Hl) as (H1 & H2 & H3 & H4 & H5 & H6).
    by apply canvas_line_numeric. }
  simpl.
  destruct (comprehension_total_with (Draw.type_is "path")
              (fun i => py_getitem_key i "path")
              (fun j => exists cmds, j = PList cmds
                                     /\ Forall numeric_command (removelast cmds))
              d) as (js & -> & Hjs).
  { eapply Forall_impl; [exact Hd|]. intros i (t & Ht & _ & _ & Hpath).
    exists (py_eq_str t "path"). unfold Draw.type_is. rewrite Ht. simpl.
    split; [reflexivity|]. intros Hp.
    destruct (Hpath Hp) as (cmds & Hc & Hn). eauto. }
  simpl.
  destruct (for_each_total_with py_init
              (fun k => exists cs, k = PList cs /\ Forall numeric_command cs) js)
    as (ks & -> & Hks).
  { eapply Forall_impl; [exact Hjs|]. intros j (cmds & -> & Hn). simpl. eauto. }
  simpl.
  destruct (for_each_total_with Draw.path_polygon
              (fun p => is_Ok (np.array p)) ks) as (ps & -> & Hps).
  { eapply Forall_impl; [exact Hks|]. intros k (cs & -> & Hn).
    unfold Draw.path_polygon. simpl.
    destruct (path_vertices_numeric cs Hn) as (vs & -> & Hall). simpl.
    eexists. split; [reflexivity|]. by apply array_of_pairs. }
  simpl.
  destruct (comprehension_total_with (Draw.type_is "rect") Draw.canvas_rect
              (fun p => is_Ok (np.array p)) d) as (rs & -> & Hrs).
  { eapply Forall_impl; [exact Hd|]. intros i (t & Ht & _ & Hrect & _).
    exists (py_eq_str t "rect"). unfold Draw.type_is. rewrite Ht. simpl.
    split; [reflexivity|]. intros Hr.
    destruct (Hrect Hr) as (H1 & H2 & H3 & H4).
    by apply canvas_rect_numeric. }
  simpl. eexists. split; [reflexivity|]. split; simpl; [assumption|].
  apply Forall_app. by split.
Qed.

(** X3: on canvas records with numeric fields, [Draw.from_canvas]
    returns, and the DrawSet it returns is numeric: every line is a pair
    of pairs of numbers and every zone is a polygon that [np.array]
    accepts. *)
Theorem from_canvas_total (d : list pyval) :
  Forall canvas_record d ->
  exists dr, Draw.from_canvas d = Ok dr /\ numeric_draw dr.
Proof. exact (from_canvas_numeric d). Qed.

(** An integer beyond the floats cannot be added to a float: such a
    record makes the extraction raise. *)
Example from_canvas_overflow :
  Draw.from_canvas
    [PDict [("type", PStr "line"); ("left", PInt (2 ^ 1024));
            ("top", PInt 0); ("x1", PFloat (f64.of_Q (1 # 2)));
            ("y1", PInt 0); ("x2", PInt 100); ("y2", PInt 0)]]
  = Err OverflowError.
Proof. vm_compute. reflexivity. Qed.

Lemma sample_records_numeric :
  Forall canvas_record [line_record; rect_record; path_record; circle_record].
Proof.
  assert (Hn : forall i k v n,
             py_getitem_key i k = Ok v -> as_number v = Some n ->
             canvas_number n -> has_number i k)
    by (intros i k v n Hv Hnum Hc; exists v, n; repeat split; assumption).
  repeat constructor.
  - exists (PStr "line"). split; [reflexivity|].
    split; [|split]; intros Hk; try discriminate Hk.
    repeat split; (eapply Hn; [reflexivity | reflexivity | simpl; lia]).
  - exists (PStr "rect"). split; [reflexivity|].
    split; [|split]; intros Hk; try discriminate Hk.
    repeat split; (eapply Hn; [reflexivity | reflexivity | simpl; lia]).
  - exists (PStr "path"). split; [reflexivity|].
    split; [|split]; intros Hk; try discriminate Hk.
    eexists. split; [reflexivity|]. simpl.
    repeat constructor; eexists _, _, _, _; repeat split; reflexivity.
  - exists (PStr "circle"). split; [reflexivity|].
    split; [|split]; intros Hk; discriminate Hk.
Qed.

Lemma from_canvas_total_witness :
  Forall canvas_record [line_record; rect_record; path_record; circle_record]
  /\ exists dr,
       Draw.from_canvas [line_record; rect_record; path_record; circle_record]
       = Ok dr
       /\ numeric_draw dr.
Proof.
  split; [exact sample_records_numeric|].
  exact (from_canvas_total
           [line_record; rect_record; path_record; circle_record]
           sample_records_numeric).
Defined.

(** X4: [Draw.from_canvas] on two lists of records one after the other
    returns when it returns on each: the lines are those of the first
    list followed by those of the second, and the zones are the zones of
    both, in some order. *)
Theorem from_canvas_app (d1 d2 : list pyval) (a b : Draw.t) :
  Draw.from_canvas d1 = Ok a -> Draw.from_canvas d2 = Ok b ->
  exists dr,
    Draw.from_canvas (d1 ++ d2) = Ok dr
    /\ Draw.lines dr = Draw.lines a ++ Draw.lines b
    /\ Draw.zones dr ≡ₚ Draw.zones a ++ Draw.zones b
    /\ Draw.len dr = (Draw.len a + Draw.len b)%nat.
Proof.
  unfold Draw.from_canvas. intros Ha Hb.
  inv_bind Ha. rename a0 into ls1, E into Hl1.
  inv_bind Ha. rename a0 into js1, E into Hj1.
  inv_bind Ha. rename a0 into ks1, E into Hk1.
  inv_bind Ha. rename a0 into ps1, E into Hp1.
  inv_bind Ha. rename a0 into rs1, E into Hr1. injection Ha as <-.
  inv_bind Hb. rename a into ls2, E into Hl2.
  inv_bind Hb. rename a into js2, E into Hj2.
  inv_bind Hb. rename a into ks2, E into Hk2.
  inv_bind Hb. rename a into ps2, E into Hp2.
  inv_bind Hb. rename a into rs2, E into Hr2. injection Hb as <-.
  rewrite !comprehension_app, Hl1, Hl2, Hj1, Hj2, Hr1, Hr2. simpl.
  rewrite for_each_app, Hk1, Hk2. simpl.
  rewrite for_each_app, Hp1, Hp2. simpl.
  eexists. split; [reflexivity|]. simpl. split; [reflexivity|]. split.
  - rewrite <- !app_assoc. apply Permutation_app_head.
    rewrite !app_assoc. apply Permutation_app_tail. apply Permutation_app_comm.
  - unfold Draw.len. simpl. rewrite !length_app. lia.
Qed.

Lemma from_canvas_app_witness :
  exists dr,
    Draw.from_canvas ([rect_record; path_record] ++ [path_record; line_record])
    = Ok dr
    /\ Draw.lines dr = [] ++ [line_geometry]
    /\ Draw.zones dr ≡ₚ [path_polygon; rect_polygon] ++ [path_polygon]
    /\ Draw.len dr = (2 + 2)%nat.
Proof.
  exact (from_canvas_app [rect_record; path_record] [path_record; line_record]
           (Draw.mk [] [path_polygon; rect_polygon])
           (Draw.mk [line_geometry] [path_polygon]) eq_refl eq_refl).
Defined.

Lemma from_canvas_app_inv (d1 d2 : list pyval) :
  is_Ok (Draw.from_canvas (d1 ++ d2)) ->
  is_Ok (Draw.from_canvas d1) /\ is_Ok (Draw.from_canvas d2).
Proof.
  unfold Draw.from_canvas. intros [dr H].
  rewrite !comprehension_app in H.
  inv_bind H. inv_bind E. inv_bind E. injection E as <-.
  inv_bind H. inv_bind E. inv_bind E. injection E as <-.
  rewrite for_each_app in H.
  inv_bind H. inv_bind E. inv_bind E. injection E as <-.
  rewrite for_each_app in H.
  inv_bind H. inv_bind E. inv_bind E. injection E as <-.
  inv_bind H. inv_bind E. inv_bind E. injection E as <-.
  split;
    repeat (match goal with
            | Hx : ?m = Ok _ |- context [?m] => rewrite Hx; simpl
            end);
    eexists; reflexivity.
Qed.

(** X5: a record on which [Draw.from_canvas] raises makes it raise on
    every list of records that contains it, whatever the other records
    are. *)
Theorem from_canvas_raises_anywhere (d1 d2 : list pyval) (r : pyval) :
  ~ is_Ok (Draw.from_canvas [r]) ->
  ~ is_Ok (Draw.from_canvas (d1 ++ r :: d2)).
Proof.
  intros Hr Hall. apply Hr.
  apply from_canvas_app_inv in Hall as [_ Hall].
  change (r :: d2) with ([r] ++ d2) in Hall.
  by apply from_canvas_app_inv in Hall as [Hall _].
Qed.

Lemma from_canvas_raises_anywhere_witness :
  ~ is_Ok (Draw.from_canvas [PDict [("type", PStr "rect"); ("left", PInt 1)]])
  /\ ~ is_Ok (Draw.from_canvas
               ([line_record]
                ++ PDict [("type", PStr "rect"); ("left", PInt 1)]
                   :: [path_record])).
Proof.
  assert (Hr : ~ is_Ok (Draw.from_canvas
                          [PDict [("type", PStr "rect"); ("left", PInt 1)]]))
    by (intros [dr Hdr]; vm_compute in Hdr; discriminate Hdr).
  split; [exact Hr|].
  exact (from_canvas_raises_anywhere [line_record] [path_record]
           (PDict [("type", PStr "rect"); ("left", PInt 1)]) Hr).
Defined.

(** ** [plur] and [Draw.__str__] *)

Lemma py_prefix_s (k : Z) :
  py_prefix "s" k = if decide (1 <= k)%Z then "s" else "".
Proof.
  unfold py_prefix. simpl String.length.
  destruct (Z.ltb_spec k 0); case_decide; try lia.
  - replace (Z.max 0 (Z.of_nat 1 + k)) with 0%Z by lia. reflexivity.
  - replace (Z.min k (Z.of_nat 1)) with 1%Z by lia. reflexivity.
  - replace (Z.min k (Z.of_nat 1)) with 0%Z by lia. reflexivity.
Qed.

(** For a count other than zero, [n ^ 1] is at least 1 exactly from
    [n = 2] on. *)
Lemma lxor_1_ge_1 (n : Z) :
  n <> 0%Z -> (1 <= Z.lxor n 1)%Z <-> (2 <= n)%Z.
Proof.
  intros Hn0. destruct n as [|p|p].
  - contradiction.
  - destruct p.
    + change (Z.lxor (Z.pos p~1) 1) with (Z.pos p~0). lia.
    + change (Z.lxor (Z.pos p~0) 1) with (Z.pos p~1). lia.
    + change (Z.lxor 1 1) with 0%Z. lia.
  - pose proof (Z.lxor_nonneg (Z.neg p) 1) as [Hn _].
    split; [intros H1 | lia].
    assert (H0 : (0 <= Z.lxor (Z.neg p) 1)%Z) by lia.
    apply Hn in H0. destruct H0 as [_ H0]. specialize (H0 ltac:(lia)). lia.
Qed.

(** X6: [plur] gives nothing for a count of zero; for any other count it
    gives the list item with the count and the word, and appends the
    plural "s" exactly when the count is 2 or more. *)
Theorem plur_plural (n : Z) (s : string) :
  plur 0 s = ""
  /\ (n <> 0%Z ->
      plur n s = newline +:+ "- " +:+ pretty n +:+ " " +:+ s
                 +:+ (if decide (2 <= n)%Z then "s" else "")).
Proof.
  split; [reflexivity|]. intros Hn. unfold plur.
  destruct (decide (n = 0%Z)); [contradiction|].
  rewrite py_prefix_s. do 4 f_equal.
  pose proof (lxor_1_ge_1 n Hn). repeat case_decide; tauto || reflexivity.
Qed.

Lemma plur_plural_witness :
  plur 1 "line" = newline +:+ "- 1 line"
  /\ plur 2 "line" = newline +:+ "- 2 lines".
Proof.
  split.
  - exact (proj2 (plur_plural 1 "line") ltac:(discriminate)).
  - exact (proj2 (plur_plural 2 "line") ltac:(discriminate)).
Defined.

Lemma plur_empty (n : Z) (s : string) : plur n s = "" <-> n = 0%Z.
Proof.
  unfold plur. destruct (decide (n = 0%Z)); [tauto|]. split; [|contradiction].
  discriminate.
Qed.

Lemma string_app_empty (a b : string) : a +:+ b = "" <-> a = "" /\ b = "".
Proof.
  destruct a as [|c a]; split.
  - intros H. split; [reflexivity | exact H].
  - intros [_ H]. exact H.
  - intros H. discriminate H.
  - intros [H _]. discriminate H.
Qed.

(** X7: the text of a DrawSet is empty exactly when the DrawSet is, that
    is when its length is zero. *)
Theorem Draw_str_empty (d : Draw.t) : Draw_str d = "" <-> Draw.len d = 0%nat.
Proof.
  unfold Draw_str, Draw.len. rewrite string_app_empty, !plur_empty. lia.
Qed.

(** ** [rgb2hex] *)


(** The 256 channel values, checked one by one: two digits, which read
    back as the value. *)
Lemma format_02x_bytes :
  Forall (fun z => format_02x z = String (hex_char (Z.to_N (z `div` 16)))
                                   (String (hex_char (Z.to_N (z `mod` 16))) "")
                   /\ Raster.hex_byte (hex_char (Z.to_N (z `div` 16)))
                                      (hex_char (Z.to_N (z `mod` 16))) = Some z)
         (seqZ 0 256).
Proof. eapply (bool_decide_unpack _). vm_compute. exact I. Qed.

Lemma format_02x_byte (z : Z) :
  (0 <= z < 256)%Z ->
  format_02x z = String (hex_char (Z.to_N (z `div` 16)))
                   (String (hex_char (Z.to_N (z `mod` 16))) "")
  /\ Raster.hex_byte (hex_char (Z.to_N (z `div` 16)))
                     (hex_char (Z.to_N (z `mod` 16))) = Some z.
Proof.
  intros Hz. pose proof format_02x_bytes as H.
  rewrite Forall_forall in H. apply H. apply elem_of_seqZ. lia.
Qed.

(** X8: for channels from 0 to 255, [rgb2hex] gives a colour code of
    seven characters, and reading that code as [#rrggbb] gives the three
    channels back. *)
Theorem rgb2hex_reads_back (r g b : Z) :
  (0 <= r < 256)%Z -> (0 <= g < 256)%Z -> (0 <= b < 256)%Z ->
  String.length (rgb2hex (r, g, b)) = 7%nat
  /\ Raster.Color_from_hex (rgb2hex (r, g, b)) = Ok (Color.mk r g b).
Proof.
  intros Hr Hg Hb.
  destruct (format_02x_byte r Hr) as [Er Pr].
  destruct (format_02x_byte g Hg) as [Eg Pg].
  destruct (format_02x_byte b Hb) as [Eb Pb].
  unfold rgb2hex. rewrite Er, Eg, Eb. split; [reflexivity|].
  change (Raster.Color_from_hex (String (Ascii.ascii_of_nat 35) (String (hex_char (Z.to_N (r `div` 16))) (String (hex_char (Z.to_N (r `mod` 16))) (String (hex_char (Z.to_N (g `div` 16))) (String (hex_char (Z.to_N (g `mod` 16))) (String (hex_char (Z.to_N (b `div` 16))) (String (hex_char (Z.to_N (b `mod` 16))) ""))))))) = Ok (Color.mk r g b)). unfold Raster.Color_from_hex. rewrite Pr, Pg, Pb. reflexivity.
Qed.

Lemma rgb2hex_reads_back_witness :
  rgb2hex (255, 0, 10)%Z = "#ff000a"
  /\ String.length (rgb2hex (255, 0, 10)%Z) = 7%nat
  /\ Raster.Color_from_hex (rgb2hex (255, 0, 10)%Z) = Ok (Color.mk 255 0 10).
Proof.
  split; [reflexivity|].
  apply (rgb2hex_reads_back 255 0 10); lia.
Defined.

(** ** [maxcam] *)

Lemma split_on_length (c : Ascii.ascii) (s : string) :
  length (split_on c s) = S (count_char c s).
Proof.
  induction s as [|c' s IH]; [reflexivity|]. simpl.
  destruct (decide (c' = c)); simpl; [by rewrite IH|].
  destruct (split_on c s); simpl in *; congruence.
Qed.

Lemma split_on_one (c : Ascii.ascii) (s a : string) :
  split_on c s = [a] -> s = a.
Proof.
  revert a. induction s as [|c' s IH]; intros a; simpl.
  - congruence.
  - destruct (decide (c' = c)).
    + intros H. apply (f_equal length) in H. rewrite length_cons, split_on_length in H.
      discriminate H.
    + destruct (split_on c s) as [|p ps] eqn:E;
        [apply (f_equal length) in E; rewrite split_on_length in E; discriminate E|].
      intros [= <- ->]. f_equal. exact (IH p eq_refl).
Qed.

Lemma split_on_two (c : Ascii.ascii) (s a b : string) :
  split_on c s = [a; b] -> s = a +:+ String c b.
Proof.
  revert a. induction s as [|c' s IH]; intros a; simpl.
  - congruence.
  - destruct (decide (c' = c)) as [->|].
    + intros [= <- H]. apply split_on_one in H. by subst.
    + destruct (split_on c s) as [|p ps] eqn:E;
        [apply (f_equal length) in E; rewrite split_on_length in E; discriminate E|].
      intros [= <- ->]. rewrite (IH p eq_refl) at 1. reflexivity.
Qed.

(** X9: [maxcam] gives the fallback 640x480 whenever the probe output
    does not hold exactly one [x], whatever else it holds; with exactly
    one [x] it gives the two parsed sides, or raises what [int] raises on
    the first side that is no number. *)
Theorem maxcam_fallback (int : string -> result Z) (out : string) :
  (count_char letter_x out <> 1%nat -> maxcam int out = Ok (640, 480)%Z)
  /\ (count_char letter_x out = 1%nat ->
      exists a b, out = a +:+ "x" +:+ b
                  /\ maxcam int out
                     = (width ← int a; height ← int b; Ok (width, height))).
Proof.
  unfold maxcam. pose proof (split_on_length letter_x out) as Hlen. split; intros Hc.
  - case_decide; [lia | reflexivity].
  - case_decide; [|lia].
    destruct (split_on letter_x out) as [|a [|b [|]]] eqn:E; try discriminate.
    exists a, b. split; [exact (split_on_two _ _ _ _ E)|].
    simpl. destruct (int a); [|reflexivity]. simpl. destruct (int b); reflexivity.
Qed.

Lemma maxcam_fallback_witness :
  maxcam py_int "" = Ok (640, 480)%Z
  /\ exists a b, "1920x1080" +:+ newline = a +:+ "x" +:+ b
                 /\ maxcam py_int ("1920x1080" +:+ newline)
                    = (width ← py_int a; height ← py_int b; Ok (width, height))
                 /\ maxcam py_int ("1920x1080" +:+ newline) = Ok (1920, 1080)%Z.
Proof.
  split.
  - apply (proj1 (maxcam_fallback py_int "")). vm_compute. discriminate.
  - destruct (proj2 (maxcam_fallback py_int ("1920x1080" +:+ newline)) eq_refl)
      as (a & b & E & M).
    exists a, b. split; [exact E|]. split; [exact M|]. reflexivity.
Defined.

(** ** Colour classification *)

Lemma Qred_eq_inv (p q : Q) : Qred p = Qred q -> (p == q)%Q.
Proof. intros H. rewrite <- (Qred_correct p), <- (Qred_correct q), H. reflexivity. Qed.

Lemma Qdiv_255 (q : Q) : (q / 255 == q * (1 # 255))%Q.
Proof. reflexivity. Qed.

Lemma rgb2ycc_inj (p q : Z * Z * Z) : rgb2ycc p = rgb2ycc q -> p = q.
Proof.
  destruct p as [[r g] b], q as [[r' g'] b']. unfold rgb2ycc.
  intros [= Hy Hcb Hcr].
  apply Qred_eq_inv in Hy, Hcb, Hcr.
  rewrite !Qdiv_255 in Hy, Hcb, Hcr.
  assert (Hr : (inject_Z r == inject_Z r')%Q) by lra.
  assert (Hg : (inject_Z g == inject_Z g')%Q) by lra.
  assert (Hb : (inject_Z b == inject_Z b')%Q) by lra.
  unfold Qeq in Hr, Hg, Hb. simpl in Hr, Hg, Hb.
  f_equal; [f_equal|]; lia.
Qed.

Lemma inject_Z_range (z lo hi : Z) :
  (lo <= z <= hi)%Z -> (inject_Z lo <= inject_Z z <= inject_Z hi)%Q.
Proof. intros [? ?]. split; rewrite <- Zle_Qle; assumption. Qed.

(** X10: for channels from 0 to 255 the luma that [rgb2ycc] gives lies
    in [0, 1], the blue chroma in [127.4999, 128.5] and the red chroma
    in [127.5, 128.5]. *)
Theorem rgb2ycc_range (r g b : Z) :
  (0 <= r <= 255)%Z -> (0 <= g <= 255)%Z -> (0 <= b <= 255)%Z ->
  let '(y, cb, cr) := rgb2ycc (r, g, b) in
  (0 <= y <= 1)%Q
  /\ (1274999 # 10000 <= cb <= 1285 # 10)%Q
  /\ (1275 # 10 <= cr <= 1285 # 10)%Q.
Proof.
  intros Hr Hg Hb. unfold rgb2ycc.
  apply inject_Z_range in Hr, Hg, Hb.
  rewrite !Qred_correct, !Qdiv_255.
  change (inject_Z 0) with 0%Q in *. change (inject_Z 255) with 255%Q in *.
  repeat split; lra.
Qed.

Lemma Qsquare (q : Q) : (q ^ 2 = q * q)%Q.
Proof. reflexivity. Qed.

Lemma Qsquare_nonneg (q : Q) : (0 <= q * q)%Q.
Proof. unfold Qle. simpl. rewrite Z.mul_1_r. apply Z.square_nonneg. Qed.

Lemma Qsquare_zero (q : Q) : (q * q <= 0)%Q -> (q == 0)%Q.
Proof.
  intros H. pose proof (Qsquare_nonneg q).
  assert (E : (q * q == 0)%Q) by lra.
  apply Qmult_integral in E. tauto.
Qed.

Lemma sqdist_nonneg (c x : Q * Q * Q) : (0 <= sqdist c x)%Q.
Proof.
  destruct c as [[c0 c1] c2], x as [[x0 x1] x2]. unfold sqdist.
  rewrite Qred_correct, !Qsquare.
  pose proof (Qsquare_nonneg (c0 - x0)). pose proof (Qsquare_nonneg (c1 - x1)).
  pose proof (Qsquare_nonneg (c2 - x2)). lra.
Qed.

Lemma sqdist_self (c : Q * Q * Q) : (sqdist c c == 0)%Q.
Proof.
  destruct c as [[c0 c1] c2]. unfold sqdist. rewrite Qred_correct, !Qsquare.
  ring.
Qed.

Lemma sqdist_le_0 (c x : Q * Q * Q) :
  (sqdist c x <= 0)%Q ->
  (c.1.1 == x.1.1 /\ c.1.2 == x.1.2 /\ c.2 == x.2)%Q.
Proof.
  destruct c as [[c0 c1] c2], x as [[x0 x1] x2]. unfold sqdist. cbn [fst snd].
  rewrite Qred_correct, !Qsquare. intros H.
  pose proof (Qsquare_nonneg (c0 - x0)). pose proof (Qsquare_nonneg (c1 - x1)).
  pose proof (Qsquare_nonneg (c2 - x2)).
  assert (H0' : (c0 - x0 == 0)%Q) by (apply Qsquare_zero; lra).
  assert (H1' : (c1 - x1 == 0)%Q) by (apply Qsquare_zero; lra).
  assert (H2' : (c2 - x2 == 0)%Q) by (apply Qsquare_zero; lra).
  repeat split; lra.
Qed.

Lemma sqdist_zero (p q : Z * Z * Z) :
  (sqdist (rgb2ycc p) (rgb2ycc q) <= 0)%Q -> p = q.
Proof.
  intros H. apply sqdist_le_0 in H. destruct H as (Hy & Hcb & Hcr).
  apply rgb2ycc_inj.
  destruct p as [[r g] b], q as [[r' g'] b']. unfold rgb2ycc in *. simpl in *.
  rewrite !Qred_correct in Hy, Hcb, Hcr.
  f_equal; [f_equal|]; apply Qred_complete; assumption.
Qed.

(** X11: a colour of the palette is classified as itself: [closest]
    gives the first index at which the palette holds that colour. *)
Theorem closest_palette_colour (palette : list (Z * Z * Z)) (i : nat)
    (rgb : Z * Z * Z) :
  palette !! i = Some rgb ->
  exists j, closest rgb (map rgb2ycc palette) = Ok j
            /\ (j <= i)%nat /\ palette !! j = Some rgb
            /\ forall k, (k < j)%nat -> palette !! k <> Some rgb.
Proof.
  intros Hi.
  destruct (closest rgb (map rgb2ycc palette)) as [j|e] eqn:E.
  - exists j. split; [reflexivity|].
    apply closest_first_minimum in E. destruct E as (m & Hj & Hmin & Hfirst).
    rewrite !list_lookup_fmap in Hj.
    destruct (palette !! j) as [pj|] eqn:Ej; [|discriminate]. simpl in Hj.
    injection Hj as <-.
    assert (H0 : (map (fun c => sqdist c (rgb2ycc rgb)) (map rgb2ycc palette)) !! i
                 = Some (sqdist (rgb2ycc rgb) (rgb2ycc rgb))).
    { rewrite !list_lookup_fmap, Hi. reflexivity. }
    pose proof (sqdist_self (rgb2ycc rgb)) as Hself.
    assert (pj = rgb) as ->.
    { apply sqdist_zero. rewrite <- Hself. exact (Hmin _ _ H0). }
    assert (Hnone : forall k, (k < j)%nat -> palette !! k <> Some rgb).
    { intros k Hlt Hk.
      assert (Hk0 : (map (fun c => sqdist c (rgb2ycc rgb)) (map rgb2ycc palette)) !! k
                    = Some (sqdist (rgb2ycc rgb) (rgb2ycc rgb))).
      { rewrite !list_lookup_fmap, Hk. reflexivity. }
      pose proof (Hfirst _ _ Hlt Hk0) as Hc. lra. }
    split; [|split; [reflexivity | exact Hnone]].
    destruct (le_lt_dec j i) as [|Hlt]; [assumption|].
    exfalso. exact (Hnone i Hlt Hi).
  - exfalso. unfold closest, argmin in E.
    destruct palette; [discriminate Hi | discriminate E].
Qed.

Lemma closest_palette_colour_witness :
  exists j, closest (0, 0, 255)%Z
              (map rgb2ycc [(255, 0, 0); (0, 0, 255); (0, 0, 255)]%Z) = Ok j
            /\ (j <= 2)%nat
            /\ [(255, 0, 0); (0, 0, 255); (0, 0, 255)]%Z !! j = Some (0, 0, 255)%Z
            /\ forall k, (k < j)%nat ->
                 [(255, 0, 0); (0, 0, 255); (0, 0, 255)]%Z !! k <> Some (0, 0, 255)%Z.
Proof.
  apply (closest_palette_colour [(255, 0, 0); (0, 0, 255); (0, 0, 255)]%Z 2).
  reflexivity.
Defined.

Lemma rgb2ycc_range_witness :
  let '(y, cb, cr) := rgb2ycc (255, 255, 0)%Z in
  (0 <= y <= 1)%Q
  /\ (1274999 # 10000 <= cb <= 1285 # 10)%Q
  /\ (1275 # 10 <= cr <= 1285 # 10)%Q.
Proof. apply (rgb2ycc_range 255 255 0); lia. Defined.

(** ** The annotation pass *)

Section Pass.
Context `{Externals}.

Lemma closest_in_range (rgb : Z * Z * Z) (ycc : list (Q * Q * Q)) (i : nat) :
  closest rgb ycc = Ok i -> (i < length ycc)%nat.
Proof.
  intros E. apply closest_first_minimum in E. destruct E as (m & Hi & _).
  apply lookup_lt_Some in Hi. by rewrite length_map in Hi.
Qed.

Lemma closest_total (rgb : Z * Z * Z) (ycc : list (Q * Q * Q)) :
  ycc <> [] -> is_Ok (closest rgb ycc).
Proof.
  intros Hne. unfold closest, argmin. destruct ycc; [contradiction|].
  simpl. eexists. reflexivity.
Qed.

(** X13: the colour step cannot run out of the palette: when the palette
    is not empty and every colour of it has a name, the step raises only
    if the crop cannot be averaged. *)
Theorem color_step_total (tw : Tweak.t) (f : frame) (bb : Z * Z * Z * Z) :
  colors_rgb <> [] ->
  (length colors_rgb <= length colors)%nat ->
  is_Ok (avg_rgb (crop f bb)) ->
  is_Ok (Annotator.color_step tw f bb).
Proof.
  intros Hne Hlen [rgb Hrgb]. unfold Annotator.color_step.
  destruct bb as [[[x1 y1] x2] y2]. rewrite Hrgb. simpl.
  destruct (closest_total rgb ycc_colors) as [i Hi].
  { unfold ycc_colors. destruct colors_rgb; [contradiction | discriminate]. }
  rewrite Hi. simpl. apply closest_in_range in Hi.
  unfold ycc_colors in Hi. rewrite length_map in Hi.
  unfold Annotator.list_index.
  destruct (lookup_lt_is_Some_2 colors_rgb i Hi) as [[[r g] b] Hc].
  destruct (lookup_lt_is_Some_2 colors i ltac:(lia)) as [text Ht].
  rewrite Hc. simpl. rewrite Ht. simpl. eexists. reflexivity.
Qed.

Lemma line_loop_snd (la : LineZoneAnnotator.t) (det : list Detection.t)
    (f : frame) (ls : list LineZone.t) :
  snd (Annotator.line_loop la det f ls) = map (fun l => line_trigger l det) ls.
Proof.
  revert f. induction ls as [|l ls IH]; intros f; simpl; [reflexivity|].
  specialize (IH (line_annotate la f (line_trigger l det))).
  destruct (Annotator.line_loop la det _ ls). simpl in *. by rewrite IH.
Qed.

Lemma zone_loop_snd (det : list Detection.t) (f : frame)
    (zs : list PolygonZone.t) (zones : list PolygonZoneAnnotator.t) :
  (length zs <= length zones)%nat ->
  snd (Annotator.zone_loop det f zs zones) = map (fun z => zone_trigger z det) zs.
Proof.
  revert f zones. induction zs as [|z zs IH]; intros f zones Hlen; simpl.
  - by destruct zones.
  - destruct zones as [|a zones]; simpl in Hlen; [lia|].
    specialize (IH (zone_annotate a (zone_trigger z det) f) zones ltac:(lia)).
    destruct (Annotator.zone_loop det _ zs zones). simpl in *. by rewrite IH.
Qed.

(** What a pass that returns has done to the pipeline. *)
Lemma call_inv (self self' : Annotator.t) (f f' res : frame) (begin now : Q) :
  Annotator.call self f begin now = Ok (self', f', res) ->
  exists det f1,
    Model.det (Annotator.model self) f = Ok (det, res)
    /\ self' = Annotator.mk (Annotator.model self) (Annotator.reso self)
                 (Annotator.draw self) (Annotator.display self)
                 (Annotator.tweak self)
                 (map (fun l => line_trigger l det) (Annotator.ls self))
                 (snd (Annotator.zone_loop det f1 (Annotator.zs self)
                         (Annotator.zones self)))
                 (Annotator.text_color self) (Annotator.line self)
                 (Annotator.box self) (Annotator.zones self).
Proof.
  unfold Annotator.call. intros Hcall.
  inv_bind Hcall. destruct a as [det res0].
  inv_bind Hcall. inv_bind Hcall.
  match type of Hcall with
  | context [Annotator.line_loop ?la det ?g ?ls] =>
      pose proof (line_loop_snd la det g ls) as Hll;
      destruct (Annotator.line_loop la det g ls) as [f1 ls']
  end.
  simpl in Hll. subst ls'.
  destruct (Annotator.zone_loop det f1 _ _) as [f2 zs'] eqn:Ez.
  inv_bind Hcall. injection Hcall as Hs _ Hr. subst self' res.
  exists det, f1. split; [assumption|]. by rewrite Ez.
Qed.

(** X14: whatever the toggles, a pass that returns has triggered every
    line and every zone of the pipeline once, with the detections of the
    frame, and has changed nothing else of the pipeline. *)
Theorem call_only_triggers (self self' : Annotator.t) (f f' res : frame)
    (begin now : Q) :
  consistent self ->
  Annotator.call self f begin now = Ok (self', f', res) ->
  exists det,
    Model.det (Annotator.model self) f = Ok (det, res)
    /\ self' = Annotator.mk (Annotator.model self) (Annotator.reso self)
                 (Annotator.draw self) (Annotator.display self)
                 (Annotator.tweak self)
                 (map (fun l => line_trigger l det) (Annotator.ls self))
                 (map (fun z => zone_trigger z det) (Annotator.zs self))
                 (Annotator.text_color self) (Annotator.line self)
                 (Annotator.box self) (Annotator.zones self).
Proof.
  intros (_ & _ & Hlen) Hcall.
  destruct (call_inv _ _ _ _ _ _ _ Hcall) as (det & f1 & Hdet & ->).
  exists det. split; [exact Hdet|].
  rewrite zone_loop_snd by lia. reflexivity.
Qed.

(** X15: with the fps toggle on, a pass whose two clock readings are
    equal does not return: once the detection, the colour and the box
    steps are through, the division for the rate raises. *)
Theorem call_fps_needs_time (self : Annotator.t) (f : frame) (begin now : Q) :
  Display.fps (Annotator.display self) = true ->
  (now == begin)%Q ->
  ~ is_Ok (Annotator.call self f begin now)
  /\ (Display.predict_color (Annotator.display self) = false ->
      Display.box (Annotator.display self) = false ->
      is_Ok (Model.det (Annotator.model self) f) ->
      Annotator.call self f begin now = Err ZeroDivisionError).
Proof.
  intros Hfps Hclock.
  assert (Hz : Qeq_bool (now - begin) 0 = true).
  { apply Qeq_bool_iff. rewrite Hclock. ring. }
  unfold Annotator.call. rewrite Hfps, Hz. split.
  - intros [[[self' f'] res] Hcall].
    inv_bind Hcall. destruct a as [det res0].
    inv_bind Hcall. inv_bind Hcall.
    destruct (Annotator.line_loop _ det _ _) as [f1 ls'].
    destruct (Annotator.zone_loop det f1 _ _) as [f2 zs'].
    discriminate Hcall.
  - intros Hcol Hbox [[det res] Hdet]. rewrite Hdet, Hcol, Hbox. simpl.
    destruct (Annotator.line_loop _ det _ _) as [f1 ls'].
    destruct (Annotator.zone_loop det f1 _ _) as [f2 zs'].
    reflexivity.
Qed.

(** X16: for a model of the legacy generation, the preview that a pass
    gives next to the annotated frame is the frame as it came in with
    its channels swapped, whatever was painted meanwhile. *)
Theorem call_legacy_preview (self self' : Annotator.t) (f f' res : frame)
    (begin now : Q) :
  Model.legacy (Annotator.model self) = true ->
  Annotator.call self f begin now = Ok (self', f', res) ->
  cvt f = Ok res /\ res = swap_channels f.
Proof.
  intros Hleg Hcall.
  destruct (call_inv _ _ _ _ _ _ _ Hcall) as (det & f1 & Hdet & _).
  unfold Model.det in Hdet. rewrite Hleg in Hdet. simpl in Hdet.
  inv_bind Hdet. injection Hdet as _ <-. split; [exact E|].
  unfold cvt in E. case_decide; [discriminate|]. by injection E as <-.
Qed.

End Pass.

(** ** The states of the pipeline *)

Section States.
Context `{Externals}.

Lemma Forall2_left {A B} (P : A -> B -> Prop) (Q : A -> Prop) xs ys :
  Forall2 P xs ys -> (forall x y, P x y -> Q x) -> Forall Q xs.
Proof. induction 1; constructor; eauto. Qed.

Lemma line_zone_total (i : pyval) :
  numeric_line i -> is_Ok (Annotator.line_zone i).
Proof.
  intros ([x1 H1] & [y1 H2] & [x2 H3] & [y2 H4]).
  apply coordinate_Ok in H1 as (i0 & a & na & Hi0 & Ha & Hna & _).
  apply coordinate_Ok in H2 as (i0' & b & nb & Hi0' & Hb & Hnb & _).
  apply coordinate_Ok in H3 as (i1 & c & nc & Hi1 & Hc & Hnc & _).
  apply coordinate_Ok in H4 as (i1' & d & nd & Hi1' & Hd & Hnd & _).
  rewrite Hi0 in Hi0'. injection Hi0' as <-.
  rewrite Hi1 in Hi1'. injection Hi1' as <-.
  unfold Annotator.line_zone.
  rewrite Hi0. simpl. rewrite Ha. simpl. rewrite Hb. simpl.
  rewrite Hi1. simpl. rewrite Hc. simpl. rewrite Hd. simpl.
  eexists. reflexivity.
Qed.

Lemma init_total (model : Model.t) (reso : Z * Z) (draw : Draw.t)
    (display : Display.t) (tweak : Tweak.t) :
  drawable draw -> is_Ok (Color_from_hex (Tweak.text_color tweak)) ->
  (0 <= fst reso)%Z -> (0 <= snd reso)%Z ->
  is_Ok (Annotator.init model reso draw display tweak).
Proof.
  intros [Hlines Hpolys] [tc Htc] Hw Hh. unfold Annotator.init.
  destruct (for_each_total Annotator.line_zone (Draw.lines draw)) as [ls Hls].
  { eapply Forall_impl; [exact Hlines|]. intros i. apply line_zone_total. }
  rewrite Hls. simpl.
  destruct (for_each_total (Annotator.polygon_zone reso) (Draw.zones draw))
    as [zs Hzs].
  { eapply Forall_impl; [exact Hpolys|]. intros p Hp.
    destruct (polygon_zone_total reso p Hp Hw Hh) as (rows & _ & _ & _ & Hz).
    eexists. exact Hz. }
  rewrite Hzs. simpl. rewrite Htc. simpl. eexists. reflexivity.
Qed.

Lemma init_inv (model : Model.t) (reso : Z * Z) (draw : Draw.t)
    (display : Display.t) (tweak : Tweak.t) (self : Annotator.t) :
  Annotator.init model reso draw display tweak = Ok self ->
  exists ls zs tc,
    for_each Annotator.line_zone (Draw.lines draw) = Ok ls
    /\ for_each (Annotator.polygon_zone reso) (Draw.zones draw) = Ok zs
    /\ Color_from_hex (Tweak.text_color tweak) = Ok tc
    /\ self = Annotator.mk model reso draw display tweak ls zs tc
                (LineZoneAnnotator.mk (Tweak.thickness tweak) tc
                   (Tweak.text_scale tweak) (Tweak.text_offset tweak)
                   (Tweak.text_padding tweak))
                (BoxAnnotator.mk (Tweak.thickness tweak) tc
                   (Tweak.text_scale tweak) (Tweak.text_padding tweak))
                (imap (Annotator.zone_annotator tweak tc) zs).
Proof.
  unfold Annotator.init. intros Hi.
  inv_bind Hi. rename a into ls, E into Hls.
  inv_bind Hi. rename a into zs, E into Hzs.
  inv_bind Hi. rename a into tc, E into Htc.
  injection Hi as <-. exists ls, zs, tc. auto.
Qed.

(** X17: when [update] returns. It returns only if the recorded height
    is not zero, the lines of the DrawSet are numeric, and there is a
    zone annotator for every zone of the DrawSet. It does return then, on
    every frame that has pixels, when moreover the zones are polygons of
    integers and the recorded resolution has positive sides. *)
Theorem update_ok_conditions (self : Annotator.t) (f : frame) :
  (is_Ok (Annotator.update self f) ->
   snd (Annotator.reso self) <> 0%Z
   /\ Forall numeric_line (Draw.lines (Annotator.draw self))
   /\ (length (Draw.zones (Annotator.draw self))
       <= length (Annotator.zones self))%nat)
  /\ (Forall numeric_line (Draw.lines (Annotator.draw self)) ->
      (length (Draw.zones (Annotator.draw self))
       <= length (Annotator.zones self))%nat ->
      Forall int_polygon (Draw.zones (Annotator.draw self)) ->
      (0 < fst (Annotator.reso self))%Z -> (0 < snd (Annotator.reso self))%Z ->
      (0 < frame_width f)%Z -> (0 < frame_height f)%Z ->
      is_Ok (Annotator.update self f)).
Proof.
  split.
  - intros [self' Hu].
    destruct (update_inv _ _ _ Hu)
      as (s & origin & Hs & Hls & Hor & Hzs & Hlen & _).
    split; [|split].
    + by apply scale_of_inv in Hs as [Hs _].
    + apply for_each_Forall2 in Hls. eapply Forall2_left; [exact Hls|].
      intros i lz Hlz. simpl in Hlz.
      apply scaled_line_zone_inv in Hlz.
      destruct Hlz as (x1 & y1 & x2 & y2 & H1 & H2 & H3 & H4 & _).
      unfold numeric_line, is_Ok. eauto 10.
    + apply for_each_length in Hor. apply for_each_length in Hzs. lia.
  - intros Hl Hlen Hz Hw Hh _ _.
    apply update_total; [assumption | by split | lia | assumption].
Qed.

(** *** From the canvas to a pipeline *)

Lemma int64_bound (z : Z) : (Z.abs z <= 2 ^ 54)%Z -> f64.in_int64 z = true.
Proof.
  intros Hz. unfold f64.in_int64, f64.int64_min, f64.int64_max.
  apply andb_true_iff. split; apply Z.leb_le; lia.
Qed.

(** A list of pairs of integers, not empty, is a polygon of integers. *)
Lemma int_polygon_of_pairs (vs : list pyval) :
  vs <> [] ->
  Forall (fun v => exists a b,
            v = PList [PInt a; PInt b]
            /\ (Z.abs a <= 2 ^ 54)%Z /\ (Z.abs b <= 2 ^ 54)%Z) vs ->
  int_polygon (PList vs).
Proof.
  intros Hne Hvs.
  assert (Hrows : exists rows,
             mapM int_row vs = Some rows
             /\ length rows = length vs
             /\ Forall (fun r => length r = 2%nat) rows).
  { clear Hne. induction Hvs as [|v vs (a & b & -> & Ha & Hb) _ (rows & Hr & Hl & Hf)].
    - exists []. repeat split. constructor.
    - exists ([a; b] :: rows). split; [|split].
      + apply mapM_Some. constructor; [|by apply mapM_Some].
        simpl. rewrite !int64_bound by assumption. reflexivity.
      + simpl. by rewrite Hl.
      + by constructor. }
  destruct Hrows as (rows & Hr & Hl & Hf).
  exists rows. split; [exact Hr|]. split; [|split; [exact Hf|]].
  - intros ->. destruct vs; [contradiction | discriminate].
  - destruct Hvs as [|v vs' (a & b & -> & _) _]; [contradiction|]. reflexivity.
Qed.

Lemma field_sum_ints (i : pyval) (k1 k2 : string) :
  has_int i k1 -> has_int i k2 ->
  exists z, Draw.field_sum i k1 k2 = Ok (PInt z) /\ (Z.abs z <= 2 ^ 54)%Z.
Proof.
  intros (a & Ha & Hba) (b & Hb & Hbb). unfold Draw.field_sum.
  rewrite Ha. simpl. rewrite Hb. simpl. exists (a + b)%Z.
  split; [reflexivity | lia].
Qed.

Lemma canvas_rect_int_polygon (i : pyval) :
  has_int i "left" -> has_int i "top" -> has_int i "width" ->
  has_int i "height" ->
  exists p, Draw.canvas_rect i = Ok p /\ int_polygon p.
Proof.
  intros Hl Ht Hw Hh. unfold Draw.canvas_rect.
  destruct (field_sum_ints i "left" "width" Hl Hw) as (r & Hr & Hbr).
  destruct (field_sum_ints i "top" "height" Ht Hh) as (b & Hb & Hbb).
  destruct Hl as (l & Hl & Hbl). destruct Ht as (t & Ht & Hbt).
  rewrite Hl. simpl. rewrite Ht. simpl. rewrite Hr. simpl. rewrite Hb. simpl.
  eexists. split; [reflexivity|].
  apply int_polygon_of_pairs; [discriminate|].
  repeat constructor; eexists _, _; (split; [reflexivity|]); lia.
Qed.

Lemma path_vertices_int (cs : list pyval) :
  Forall int_command cs ->
  exists vs,
    for_each Draw.path_vertex cs = Ok vs
    /\ length vs = length cs
    /\ Forall (fun v => exists a b,
                 v = PList [PInt a; PInt b]
                 /\ (Z.abs a <= 2 ^ 54)%Z /\ (Z.abs b <= 2 ^ 54)%Z) vs.
Proof.
  induction 1 as [|c cs (a & b & Ha & Hb & Hba & Hbb) _ (vs & Hvs & Hlen & Hall)].
  - exists []. repeat split. constructor.
  - assert (Hc : Draw.path_vertex c = Ok (PList [PInt a; PInt b]))
      by (unfold Draw.path_vertex; rewrite Ha; simpl; rewrite Hb; reflexivity).
    cbn [for_each]. rewrite Hc. cbn [mbind result_bind].
    rewrite Hvs. cbn [mbind result_bind]. eexists. split; [reflexivity|].
    split; [simpl; by rewrite Hlen|].
    constructor; [|exact Hall]. exists a, b. split; [reflexivity|]. lia.
Qed.

(** Record by record: on whole records the comprehensions of
    [Draw.from_canvas] go through and give geometry that triggers can be
    built from. *)
Lemma from_canvas_drawable (d : list pyval) :
  Forall whole_record d ->
  exists dr, Draw.from_canvas d = Ok dr /\ drawable dr.
Proof.
  intros Hd. unfold Draw.from_canvas.
  destruct (comprehension_total_with (Draw.type_is "line") Draw.canvas_line
              numeric_line d) as (ls & -> & Hls).
  { eapply Forall_impl; [exact Hd|]. intros i (t & Ht & Hline & _ & _).
    exists (py_eq_str t "line"). unfold Draw.type_is. rewrite Ht. simpl.
    split; [reflexivity|]. intros Hl.
    destruct (Hline Hl) as (H1 & H2 & H3 & H4 & H5 & H6).
    by apply canvas_line_numeric. }
  simpl.
  destruct (comprehension_total_with (Draw.type_is "path")
              (fun i => py_getitem_key i "path")
              (fun j => exists cmds, j = PList cmds
                                     /\ (2 <= length cmds)%nat
                                     /\ Forall int_command (removelast cmds))
              d) as (js & -> & Hjs).
  { eapply Forall_impl; [exact Hd|]. intros i (t & Ht & _ & _ & Hpath).
    exists (py_eq_str t "path"). unfold Draw.type_is. rewrite Ht. simpl.
    split; [reflexivity|]. intros Hp.
    destruct (Hpath Hp) as (cmds & Hc & Hlen & Hn).
    exists (PList cmds). split; [exact Hc|]. exists cmds. auto. }
  simpl.
  destruct (for_each_total_with py_init
              (fun k => exists cs, k = PList cs /\ cs <> []
                                   /\ Forall int_command cs) js)
    as (ks & -> & Hks).
  { eapply Forall_impl; [exact Hjs|]. intros j (cmds & -> & Hlen & Hn). simpl.
    eexists. split; [reflexivity|]. eexists. split; [reflexivity|].
    split; [|exact Hn]. intros Hnil.
    pose proof (length_removelast cmds) as Hl. rewrite Hnil in Hl. simpl in Hl.
    lia. }
  simpl.
  destruct (for_each_total_with Draw.path_polygon int_polygon ks)
    as (ps & -> & Hps).
  { eapply Forall_impl; [exact Hks|]. intros k (cs & -> & Hne & Hn).
    unfold Draw.path_polygon. simpl.
    destruct (path_vertices_int cs Hn) as (vs & -> & Hlen & Hall). simpl.
    eexists. split; [reflexivity|]. apply int_polygon_of_pairs; [|exact Hall].
    intros ->. destruct cs; [contradiction | discriminate]. }
  simpl.
  destruct (comprehension_total_with (Draw.type_is "rect") Draw.canvas_rect
              int_polygon d) as (rs & -> & Hrs).
  { eapply Forall_impl; [exact Hd|]. intros i (t & Ht & _ & Hrect & _).
    exists (py_eq_str t "rect"). unfold Draw.type_is. rewrite Ht. simpl.
    split; [reflexivity|]. intros Hr.
    destruct (Hrect Hr) as (H1 & H2 & H3 & H4).
    by apply canvas_rect_int_polygon. }
  simpl. eexists. split; [reflexivity|]. split; simpl; [assumption|].
  apply Forall_app. by split.
Qed.

(** X18: what the canvas gives can be run when its zones are in whole
    pixels: on canvas records whose rectangles have integer offsets and
    sizes and whose paths have a vertex and integer coordinates, with a
    text colour that parses and a recorded resolution with positive
    sides, [Draw.from_canvas], then [__init__], then [update] on any
    frame that has pixels all return. *)
Theorem canvas_pipeline_total (d : list pyval) (model : Model.t)
    (reso : Z * Z) (display : Display.t) (tweak : Tweak.t) (f : frame) :
  Forall whole_record d ->
  is_Ok (Color_from_hex (Tweak.text_color tweak)) ->
  (0 < fst reso)%Z -> (0 < snd reso)%Z ->
  (0 < frame_width f)%Z -> (0 < frame_height f)%Z ->
  exists dr self self',
    Draw.from_canvas d = Ok dr
    /\ Annotator.init model reso dr display tweak = Ok self
    /\ Annotator.update self f = Ok self'.
Proof.
  intros Hd Htc Hw Hh _ _.
  destruct (from_canvas_drawable d Hd) as (dr & Hdr & Hnum).
  destruct (init_total model reso dr display tweak Hnum Htc ltac:(lia) ltac:(lia))
    as [self Hself].
  destruct (init_inv _ _ _ _ _ _ Hself) as (ls & zs & tc & _ & _ & _ & E).
  assert (Hc : consistent self) by (eapply init_consistent; exact Hself).
  assert (Hn : drawable (Annotator.draw self)) by (by rewrite E).
  assert (Hzl : (length (Draw.zones (Annotator.draw self))
                 <= length (Annotator.zones self))%nat)
    by (destruct Hc as (_ & Hc2 & Hc3); lia).
  assert (Hr1 : (0 <= fst (Annotator.reso self))%Z) by (rewrite E; simpl; lia).
  assert (Hr2 : (0 < snd (Annotator.reso self))%Z) by (rewrite E; simpl; lia).
  destruct (update_total self f Hzl Hn Hr1 Hr2) as [self' Hself'].
  exists dr, self, self'. auto.
Qed.

(** The configuration of a pipeline does not change after it is built. *)
Lemma reachable_config (model : Model.t) (reso : Z * Z) (draw : Draw.t)
    (display : Display.t) (tweak : Tweak.t) (self : Annotator.t) :
  reachable model reso draw display tweak self ->
  Annotator.model self = model /\ Annotator.reso self = reso
  /\ Annotator.draw self = draw /\ Annotator.display self = display
  /\ Annotator.tweak self = tweak.
Proof.
  induction 1 as [self Hi | self f self' _ IH Hu
                 | self f begin now self' f' res _ IH Hc].
  - destruct (init_inv _ _ _ _ _ _ Hi) as (ls & zs & tc & _ & _ & _ & ->).
    simpl. auto.
  - destruct (update_inv _ _ _ Hu)
      as (s & origin & _ & _ & _ & _ & _ & _ & Hd & Hr & Hm & Hdp & Htw & _).
    rewrite Hd, Hr, Hm, Hdp, Htw. exact IH.
  - destruct (call_inv _ _ _ _ _ _ _ Hc) as (det & f1 & _ & ->). simpl. exact IH.
Qed.

Lemma recentered_lookup (zs : list PolygonZone.t)
    (zones : list PolygonZoneAnnotator.t) (i : nat) (a' : PolygonZoneAnnotator.t) :
  (zip_with recenter zs zones ++ drop (length zs) zones) !! i = Some a' ->
  exists a, zones !! i = Some a
            /\ PolygonZoneAnnotator.thickness a' = PolygonZoneAnnotator.thickness a
            /\ PolygonZoneAnnotator.text_color a' = PolygonZoneAnnotator.text_color a
            /\ PolygonZoneAnnotator.text_scale a' = PolygonZoneAnnotator.text_scale a
            /\ PolygonZoneAnnotator.text_padding a'
               = PolygonZoneAnnotator.text_padding a
            /\ PolygonZoneAnnotator.color a' = PolygonZoneAnnotator.color a.
Proof.
  revert zones i. induction zs as [|z zs IH]; intros zones i; simpl.
  - rewrite drop_0. intros Ha. exists a'. repeat split; assumption || reflexivity.
  - destruct zones as [|a zones]; simpl.
    + intros Ha. by rewrite lookup_nil in Ha.
    + destruct i as [|i]; simpl.
      * intros [= <-]. exists a. repeat split; reflexivity.
      * apply IH.
Qed.

(** X19: in every state that a built pipeline goes through, by [update]
    and by passes over frames, the triggers and the zone annotators
    match the geometry one for one, and the annotators keep the styling
    they were built with: the parsed text colour, the sizes of the render
    configuration, and for zone annotator [i] colour [i] of the palette. *)
Theorem reachable_invariant (model : Model.t) (reso : Z * Z) (draw : Draw.t)
    (display : Display.t) (tweak : Tweak.t) (self : Annotator.t) :
  reachable model reso draw display tweak self ->
  consistent self /\ styled self.
Proof.
  induction 1 as [self Hi | self f self' _ [IHc IHs] Hu
                 | self f begin now self' f' res _ [IHc IHs] Hc].
  - split; [eapply init_consistent; exact Hi|].
    destruct (init_inv _ _ _ _ _ _ Hi) as (ls & zs & tc & _ & _ & Htc & ->).
    unfold styled. simpl.
    split; [exact Htc|]. split; [reflexivity|]. split; [reflexivity|].
    intros i a Ha. rewrite list_lookup_imap in Ha.
    destruct (zs !! i); [|discriminate Ha]. injection Ha as <-.
    repeat split.
  - split; [eapply update_consistent; eassumption|].
    destruct (update_inv _ _ _ Hu)
      as (s & origin & _ & _ & _ & _ & _ & Hz & _ & _ & _ & _ & Htw & Htc & Hl & Hb).
    destruct IHs as (Hc1 & Hc2 & Hc3 & Hc4).
    unfold styled. rewrite Htw, Htc, Hl, Hb, Hz.
    split; [assumption|]. split; [assumption|]. split; [assumption|].
    intros i a' Ha'. apply recentered_lookup in Ha'.
    destruct Ha' as (a & Ha & -> & -> & -> & -> & ->). exact (Hc4 i a Ha).
  - destruct (call_inv _ _ _ _ _ _ _ Hc) as (det & f1 & _ & E).
    split; [eapply call_consistent; eassumption|].
    rewrite E. exact IHs.
Qed.

(** X20: the document that [dump] writes is that of the configuration
    the pipeline was built from, in every state the pipeline goes
    through: neither [update] nor a pass over a frame changes what is
    saved, and the counts of the triggers are not part of it. *)
Theorem reachable_dump (model : Model.t) (reso : Z * Z) (draw : Draw.t)
    (display : Display.t) (tweak : Tweak.t) (self : Annotator.t)
    (path : string) (fs : files) :
  reachable model reso draw display tweak self ->
  Annotator.dump self path fs
  = <[path := json_dump
                (PDict [("model", asdict_ModelInfo (Model.info model));
                        ("draw", asdict_Draw draw);
                        ("display", asdict_Display display);
                        ("tweak", asdict_Tweak tweak)])]> fs.
Proof.
  intros Hr. destruct (reachable_config _ _ _ _ _ _ Hr)
    as (Hm & _ & Hd & Hdp & Htw).
  unfold Annotator.dump, Annotator.dict. by rewrite Hm, Hd, Hdp, Htw.
Qed.

End States.

(** ** The saved configuration *)

Lemma json_dump_listify (v : pyval) : json_dump (listify v) = json_dump v.
Proof.
  induction v as [| | | | |l IH|l IH|d IH]; simpl; try reflexivity.
  - f_equal. rewrite map_map. induction IH; simpl; [reflexivity|]. congruence.
  - f_equal. rewrite map_map. induction IH; simpl; [reflexivity|]. congruence.
  - f_equal. rewrite map_map.
    induction IH as [|kv Hkv d' _ IHd]; simpl; [reflexivity|].
    destruct Hkv as [k u v Hv]. simpl. rewrite Hv. f_equal. exact IHd.
Qed.

Section Saved.
Context `{Externals}.

(** X21: a configuration file is stable from its first round trip on:
    the pipeline loaded from a dumped configuration dumps the very
    document it was loaded from, although its DrawSet may differ from
    the dumped one in its tuples. *)
Theorem dump_load_dump (self self' : Annotator.t) (path path' : string)
    (reso : Z * Z) (fs fs' : files) :
  Annotator.load path reso (Annotator.dump self path fs) = Ok self' ->
  Annotator.dump self' path' fs' = Annotator.dump self path' fs'.
Proof.
  rewrite load_dump_init. intros Hi.
  destruct (init_inv _ _ _ _ _ _ Hi) as (ls & zs & tc & _ & _ & _ & ->).
  unfold Annotator.dump, Annotator.dict. cbn [Annotator.model Annotator.draw
    Annotator.display Annotator.tweak].
  rewrite Model_init_info. f_equal.
  unfold asdict_Draw, listify_draw. cbn [Draw.lines Draw.zones json_dump map fst snd].
  rewrite !map_map.
  rewrite (map_ext (fun x => json_dump (listify x)) json_dump json_dump_listify
             (Draw.lines (Annotator.draw self))).
  rewrite (map_ext (fun x => json_dump (listify x)) json_dump json_dump_listify
             (Draw.zones (Annotator.draw self))).
  reflexivity.
Qed.

End Saved.

(** ** The properties at work on the reference backend *)

Lemma color_step_total_witness :
  is_Ok (Annotator.color_step Tweak.default grey_frame (0, 0, 2, 2)%Z).
Proof.
  apply (color_step_total Tweak.default grey_frame (0, 0, 2, 2)%Z).
  - discriminate.
  - simpl. lia.
  - eexists. vm_compute. reflexivity.
Defined.

Lemma sample_pipeline_consistent : consistent sample_pipeline.
Proof. repeat split. Qed.

Lemma seen_pipeline_consistent : consistent seen_pipeline.
Proof. repeat split. Qed.

Lemma call_only_triggers_witness :
  exists det,
    Model.det (Annotator.model seen_pipeline) frame_below
    = Ok (det, blank 30 8 (0, 20, 5)%Z)
    /\ counted_pipeline
       = Annotator.mk (Annotator.model seen_pipeline)
           (Annotator.reso seen_pipeline) (Annotator.draw seen_pipeline)
           (Annotator.display seen_pipeline) (Annotator.tweak seen_pipeline)
           (map (fun l => line_trigger l det) (Annotator.ls seen_pipeline))
           (map (fun z => zone_trigger z det) (Annotator.zs seen_pipeline))
           (Annotator.text_color seen_pipeline) (Annotator.line seen_pipeline)
           (Annotator.box seen_pipeline) (Annotator.zones seen_pipeline).
Proof.
  destruct (Annotator.call seen_pipeline frame_below 0 1)
    as [[[self' f'] res]|e] eqn:E; [|vm_compute in E; discriminate E].
  assert (Hs : self' = counted_pipeline /\ res = blank 30 8 (0, 20, 5)%Z)
    by (vm_compute in E; injection E as <- _ <-; split; reflexivity).
  destruct Hs as [-> ->].
  exact (call_only_triggers seen_pipeline counted_pipeline frame_below f'
           (blank 30 8 (0, 20, 5)%Z) 0 1 seen_pipeline_consistent E).
Defined.

Lemma call_fps_needs_time_witness :
  ~ is_Ok (Annotator.call fps_pipeline frame_480 1 1)
  /\ Annotator.call fps_pipeline frame_480 1 1 = Err ZeroDivisionError
  /\ is_Ok (Annotator.call fps_pipeline frame_480 1 2).
Proof.
  destruct (call_fps_needs_time fps_pipeline frame_480 1 1 eq_refl
              ltac:(reflexivity)) as [Hno Herr].
  split; [exact Hno|]. split.
  - apply Herr; [reflexivity | reflexivity |]. eexists. vm_compute. reflexivity.
  - eexists. vm_compute. reflexivity.
Defined.

Lemma call_legacy_preview_witness :
  Model.legacy (Annotator.model legacy_pipeline) = true
  /\ exists self' f' res,
       Annotator.call legacy_pipeline (blank 2 2 (1, 2, 3)%Z) 0 1
       = Ok (self', f', res)
       /\ cvt (blank 2 2 (1, 2, 3)%Z) = Ok res
       /\ res = blank 2 2 (3, 2, 1)%Z.
Proof.
  split; [reflexivity|].
  destruct (Annotator.call legacy_pipeline (blank 2 2 (1, 2, 3)%Z) 0 1)
    as [[[self' f'] res]|e] eqn:E; [|vm_compute in E; discriminate E].
  exists self', f', res. split; [reflexivity|].
  exact (call_legacy_preview legacy_pipeline self' (blank 2 2 (1, 2, 3)%Z)
           f' res 0 1 eq_refl E).
Defined.

Lemma sample_records_whole :
  Forall whole_record [line_record; rect_record; path_record; circle_record].
Proof.
  assert (Hn : forall i k v n,
             py_getitem_key i k = Ok v -> as_number v = Some n ->
             canvas_number n -> has_number i k)
    by (intros i k v n Hv Hnum Hc; exists v, n; repeat split; assumption).
  assert (Hi : forall i k z,
             py_getitem_key i k = Ok (PInt z) -> (Z.abs z <= 2 ^ 53)%Z ->
             has_int i k)
    by (intros i k z Hv Hz; exists z; split; assumption).
  repeat constructor.
  - exists (PStr "line"). split; [reflexivity|].
    split; [|split]; intros Hk; try discriminate Hk.
    repeat split; (eapply Hn; [reflexivity | reflexivity | simpl; lia]).
  - exists (PStr "rect"). split; [reflexivity|].
    split; [|split]; intros Hk; try discriminate Hk.
    repeat split; (eapply Hi; [reflexivity | simpl; lia]).
  - exists (PStr "path"). split; [reflexivity|].
    split; [|split]; intros Hk; try discriminate Hk.
    eexists. split; [reflexivity|]. split; [simpl; lia|]. simpl.
    repeat constructor; eexists _, _;
      (split; [reflexivity|]; split; [reflexivity|]; simpl; lia).
  - exists (PStr "circle"). split; [reflexivity|].
    split; [|split]; intros Hk; discriminate Hk.
Qed.

Lemma canvas_pipeline_total_witness :
  exists dr self self',
    Draw.from_canvas [line_record; rect_record; path_record; circle_record]
    = Ok dr
    /\ Annotator.init (sample_model "one_box.pt") (640, 480)%Z dr display_off
         Tweak.default = Ok self
    /\ Annotator.update self frame_960 = Ok self'.
Proof.
  apply (canvas_pipeline_total
           [line_record; rect_record; path_record; circle_record]
           (sample_model "one_box.pt") (640, 480)%Z display_off Tweak.default
           frame_960 sample_records_whole).
  - eexists. vm_compute. reflexivity.
  - simpl. lia.
  - simpl. lia.
  - vm_compute. reflexivity.
  - vm_compute. reflexivity.
Defined.

(** The pipeline with the gate after passes over two frames, and the
    sample pipeline after an [update]. *)
Lemma sample_states_reachable :
  reachable tracking_model (8, 30)%Z gate_draw display_off Tweak.default
    counted_pipeline
  /\ reachable (sample_model "one_box.pt") (640, 480)%Z sample_draw display_off
       Tweak.default rescaled_pipeline.
Proof.
  split.
  - assert (Hg : reachable tracking_model (8, 30)%Z gate_draw display_off
                   Tweak.default gate_pipeline)
      by (apply reach_init; vm_compute; reflexivity).
    assert (Hs : reachable tracking_model (8, 30)%Z gate_draw display_off
                   Tweak.default seen_pipeline).
    { destruct (Annotator.call gate_pipeline frame_above 0 1)
        as [[[self' f'] res]|e] eqn:E; [|vm_compute in E; discriminate E].
      assert (Hs : self' = seen_pipeline)
        by (vm_compute in E; injection E as <- _ _; reflexivity).
      subst self'. exact (reach_call _ _ _ _ _ _ _ _ _ _ _ _ Hg E). }
    destruct (Annotator.call seen_pipeline frame_below 0 1)
      as [[[self' f'] res]|e] eqn:E; [|vm_compute in E; discriminate E].
    assert (Hc : self' = counted_pipeline)
      by (vm_compute in E; injection E as <- _ _; reflexivity).
    subst self'. exact (reach_call _ _ _ _ _ _ _ _ _ _ _ _ Hs E).
  - assert (Hs : reachable (sample_model "one_box.pt") (640, 480)%Z sample_draw
                   display_off Tweak.default sample_pipeline)
      by (apply reach_init; vm_compute; reflexivity).
    apply (reach_update _ _ _ _ _ sample_pipeline frame_960 rescaled_pipeline Hs).
    vm_compute. reflexivity.
Qed.

Lemma reachable_invariant_witness :
  consistent counted_pipeline /\ styled counted_pipeline.
Proof.
  exact (reachable_invariant tracking_model (8, 30)%Z gate_draw display_off
           Tweak.default counted_pipeline (proj1 sample_states_reachable)).
Defined.

Lemma reachable_dump_witness :
  Annotator.dump rescaled_pipeline "config.json" ∅
  = Annotator.dump sample_pipeline "config.json" ∅.
Proof.
  rewrite (reachable_dump (sample_model "one_box.pt") (640, 480)%Z
             sample_draw display_off Tweak.default rescaled_pipeline
             "config.json" ∅ (proj2 sample_states_reachable)).
  reflexivity.
Defined.

Lemma dump_load_dump_witness :
  exists self',
    Annotator.load "config.json" (1280, 960)%Z
      (Annotator.dump sample_pipeline "config.json" ∅) = Ok self'
    /\ Annotator.draw self' <> Annotator.draw sample_pipeline
    /\ Annotator.dump self' "copy.json" ∅
       = Annotator.dump sample_pipeline "copy.json" ∅.
Proof.
  destruct (Annotator.load "config.json" (1280, 960)%Z
              (Annotator.dump sample_pipeline "config.json" ∅))
    as [self'|e] eqn:E; [|vm_compute in E; discriminate E].
  exists self'. split; [reflexivity|]. split.
  - vm_compute in E. injection E as <-. discriminate.
  - exact (dump_load_dump sample_pipeline self' "config.json" "copy.json"
             (1280, 960)%Z ∅ ∅ E).
Defined.

(** ** Labels and configuration documents *)

Section Labels.
Context `{Externals}.

(** X22: a model of version [rtdetr] has no class names, so the box
    label of a detection with a confidence is made of the confidence and
    the number of the class, and building it cannot raise. *)
Theorem label_rtdetr (info : ModelInfo.t) (d : Detection.t) (c : Q) :
  ModelInfo.ver info = "rtdetr" ->
  Detection.confidence d = Some c ->
  Annotator.label (Model.names (Model.init info)) d
  = Ok (format_conf c +:+ " "
        +:+ match Detection.class_id d with
            | Some cl => format_int cl
            | None => "None"
            end
        +:+ match Detection.tracker_id d with
            | Some tid => if decide (tid = 0%Z) then "" else " " +:+ format_int tid
            | None => ""
            end).
Proof.
  intros Hv Hc. unfold Model.init. rewrite Hv.
  unfold Annotator.label. rewrite Hc. reflexivity.
Qed.

(** X23: the four sections of a configuration document are required,
    although every field within a section has a default: [load] does
    not return on a document that lacks one of them. *)
Theorem load_missing_section (path : string) (reso : Z * Z) (fs : files)
    (j : json) (k : string) :
  fs !! path = Some j ->
  k ∈ sections ->
  py_getitem_key (json_load j) k = Err KeyError ->
  ~ is_Ok (Annotator.load path reso fs).
Proof.
  intros Hj Hk Hmiss [self Hl]. unfold Annotator.load in Hl. rewrite Hj in Hl.
  cbn [mbind result_bind] in Hl.
  inv_bind Hl. rename E into Hmodel. inv_bind Hl.
  inv_bind Hl. rename E into Hdisplay. inv_bind Hl.
  inv_bind Hl. rename E into Htweak. inv_bind Hl.
  inv_bind Hl. rename E into Hdraw. inv_bind Hl.
  unfold sections in Hk. rewrite !elem_of_cons, elem_of_nil in Hk.
  destruct Hk as [-> | [-> | [-> | [-> | []]]]]; congruence.
Qed.

End Labels.

Lemma label_rtdetr_witness :
  Annotator.label (Model.names (Model.init rtdetr_info)) sample_detection
  = Ok "0.90 0".
Proof.
  exact (label_rtdetr rtdetr_info sample_detection (9 # 10) eq_refl eq_refl).
Defined.

Lemma load_missing_section_witness :
  ~ is_Ok (Annotator.load "config.json" (640, 480)%Z
             {["config.json" := no_draw_section]})
  /\ is_Ok (Annotator.load "config.json" (640, 480)%Z
              {["config.json" := empty_sections]}).
Proof.
  split.
  - apply (load_missing_section "config.json" (640, 480)%Z
             {["config.json" := no_draw_section]} no_draw_section "draw").
    + apply lookup_singleton_eq.
    + unfold sections. rewrite !elem_of_cons. tauto.
    + reflexivity.
  - eexists. vm_compute. reflexivity.
Defined.

Lemma Draw_str_empty_witness :
  Draw_str Draw.default = ""
  /\ Draw.len sample_draw <> 0%nat
  /\ Draw_str sample_draw = newline +:+ "- 1 line" +:+ newline +:+ "- 1 zone".
Proof.
  split; [exact (proj2 (Draw_str_empty Draw.default) eq_refl)|].
  split; [|reflexivity].
  intros H0. apply (proj2 (Draw_str_empty sample_draw)) in H0. discriminate H0.
Defined.

Lemma sample_draw_drawable : drawable sample_draw.
Proof.
  split; repeat constructor; try (eexists; reflexivity).
  eexists. repeat split; try reflexivity; try discriminate.
  repeat constructor.
Qed.

Lemma update_ok_conditions_witness :
  is_Ok (Annotator.update sample_pipeline frame_960)
  /\ ~ is_Ok (Annotator.update flat_pipeline frame_960).
Proof.
  split.
  - apply (proj2 (update_ok_conditions sample_pipeline frame_960)).
    + exact (proj1 sample_draw_drawable).
    + simpl. lia.
    + exact (proj2 sample_draw_drawable).
    + simpl. lia.
    + simpl. lia.
    + vm_compute. reflexivity.
    + vm_compute. reflexivity.
  - intros Hok. apply (proj1 (update_ok_conditions flat_pipeline frame_960)) in Hok.
    destruct Hok as [Hh _]. apply Hh. reflexivity.
Defined.
